(** * NovaFund blockchain indexer: cursor tracker, decoder, handlers, poller

    A shallow embedding of the event-indexing pipeline of the NovaFund
    backend (backend/src/indexer): [LedgerTrackerService],
    [EventHandlerService] with its six handlers, and [IndexerService].

    Modelling conventions.
    - JavaScript numbers that hold ledger sequences, counts and delays are
      integers; they are modelled as [Z] (exact below 2^53).
    - [undefined]/[null] are [None]; truthiness of a string is
      non-emptiness, truthiness of a number is being non-zero.
    - A string is the sequence of the bytes of its UTF-8 encoding.
    - The Prisma store is a record of tables.  Tables with a unique column
      are finite maps keyed by that column; [milestone] and [indexerLog]
      are lists in insertion order.  Wall-clock columns ([createdAt],
      [updatedAt]) are left out.
    - Asynchronous methods are computations in the monad [M]: they read
      and write the [World] (store, scripted RPC replies, service flags),
      may raise an [Error], and emit a chronological list of [Effect]s
      (logger calls, sleeps, RPC requests, and a mark at each entry into
      [fetchEvents]).
    - The remote node is the list of the replies it will give; a request
      that finds the list empty is rejected.  Store operations fail only
      where Prisma defines a failure ([update] of an absent row, an
      argument that is missing or not of its type, such as an invalid
      date); [LedgerTracker.t] and [Indexer] below make no such
      assumption. *)

From Stdlib Require Import Ascii.
From stdpp Require Import base numbers list strings gmap pretty.

Local Open Scope Z_scope.

(** ** JavaScript values and built-ins used by the services *)

Module Js.

Inductive Error :=
  | JsError (message : string)        (* new Error(message) *)
  | TypeError (message : string)
  | SyntaxError (message : string)
  | PrismaNotFound (model : string)   (* update() of a row that is absent *)
  | PrismaValidation (model : string) (* an argument is missing or not of its type *)
  | RpcFailure (message : string).    (* a rejected RPC promise *)

Definition message (e : Error) : string :=
  match e with
  | JsError m | TypeError m | SyntaxError m | RpcFailure m => m
  | PrismaNotFound model => "Record to update not found: " +:+ model
  | PrismaValidation model => "Invalid argument: " +:+ model
  end.

(** [`${e?.message}`] for a possibly-null error. *)
Definition message_opt (e : option Error) : string :=
  match e with Some e => message e | None => "undefined" end.

(** [new Date(...)]: a date is kept as what it was built from; whether
    it is a valid date is [isValidDate] below. *)
Inductive Date :=
  | DateOfString (s : string)
  | DateOfMillis (ms : Z).

Definition truthy_string (s : string) : bool :=
  match s with EmptyString => false | String _ _ => true end.

Definition truthy_number (n : Z) : bool := negb (n =? 0).

(** Truthiness of a possibly-undefined string / number. *)
Definition truthy_str (o : option string) : bool :=
  match o with Some s => truthy_string s | None => false end.

Definition truthy_num (o : option Z) : bool :=
  match o with Some n => truthy_number n | None => false end.

(** [x !== undefined] *)
Definition defined {A} (o : option A) : bool :=
  match o with Some _ => true | None => false end.

(** [n.toString()] / [`${n}`] on an integer number. *)
Definition toString (n : Z) : string := pretty n.
#[global] Arguments toString : simpl never.

(** A value that is declared [number] but is at run time a number or a
    string: [ConfigService.get<number>(key)] hands over the string of the
    environment for a key that the validation class does not declare. *)
Inductive Numeric :=
  | Num (n : Z)
  | Text (s : string).

(** [`${v}`] *)
Definition show (v : Numeric) : string :=
  match v with Num n => toString n | Text s => s end.

(** *** White space

    [StrWhiteSpaceChar] of ECMA-262 is a WhiteSpace or LineTerminator code
    point: U+0009 to U+000D, U+0020, U+00A0, U+1680, U+2000 to U+200A,
    U+2028, U+2029, U+202F, U+205F, U+3000 and U+FEFF; in UTF-8 these take
    one, two or three bytes. *)

Definition byte (a : ascii) : nat := Ascii.nat_of_ascii a.

Definition is_white (a : ascii) : bool :=
  bool_decide (byte a = 32%nat)
  || (bool_decide (9 ≤ byte a)%nat && bool_decide (byte a ≤ 13)%nat).

Definition is_white2 (a b : ascii) : bool :=
  bool_decide (byte a = 194%nat) && bool_decide (byte b = 160%nat).

Definition is_white3 (a b c : ascii) : bool :=
  (bool_decide (byte a = 225%nat) && bool_decide (byte b = 154%nat)
   && bool_decide (byte c = 128%nat))
  || (bool_decide (byte a = 226%nat) && bool_decide (byte b = 128%nat)
      && ((bool_decide (128 ≤ byte c)%nat && bool_decide (byte c ≤ 138)%nat)
          || bool_decide (byte c = 168%nat) || bool_decide (byte c = 169%nat)
          || bool_decide (byte c = 175%nat)))
  || (bool_decide (byte a = 226%nat) && bool_decide (byte b = 129%nat)
      && bool_decide (byte c = 159%nat))
  || (bool_decide (byte a = 227%nat) && bool_decide (byte b = 128%nat)
      && bool_decide (byte c = 128%nat))
  || (bool_decide (byte a = 239%nat) && bool_decide (byte b = 187%nat)
      && bool_decide (byte c = 191%nat)).

Fixpoint ltrim (l : list ascii) : list ascii :=
  match l with
  | a :: l1 =>
      if is_white a then ltrim l1
      else match l1 with
           | b :: l2 =>
               if is_white2 a b then ltrim l2
               else match l2 with
                    | c :: l3 => if is_white3 a b c then ltrim l3 else l
                    | [] => l
                    end
           | [] => l
           end
  | [] => []
  end.

(** The same on a reversed string, whose characters have their bytes in
    reverse order. *)
Fixpoint ltrim_reversed (l : list ascii) : list ascii :=
  match l with
  | a :: l1 =>
      if is_white a then ltrim_reversed l1
      else match l1 with
           | b :: l2 =>
               if is_white2 b a then ltrim_reversed l2
               else match l2 with
                    | c :: l3 => if is_white3 c b a then ltrim_reversed l3 else l
                    | [] => l
                    end
           | [] => l
           end
  | [] => []
  end.

Definition trim (s : string) : list ascii :=
  reverse (ltrim_reversed (reverse (ltrim (String.list_ascii_of_string s)))).

(** *** [BigInt(string)] (StringToBigInt of ECMA-262) *)

Definition digit_value (base : Z) (a : ascii) : option Z :=
  let n := Z.of_nat (Ascii.nat_of_ascii a) in
  let v := if bool_decide (48 ≤ n ≤ 57) then Some (n - 48)
           else if bool_decide (97 ≤ n ≤ 102) then Some (n - 87)
           else if bool_decide (65 ≤ n ≤ 70) then Some (n - 55)
           else None in
  match v with
  | Some d => if bool_decide (d < base) then Some d else None
  | None => None
  end.

Fixpoint digits (base acc : Z) (l : list ascii) : option Z :=
  match l with
  | [] => Some acc
  | a :: l' =>
      match digit_value base a with
      | Some d => digits base (acc * base + d) l'
      | None => None
      end
  end.

Definition number_in (base : Z) (l : list ascii) : option Z :=
  match l with [] => None | _ => digits base 0 l end.

Definition StringToBigInt (s : string) : option Z :=
  match trim s with
  | [] => Some 0
  | "0"%char :: c :: r =>
      if bool_decide (c = "x"%char ∨ c = "X"%char) then number_in 16 r
      else if bool_decide (c = "o"%char ∨ c = "O"%char) then number_in 8 r
      else if bool_decide (c = "b"%char ∨ c = "B"%char) then number_in 2 r
      else number_in 10 ("0"%char :: c :: r)
  | "+"%char :: r => number_in 10 r
  | "-"%char :: r => Z.opp <$> number_in 10 r
  | l => number_in 10 l
  end.

(** [BigInt(v)] for a value typed [string] that may be [undefined]. *)
Definition BigInt (v : option string) : Error + Z :=
  match v with
  | None => inl (TypeError "Cannot convert undefined to a BigInt")
  | Some s =>
      match StringToBigInt s with
      | Some n => inr n
      | None => inl (SyntaxError ("Cannot convert " +:+ s +:+ " to a BigInt"))
      end
  end.

(** *** [ToNumber(string)] (StringToNumber of ECMA-262)

    The services use numbers as integers, so the conversion is modelled
    by the safe integer it yields, if it yields one: [None] stands for
    NaN, an infinity, a fraction, and an integer beyond 2^53 - 1. *)

Definition decimal_digit (a : ascii) : option Z :=
  let n := Z.of_nat (byte a) in
  if bool_decide (48 ≤ n ≤ 57) then Some (n - 48) else None.

(** The leading decimal digits of a string, and what follows them. *)
Fixpoint span_digits (l : list ascii) : list ascii * list ascii :=
  match l with
  | a :: l' =>
      match decimal_digit a with
      | Some _ => let p := span_digits l' in (a :: p.1, p.2)
      | None => ([], l)
      end
  | [] => ([], [])
  end.

(** [ExponentPart], if the string is one or is empty. *)
Definition exponent (l : list ascii) : option Z :=
  match l with
  | [] => Some 0
  | e :: r =>
      if bool_decide (e = "e"%char ∨ e = "E"%char) then
        match r with
        | "+"%char :: r' => number_in 10 r'
        | "-"%char :: r' => Z.opp <$> number_in 10 r'
        | _ => number_in 10 r
        end
      else None
  end.

(** [m * 10^d] rounded to the nearest double, ties to even, if that
    double is an integer: the double is [k * 2^e] for the [e] that leaves
    [k] 53 bits, or [e = -1074] for a subnormal. *)
Definition round_to_integer (m d : Z) : option Z :=
  if bool_decide (m = 0) then Some 0
  else
    let p := if bool_decide (0 ≤ d) then m * 10 ^ d else m in
    let q := if bool_decide (0 ≤ d) then 1 else 10 ^ (- d) in
    let e0 := Z.log2 p - Z.log2 q in
    let below := if bool_decide (0 ≤ e0) then bool_decide (p < q * 2 ^ e0)
                 else bool_decide (p * 2 ^ (- e0) < q) in
    let b := if below then e0 - 1 else e0 in
    let e := Z.max (b - 52) (-1074) in
    let num := if bool_decide (0 ≤ e) then p else p * 2 ^ (- e) in
    let den := if bool_decide (0 ≤ e) then q * 2 ^ e else q in
    let k0 := num `div` den in
    let r := num `mod` den in
    let k := if bool_decide (den < 2 * r) then k0 + 1
             else if bool_decide (2 * r = den) then k0 + k0 `mod` 2
             else k0 in
    if bool_decide (0 ≤ e) then Some (k * 2 ^ e)
    else if bool_decide (k `mod` 2 ^ (- e) = 0) then Some (k `div` 2 ^ (- e))
    else None.

Definition safe (n : option Z) : option Z :=
  match n with
  | Some n => if bool_decide (Z.abs n ≤ 2 ^ 53 - 1) then Some n else None
  | None => None
  end.

(** [StrUnsignedDecimalLiteral] other than [Infinity]: digits, an
    optional fraction, an optional exponent, with a digit before the
    exponent. *)
Definition unsigned_decimal (l : list ascii) : option Z :=
  let int := span_digits l in
  let frac := match int.2 with
              | "."%char :: r => span_digits r
              | r => ([], r)
              end in
  match int.1 ++ frac.1 with
  | [] => None
  | ds =>
      m ← digits 10 0 ds;
      x ← exponent frac.2;
      round_to_integer m (x - Z.of_nat (length frac.1))
  end.

Definition StringToNumber (s : string) : option Z :=
  safe
    match trim s with
    | [] => Some 0
    | "0"%char :: c :: r =>
        if bool_decide (c = "x"%char ∨ c = "X"%char) then number_in 16 r
        else if bool_decide (c = "o"%char ∨ c = "O"%char) then number_in 8 r
        else if bool_decide (c = "b"%char ∨ c = "B"%char) then number_in 2 r
        else unsigned_decimal ("0"%char :: c :: r)
    | "+"%char :: r => unsigned_decimal r
    | "-"%char :: r => Z.opp <$> unsigned_decimal r
    | l => unsigned_decimal l
    end.

(** *** Valid dates

    [new Date(ms)] is a valid date when [ms] is within 8.64e15 ms of the
    epoch.  [new Date(string)] is valid when [Date.parse] recognises the
    string.  Every engine recognises the date-time string format of
    ECMA-262 (YYYY-MM-DDTHH:mm:ss.sssZ and its shorter forms); what it
    makes of any other string is left to the engine, and the model counts
    such a string, and one whose fields are out of range, as not
    recognised. *)

(** A number of exactly [k] decimal digits at the head of a string. *)
Definition fixed_number (k : nat) (l : list ascii) : option (Z * list ascii) :=
  if bool_decide (length (take k l) = k) then
    n ← digits 10 0 (take k l); Some (n, drop k l)
  else None.

Definition leap (y : Z) : bool :=
  bool_decide (y `mod` 4 = 0)
  && (negb (bool_decide (y `mod` 100 = 0)) || bool_decide (y `mod` 400 = 0)).

Definition days_in_month (y m : Z) : Z :=
  if bool_decide (m = 2) then (if leap y then 29 else 28)
  else if bool_decide (m = 4 ∨ m = 6 ∨ m = 9 ∨ m = 11) then 30
  else 31.

(** The year: four digits, or a sign and six digits other than -000000,
    within the years whose every instant is a time value. *)
Definition year (l : list ascii) : option (Z * list ascii) :=
  match l with
  | "+"%char :: r => fixed_number 6 r
  | "-"%char :: r =>
      p ← fixed_number 6 r;
      if bool_decide (p.1 = 0) then None else Some (- p.1, p.2)
  | _ => fixed_number 4 l
  end ≫= λ p, if bool_decide (-271820 ≤ p.1 ≤ 275759) then Some p else None.

(** [-MM] and [-DD], each optional, of year [y]. *)
Definition month_day (y : Z) (l : list ascii) : option (list ascii) :=
  match l with
  | "-"%char :: r =>
      m ← fixed_number 2 r;
      if bool_decide (1 ≤ m.1 ≤ 12) then
        match m.2 with
        | "-"%char :: r' =>
            d ← fixed_number 2 r';
            if bool_decide (1 ≤ d.1 ≤ days_in_month y m.1) then Some d.2 else None
        | r' => Some r'
        end
      else None
  | _ => Some l
  end.

(** [Z] or [+HH:mm] or [-HH:mm], or nothing, at the end of the string. *)
Definition offset (l : list ascii) : bool :=
  match l with
  | [] => true
  | [ "Z"%char ] => true
  | s :: r =>
      bool_decide (s = "+"%char ∨ s = "-"%char)
      && match fixed_number 2 r with
         | Some (h, ":"%char :: r') =>
             match fixed_number 2 r' with
             | Some (m, []) => bool_decide (0 ≤ h ≤ 23) && bool_decide (0 ≤ m ≤ 59)
             | _ => false
             end
         | _ => false
         end
  end.

(** [HH:mm], [HH:mm:ss] or [HH:mm:ss.sss], then the offset; hour 24 only
    as the end of the day. *)
Definition time (l : list ascii) : bool :=
  match fixed_number 2 l with
  | Some (h, ":"%char :: r) =>
      match fixed_number 2 r with
      | Some (m, r') =>
          let hm := bool_decide (0 ≤ h ≤ 24) && bool_decide (0 ≤ m ≤ 59) in
          match r' with
          | ":"%char :: r'' =>
              match fixed_number 2 r'' with
              | Some (s, "."%char :: r3) =>
                  match fixed_number 3 r3 with
                  | Some (ms, r4) =>
                      hm && bool_decide (0 ≤ s ≤ 59)
                      && (bool_decide (h < 24) || bool_decide (m = 0 ∧ s = 0 ∧ ms = 0))
                      && offset r4
                  | None => false
                  end
              | Some (s, r3) =>
                  hm && bool_decide (0 ≤ s ≤ 59)
                  && (bool_decide (h < 24) || bool_decide (m = 0 ∧ s = 0))
                  && offset r3
              | None => false
              end
          | _ => hm && (bool_decide (h < 24) || bool_decide (m = 0)) && offset r'
          end
      | None => false
      end
  | _ => false
  end.

Definition isDateTimeString (s : string) : bool :=
  match year (String.list_ascii_of_string s) with
  | Some (y, l) =>
      match month_day y l with
      | Some [] => true
      | Some ("T"%char :: l') => time l'
      | _ => false
      end
  | None => false
  end.

Definition isValidDate (d : Date) : bool :=
  match d with
  | DateOfMillis ms => bool_decide (-8640000000000000 ≤ ms ≤ 8640000000000000)
  | DateOfString s => isDateTimeString s
  end.

End Js.

(** ** types/event-types.ts and types/ledger.types.ts *)

(** The string enum [ContractEventType]; [tag] gives the run-time value. *)
Inductive ContractEventType :=
  | PROJECT_CREATED | PROJECT_FUNDED | PROJECT_COMPLETED | PROJECT_FAILED
  | CONTRIBUTION_MADE | REFUND_ISSUED
  | ESCROW_INITIALIZED | FUNDS_LOCKED | FUNDS_RELEASED | MILESTONE_CREATED
  | MILESTONE_SUBMITTED | MILESTONE_APPROVED | MILESTONE_REJECTED
  | MILESTONE_COMPLETED | VALIDATORS_UPDATED
  | PROFIT_DISTRIBUTED | DIVIDEND_CLAIMED
  | PROPOSAL_CREATED | VOTE_CAST | PROPOSAL_EXECUTED
  | USER_REGISTERED | REPUTATION_UPDATED | BADGE_EARNED
  | PAYMENT_SETUP | PAYMENT_RECEIVED | PAYMENT_WITHDRAWN
  | SUBSCRIPTION_CREATED | SUBSCRIPTION_CANCELLED | SUBSCRIPTION_MODIFIED
  | SUBSCRIPTION_PAUSED | SUBSCRIPTION_RESUMED | PAYMENT_FAILED
  | SUBSCRIPTION_PAYMENT
  | BRIDGE_INITIALIZED | SUPPORTED_CHAIN_ADDED | SUPPORTED_CHAIN_REMOVED
  | ASSET_WRAPPED | ASSET_UNWRAPPED | BRIDGE_DEPOSIT | BRIDGE_WITHDRAW
  | BRIDGE_PAUSED | BRIDGE_UNPAUSED | RELAYER_ADDED | RELAYER_REMOVED
  | BRIDGE_TX_CONFIRMED | BRIDGE_TX_FAILED
  | CONTRACT_PAUSED | CONTRACT_RESUMED | UPGRADE_SCHEDULED | UPGRADE_EXECUTED
  | UPGRADE_CANCELLED.

Definition tag (t : ContractEventType) : string :=
  match t with
  | PROJECT_CREATED => "proj_new" | PROJECT_FUNDED => "proj_fund"
  | PROJECT_COMPLETED => "proj_done" | PROJECT_FAILED => "proj_fail"
  | CONTRIBUTION_MADE => "contrib" | REFUND_ISSUED => "refund"
  | ESCROW_INITIALIZED => "esc_init" | FUNDS_LOCKED => "lock"
  | FUNDS_RELEASED => "release" | MILESTONE_CREATED => "m_create"
  | MILESTONE_SUBMITTED => "m_submit" | MILESTONE_APPROVED => "m_apprv"
  | MILESTONE_REJECTED => "m_reject" | MILESTONE_COMPLETED => "milestone"
  | VALIDATORS_UPDATED => "v_update"
  | PROFIT_DISTRIBUTED => "profit" | DIVIDEND_CLAIMED => "claim"
  | PROPOSAL_CREATED => "proposal" | VOTE_CAST => "vote"
  | PROPOSAL_EXECUTED => "execute"
  | USER_REGISTERED => "user_reg" | REPUTATION_UPDATED => "rep_up"
  | BADGE_EARNED => "badge"
  | PAYMENT_SETUP => "pay_setup" | PAYMENT_RECEIVED => "pay_recv"
  | PAYMENT_WITHDRAWN => "pay_withd"
  | SUBSCRIPTION_CREATED => "subscr" | SUBSCRIPTION_CANCELLED => "sub_cancl"
  | SUBSCRIPTION_MODIFIED => "sub_mod" | SUBSCRIPTION_PAUSED => "sub_pause"
  | SUBSCRIPTION_RESUMED => "sub_resum" | PAYMENT_FAILED => "pay_fail"
  | SUBSCRIPTION_PAYMENT => "deposit"
  | BRIDGE_INITIALIZED => "br_init" | SUPPORTED_CHAIN_ADDED => "chain_add"
  | SUPPORTED_CHAIN_REMOVED => "chain_rem" | ASSET_WRAPPED => "wrap"
  | ASSET_UNWRAPPED => "unwrap" | BRIDGE_DEPOSIT => "br_dep"
  | BRIDGE_WITHDRAW => "br_wdraw" | BRIDGE_PAUSED => "br_pause"
  | BRIDGE_UNPAUSED => "br_res" | RELAYER_ADDED => "rel_add"
  | RELAYER_REMOVED => "rel_rem" | BRIDGE_TX_CONFIRMED => "tx_conf"
  | BRIDGE_TX_FAILED => "tx_fail"
  | CONTRACT_PAUSED => "esc_pause" | CONTRACT_RESUMED => "esc_resum"
  | UPGRADE_SCHEDULED => "upg_sched" | UPGRADE_EXECUTED => "upg_exec"
  | UPGRADE_CANCELLED => "upg_canc"
  end.

(** [Object.values(ContractEventType)], in declaration order. *)
Definition ContractEventType_values : list ContractEventType :=
  [ PROJECT_CREATED; PROJECT_FUNDED; PROJECT_COMPLETED; PROJECT_FAILED;
    CONTRIBUTION_MADE; REFUND_ISSUED;
    ESCROW_INITIALIZED; FUNDS_LOCKED; FUNDS_RELEASED; MILESTONE_CREATED;
    MILESTONE_SUBMITTED; MILESTONE_APPROVED; MILESTONE_REJECTED;
    MILESTONE_COMPLETED; VALIDATORS_UPDATED;
    PROFIT_DISTRIBUTED; DIVIDEND_CLAIMED;
    PROPOSAL_CREATED; VOTE_CAST; PROPOSAL_EXECUTED;
    USER_REGISTERED; REPUTATION_UPDATED; BADGE_EARNED;
    PAYMENT_SETUP; PAYMENT_RECEIVED; PAYMENT_WITHDRAWN;
    SUBSCRIPTION_CREATED; SUBSCRIPTION_CANCELLED; SUBSCRIPTION_MODIFIED;
    SUBSCRIPTION_PAUSED; SUBSCRIPTION_RESUMED; PAYMENT_FAILED;
    SUBSCRIPTION_PAYMENT;
    BRIDGE_INITIALIZED; SUPPORTED_CHAIN_ADDED; SUPPORTED_CHAIN_REMOVED;
    ASSET_WRAPPED; ASSET_UNWRAPPED; BRIDGE_DEPOSIT; BRIDGE_WITHDRAW;
    BRIDGE_PAUSED; BRIDGE_UNPAUSED; RELAYER_ADDED; RELAYER_REMOVED;
    BRIDGE_TX_CONFIRMED; BRIDGE_TX_FAILED;
    CONTRACT_PAUSED; CONTRACT_RESUMED; UPGRADE_SCHEDULED; UPGRADE_EXECUTED;
    UPGRADE_CANCELLED ].

(** [SorobanEvent]: a raw event in the internal wire shape. *)
Record SorobanEvent := mkSorobanEvent {
  ev_type : string;
  ev_ledger : Z;
  ev_ledgerClosedAt : string;
  ev_contractId : string;
  ev_id : string;
  ev_pagingToken : string;
  ev_topic : list string;
  ev_value : string;
  ev_inSuccessfulContractCall : bool;
  ev_txHash : string
}.

(** [ParsedContractEvent.data] is a [Record<string, unknown>] that the
    handlers cast to [ProjectCreatedEvent], [ContributionMadeEvent],
    [MilestoneApprovedEvent], [FundsReleasedEvent] and
    [ProjectStatusEvent].  It is modelled as the record of all the keys
    the code reads or writes, each at its declared type and possibly
    [undefined]. *)
Record EventData := mkEventData {
  rawXdr : option string;
  d_eventType : option ContractEventType;
  projectId : option Z;
  creator : option string;
  fundingGoal : option string;
  deadline : option Z;
  token : option string;
  contributor : option string;
  amount : option string;
  totalRaised : option string;
  milestoneId : option Z;
  approvalCount : option Z;
  status : option string
}.

Record ParsedContractEvent := mkParsedContractEvent {
  eventId : string;
  ledgerSeq : Z;
  ledgerClosedAt : Js.Date;
  contractId : string;
  eventType : ContractEventType;
  transactionHash : string;
  data : EventData;
  inSuccessfulContractCall : bool
}.

(** [LedgerCursor] as returned by [getLastCursor]. *)
Record LedgerCursor := mkLedgerCursor {
  cursor_id : nat;
  cursor_network : string;
  lastLedgerSeq : Z;
  lastLedgerHash : option string
}.

(** [LedgerInfo]: what the network reports about a ledger. *)
Record LedgerInfo := mkLedgerInfo {
  sequence : Z;
  hash : string;
  prevHash : string;
  successfulTransactionCount : Z;
  failedTransactionCount : Z
}.

Record ReorgDetectionResult := mkReorgDetectionResult {
  hasReorg : bool;
  reorgDepth : Z;
  lastValidLedger : Z;
  newLatestLedger : Z
}.

(** ** The persistent store (Prisma models used by the indexer) *)

Record LedgerCursorRow := mkLedgerCursorRow {
  lc_id : nat;
  lc_lastLedgerSeq : Z;
  lc_lastLedgerHash : option string
}.

Record ProcessedEventRow := mkProcessedEventRow {
  pe_network : string;
  pe_ledgerSeq : Z;
  pe_contractId : string;
  pe_eventType : string;
  pe_transactionHash : string
}.

Record UserRow := mkUserRow {
  u_id : nat;
  u_reputationScore : Z
}.

Record ProjectRow := mkProjectRow {
  p_id : nat;
  p_creatorId : nat;
  p_title : string;
  p_category : string;
  p_goal : Z;
  p_deadline : Js.Date;
  p_status : string;
  p_currentFunds : Z
}.

Record ContributionRow := mkContributionRow {
  c_investorId : nat;
  c_projectId : nat;
  c_amount : Z;
  c_timestamp : Js.Date
}.

Record MilestoneRow := mkMilestoneRow {
  m_id : nat;
  m_projectId : nat;
  m_status : string;
  m_completionDate : option Js.Date
}.

Inductive MetaValue :=
  | MetaNumber (n : Z)
  | MetaString (s : string).

(** A row of [indexerLog].  The floating-point [progress] percentage that
    [logProgress] derives from the two ledgers is not stored. *)
Record IndexerLogRow := mkIndexerLogRow {
  l_level : string;
  l_message : string;
  l_metadata : list (string * MetaValue)
}.

(** Tables.  [ledgerCursor] is keyed by its unique [network],
    [processedEvent] by [eventId], [user] by [walletAddress], [project] by
    [contractId], [contribution] by [transactionHash].  [nextId] supplies
    the generated primary keys. *)
Record Db := mkDb {
  ledgerCursor : gmap string LedgerCursorRow;
  processedEvent : gmap string ProcessedEventRow;
  user : gmap string UserRow;
  project : gmap string ProjectRow;
  contribution : gmap string ContributionRow;
  milestone : list MilestoneRow;
  indexerLog : list IndexerLogRow;
  nextId : nat
}.

Definition emptyDb : Db := mkDb ∅ ∅ ∅ ∅ ∅ [] [] 0.

Definition set_ledgerCursor (f : gmap string LedgerCursorRow → gmap string LedgerCursorRow) (d : Db) : Db :=
  mkDb (f (ledgerCursor d)) (processedEvent d) (user d) (project d)
       (contribution d) (milestone d) (indexerLog d) (nextId d).

Definition set_processedEvent (f : gmap string ProcessedEventRow → gmap string ProcessedEventRow) (d : Db) : Db :=
  mkDb (ledgerCursor d) (f (processedEvent d)) (user d) (project d)
       (contribution d) (milestone d) (indexerLog d) (nextId d).

Definition set_user (f : gmap string UserRow → gmap string UserRow) (d : Db) : Db :=
  mkDb (ledgerCursor d) (processedEvent d) (f (user d)) (project d)
       (contribution d) (milestone d) (indexerLog d) (nextId d).

Definition set_project (f : gmap string ProjectRow → gmap string ProjectRow) (d : Db) : Db :=
  mkDb (ledgerCursor d) (processedEvent d) (user d) (f (project d))
       (contribution d) (milestone d) (indexerLog d) (nextId d).

Definition set_contribution (f : gmap string ContributionRow → gmap string ContributionRow) (d : Db) : Db :=
  mkDb (ledgerCursor d) (processedEvent d) (user d) (project d)
       (f (contribution d)) (milestone d) (indexerLog d) (nextId d).

Definition set_milestone (f : list MilestoneRow → list MilestoneRow) (d : Db) : Db :=
  mkDb (ledgerCursor d) (processedEvent d) (user d) (project d)
       (contribution d) (f (milestone d)) (indexerLog d) (nextId d).

Definition set_indexerLog (f : list IndexerLogRow → list IndexerLogRow) (d : Db) : Db :=
  mkDb (ledgerCursor d) (processedEvent d) (user d) (project d)
       (contribution d) (milestone d) (f (indexerLog d)) (nextId d).

Definition set_nextId (f : nat → nat) (d : Db) : Db :=
  mkDb (ledgerCursor d) (processedEvent d) (user d) (project d)
       (contribution d) (milestone d) (indexerLog d) (f (nextId d)).

(** ** The Soroban RPC, as seen by the indexer *)

(** [SorobanRpc.Api.EventResponse]; contract id, topics and value are
    kept as the strings their [toString()] gives. *)
Record RpcEvent := mkRpcEvent {
  r_type : string;
  r_ledger : Z;
  r_ledgerClosedAt : string;
  r_contractId : string;
  r_id : string;
  r_pagingToken : string;
  r_topic : list string;
  r_value : string;
  r_inSuccessfulContractCall : bool;
  r_txHash : option string;
  r_transactionHash : option string
}.

Record EventFilter := mkEventFilter {
  f_type : string;
  f_contractIds : option (list string)
}.

Record GetEventsRequest := mkGetEventsRequest {
  req_startLedger : Z;
  req_filters : list EventFilter;
  req_limit : Z;
  req_cursor : option string
}.

Record GetEventsResponse := mkGetEventsResponse {
  resp_events : option (list RpcEvent);
  resp_cursor : option string
}.

(** ** Worlds, effects and the monad of asynchronous methods *)

Inductive Level := LOG | DEBUG | WARN | ERROR.

Inductive Effect :=
  | Logged (level : Level) (text : string)      (* this.logger.<level>(text) *)
  | Slept (ms : Z)                              (* await this.sleep(ms) *)
  | GetLatestLedger                             (* rpc.getLatestLedger() *)
  | GetEvents (request : GetEventsRequest)      (* rpc.getEvents(request) *)
  | FetchEvents (startLedger endLedger : Z).    (* entry into fetchEvents *)

(** The remote node is a script of the replies it will give, in order, to
    each RPC method; a node that has no reply left rejects the request. *)
Record World := mkWorld {
  db : Db;
  latestLedgerReplies : list (Js.Error + Z);
  getEventsReplies : list (Js.Error + GetEventsResponse);
  isRunning : bool;
  isShuttingDown : bool
}.

Definition set_db (f : Db → Db) (w : World) : World :=
  mkWorld (f (db w)) (latestLedgerReplies w) (getEventsReplies w)
          (isRunning w) (isShuttingDown w).

Definition set_latestLedgerReplies (l : list (Js.Error + Z)) (w : World) : World :=
  mkWorld (db w) l (getEventsReplies w) (isRunning w) (isShuttingDown w).

Definition set_getEventsReplies (l : list (Js.Error + GetEventsResponse)) (w : World) : World :=
  mkWorld (db w) (latestLedgerReplies w) l (isRunning w) (isShuttingDown w).

Definition set_isRunning (b : bool) (w : World) : World :=
  mkWorld (db w) (latestLedgerReplies w) (getEventsReplies w) b (isShuttingDown w).

Inductive Outcome (A : Type) :=
  | Returned (a : A)
  | Raised (e : Js.Error).
Arguments Returned {A} a.
Arguments Raised {A} e.

Record Res (A : Type) := mkRes {
  outcome : Outcome A;
  final : World;
  effects : list Effect
}.
Arguments mkRes {A} _ _ _.
Arguments outcome {A} _.
Arguments final {A} _.
Arguments effects {A} _.

Definition M (A : Type) : Type := World → Res A.

Definition ret {A} (a : A) : M A := λ w, mkRes (Returned a) w [].

Definition bind {A B} (m : M A) (k : A → M B) : M B := λ w,
  match m w with
  | mkRes (Returned a) w' fx =>
      match k a w' with
      | mkRes o w'' fx' => mkRes o w'' (fx ++ fx')
      end
  | mkRes (Raised e) w' fx => mkRes (Raised e) w' fx
  end.

#[global] Instance M_ret : MRet M := @ret.
#[global] Instance M_bind : MBind M := λ A B k m, bind m k.

Definition throw {A} (e : Js.Error) : M A := λ w, mkRes (Raised e) w [].

(** [try { m } catch (e) { h e }] *)
Definition try_catch {A} (m : M A) (h : Js.Error → M A) : M A := λ w,
  match m w with
  | mkRes (Returned a) w' fx => mkRes (Returned a) w' fx
  | mkRes (Raised e) w' fx =>
      match h e w' with
      | mkRes o w'' fx' => mkRes o w'' (fx ++ fx')
      end
  end.

(** [try { m } finally { f }], for a [finally] block that cannot raise. *)
Definition try_finally {A} (m : M A) (f : World → World) : M A := λ w,
  match m w with
  | mkRes o w' fx => mkRes o (f w') fx
  end.

Definition emit (e : Effect) : M unit := λ w, mkRes (Returned tt) w [e].

Definition logger (level : Level) (text : string) : M unit :=
  emit (Logged level text).

Definition sleep (ms : Z) : M unit := emit (Slept ms).

Definition getDb : M Db := λ w, mkRes (Returned (db w)) w [].

Definition modifyDb (f : Db → Db) : M unit := λ w,
  mkRes (Returned tt) (set_db f w) [].

Definition getWorld : M World := λ w, mkRes (Returned w) w [].

Definition modifyWorld (f : World → World) : M unit := λ w,
  mkRes (Returned tt) (f w) [].

(** What a list of effects shows of the fetcher: the sleeps, in order,
    and the number of entries into [fetchEvents]. *)
Definition sleeps (fx : list Effect) : list Z :=
  omap (λ e, match e with Slept ms => Some ms | _ => None end) fx.

Definition fetchCalls (fx : list Effect) : nat :=
  length (omap (λ e, match e with FetchEvents s e' => Some (s, e') | _ => None end) fx).

(** Lift a synchronous computation that may raise. *)
Definition lift {A} (x : Js.Error + A) : M A :=
  match x with inl e => throw e | inr a => ret a end.

(** A generated primary key. *)
Definition freshId : M nat := λ w,
  mkRes (Returned (nextId (db w))) (set_db (set_nextId S) w) [].

(** ** Configuration (the keys read through [ConfigService]) *)

Record Config := mkConfig {
  network : string;                     (* STELLAR_NETWORK *)
  reorgDepthThreshold : Z;              (* INDEXER_REORG_DEPTH_THRESHOLD *)
  INDEXER_START_LEDGER : option string; (* not declared in env.validation.ts *)
  maxEventsPerFetch : Z;                (* INDEXER_MAX_EVENTS_PER_FETCH *)
  retryAttempts : Z;                    (* INDEXER_RETRY_ATTEMPTS *)
  retryDelayMs : Z;                     (* INDEXER_RETRY_DELAY_MS *)
  contractIds : list string
}.

(** [s || undefined] and [s || null] on an optional string. *)
Definition or_undefined (s : option string) : option string :=
  if Js.truthy_str s then s else None.

(** ** services/ledger-tracker.service.ts *)

Module LedgerTrackerService.
Section service.
Context (cfg : Config).

Definition toCursor (row : LedgerCursorRow) : LedgerCursor :=
  {| cursor_id := lc_id row;
     cursor_network := network cfg;
     lastLedgerSeq := lc_lastLedgerSeq row;
     lastLedgerHash := or_undefined (lc_lastLedgerHash row) |}.

Definition getLastCursor : M (option LedgerCursor) :=
  d ← getDb;
  match ledgerCursor d !! network cfg with
  | None => ret None
  | Some row => ret (Some (toCursor row))
  end.

Definition initializeCursor (startLedger : Z) : M LedgerCursor :=
  logger LOG ("Initializing ledger cursor at ledger " +:+ Js.toString startLedger
              +:+ " for network " +:+ network cfg);;
  d ← getDb;
  row ← match ledgerCursor d !! network cfg with
        | Some old => ret (mkLedgerCursorRow (lc_id old) startLedger None)
        | None => i ← freshId; ret (mkLedgerCursorRow i startLedger None)
        end;
  modifyDb (set_ledgerCursor <[network cfg := row]>);;
  ret (toCursor row).

Definition updateCursor (ledgerSeq : Z) (ledgerHash : option string) : M unit :=
  d ← getDb;
  match ledgerCursor d !! network cfg with
  | None => throw (Js.PrismaNotFound "LedgerCursor")
  | Some old =>
      modifyDb (set_ledgerCursor
        <[network cfg := mkLedgerCursorRow (lc_id old) ledgerSeq (or_undefined ledgerHash)]>)
  end;;
  logger DEBUG ("Updated cursor to ledger " +:+ Js.toString ledgerSeq).

Definition detectReorg (currentLedger : LedgerInfo) : M ReorgDetectionResult :=
  cursor ← getLastCursor;
  match cursor with
  | None =>
      ret (mkReorgDetectionResult false 0 (sequence currentLedger - 1)
                                  (sequence currentLedger))
  | Some cursor =>
      match lastLedgerHash cursor with
      | None =>
          ret (mkReorgDetectionResult false 0 (sequence currentLedger - 1)
                                      (sequence currentLedger))
      | Some cursorHash =>
          if bool_decide (sequence currentLedger = lastLedgerSeq cursor) then
            let hasReorg := negb (bool_decide (hash currentLedger = cursorHash)) in
            (if hasReorg then
               logger WARN ("Re-org detected at ledger "
                 +:+ Js.toString (sequence currentLedger) +:+ ". Expected hash: "
                 +:+ cursorHash +:+ ", Got: " +:+ hash currentLedger)
             else ret tt);;
            ret (mkReorgDetectionResult hasReorg
                   (if hasReorg then 1 else 0)
                   (if hasReorg then sequence currentLedger - 1
                    else sequence currentLedger)
                   (sequence currentLedger))
          else if bool_decide (lastLedgerSeq cursor < sequence currentLedger) then
            ret (mkReorgDetectionResult false 0 (lastLedgerSeq cursor)
                                        (sequence currentLedger))
          else
            logger WARN ("Re-org detected. Current ledger "
              +:+ Js.toString (sequence currentLedger) +:+ " is behind cursor "
              +:+ Js.toString (lastLedgerSeq cursor));;
            ret (mkReorgDetectionResult true
                   (lastLedgerSeq cursor - sequence currentLedger)
                   (sequence currentLedger) (sequence currentLedger))
      end
  end.

(** The rows [deleteMany] removes in [handleReorg]. *)
Definition rolledBack (safeLedgerSeq : Z) (row : ProcessedEventRow) : bool :=
  bool_decide (pe_network row = network cfg)
  && bool_decide (safeLedgerSeq < pe_ledgerSeq row).

Definition handleReorg (reorgResult : ReorgDetectionResult) : M Z :=
  if negb (hasReorg reorgResult) then ret (newLatestLedger reorgResult)
  else
    logger WARN ("Handling re-org with depth " +:+ Js.toString (reorgDepth reorgResult)
      +:+ ". Rolling back to ledger " +:+ Js.toString (lastValidLedger reorgResult));;
    let rollbackDepth := Z.min (reorgDepth reorgResult + 2) (reorgDepthThreshold cfg) in
    let safeLedgerSeq := Z.max 0 (lastValidLedger reorgResult - rollbackDepth) in
    modifyDb (set_processedEvent
      (filter (λ kv, rolledBack safeLedgerSeq kv.2 = false)));;
    logger LOG ("Deleted processed events after ledger " +:+ Js.toString safeLedgerSeq);;
    updateCursor safeLedgerSeq None;;
    logger LOG ("Re-org handled. Resuming from ledger " +:+ Js.toString safeLedgerSeq);;
    ret safeLedgerSeq.

(** [prisma.processedEvent.count({ where: { eventId, network } })] *)
Definition countProcessed (d : Db) (eventId : string) : nat :=
  match processedEvent d !! eventId with
  | Some row => if bool_decide (pe_network row = network cfg) then 1%nat else 0%nat
  | None => 0%nat
  end.

Definition isEventProcessed (eventId : string) : M bool :=
  d ← getDb;
  ret (bool_decide (0 < countProcessed d eventId)%nat).

Definition markEventProcessed (eventId : string) (ledgerSeq : Z)
    (contractId eventType transactionHash : string) : M unit :=
  d ← getDb;
  match processedEvent d !! eventId with
  | Some _ => ret tt                   (* update: {} *)
  | None =>
      modifyDb (set_processedEvent
        <[eventId := mkProcessedEventRow (network cfg) ledgerSeq contractId
                                         eventType transactionHash]>)
  end.

(** [configuredStart] is the string of the environment: it is truthy
    when not empty, [configuredStart - 1] converts it to a number, and it
    is returned as it is.  A string that is not an integer makes
    [initializeCursor] pass a non-integer to the store, which rejects it;
    the log line of [initializeCursor] is left out in that case. *)
Definition getStartLedger (latestLedger : Z) : M Js.Numeric :=
  cursor ← getLastCursor;
  let configuredStart := INDEXER_START_LEDGER cfg in
  match cursor with
  | Some cursor => ret (Js.Num (lastLedgerSeq cursor + 1))
  | None =>
      if Js.truthy_str configuredStart then
        let configuredStart := default "" configuredStart in
        logger LOG ("Using configured start ledger: " +:+ configuredStart);;
        match Js.StringToNumber configuredStart with
        | Some n => initializeCursor (n - 1);; ret tt
        | None => throw (Js.PrismaValidation "LedgerCursor")
        end;;
        ret (Js.Text configuredStart)
      else
        logger LOG ("Starting from current ledger: " +:+ Js.toString latestLedger);;
        initializeCursor (latestLedger - 1);;
        ret (Js.Num latestLedger)
  end.

(** The percentage of the log line and of the stored metadata is a
    floating-point number and is left out of both. *)
Definition logProgress (currentLedger targetLedger : Z) (eventsProcessed : nat) : M unit :=
  let remaining := targetLedger - currentLedger in
  logger LOG ("Progress: Ledger " +:+ Js.toString currentLedger +:+ "/"
    +:+ Js.toString targetLedger +:+ " | Events: " +:+ pretty eventsProcessed
    +:+ " | Remaining: " +:+ Js.toString remaining);;
  modifyDb (set_indexerLog (λ l, l ++
    [ mkIndexerLogRow "info" ("Processed ledger " +:+ Js.toString currentLedger)
        [ ("currentLedger", MetaNumber currentLedger);
          ("targetLedger", MetaNumber targetLedger);
          ("eventsProcessed", MetaNumber (Z.of_nat eventsProcessed));
          ("network", MetaString (network cfg)) ] ])).

Definition logError (message : string) (metadata : list (string * MetaValue)) : M unit :=
  logger ERROR message;;
  modifyDb (set_indexerLog (λ l, l ++ [ mkIndexerLogRow "error" message metadata ])).

End service.
End LedgerTrackerService.

(** ** services/event-handler.service.ts *)

(** [`${x}`] for a possibly-undefined number / string. *)
Definition show_num (o : option Z) : string :=
  match o with Some n => Js.toString n | None => "undefined" end.

Definition show_str (o : option string) : string :=
  match o with Some s => s | None => "undefined" end.

(** [data.projectId.toString()] *)
Definition projectId_toString (d : EventData) : M string :=
  match projectId d with
  | Some n => ret (Js.toString n)
  | None => throw (Js.TypeError "Cannot read properties of undefined (reading 'toString')")
  end.

Module Prisma.

(** [user.upsert({ where: { walletAddress }, update: {}, create: {
    walletAddress, reputationScore: 0 } })] *)
Definition upsertUser (walletAddress : option string) : M UserRow :=
  match walletAddress with
  | None => throw (Js.PrismaValidation "User")
  | Some addr =>
      d ← getDb;
      match user d !! addr with
      | Some row => ret row
      | None =>
          i ← freshId;
          let row := mkUserRow i 0 in
          modifyDb (set_user <[addr := row]>);;
          ret row
      end
  end.

(** A [DateTime] argument of a query: the client rejects an invalid
    date before it sends the query. *)
Definition dateArgument (model : string) (d : Js.Date) : M Js.Date :=
  if Js.isValidDate d then ret d else throw (Js.PrismaValidation model).

(** [project.findUnique({ where: { contractId } })] *)
Definition findProject (contractId : string) : M (option ProjectRow) :=
  d ← getDb; ret (project d !! contractId).

(** [project.update({ where: { id }, data })] *)
Definition updateProjectById (pid : nat) (f : ProjectRow → ProjectRow) : M unit :=
  d ← getDb;
  if bool_decide (Exists (λ kv, p_id kv.2 = pid) (map_to_list (project d))) then
    modifyDb (set_project (fmap (λ row, if bool_decide (p_id row = pid) then f row else row)))
  else throw (Js.PrismaNotFound "Project").

(** [project.updateMany({ where: { contractId }, data })] *)
Definition updateProjectsByContractId (contractId : string)
    (f : ProjectRow → ProjectRow) : M unit :=
  modifyDb (set_project (alter f contractId)).

(** [milestone.updateMany({ where: { projectId }, data })] *)
Definition updateMilestonesOfProject (pid : nat) (f : MilestoneRow → MilestoneRow) : M unit :=
  modifyDb (set_milestone
    (map (λ row, if bool_decide (m_projectId row = pid) then f row else row))).

End Prisma.

(** The capability contract [IEventHandler]. *)
Record IEventHandler := mkHandler {
  h_eventType : ContractEventType;
  validate : ParsedContractEvent → bool;
  handle : ParsedContractEvent → M unit
}.

Module ProjectCreatedHandler.

Definition validate (event : ParsedContractEvent) : bool :=
  let data := data event in
  Js.defined (projectId data)
  && Js.truthy_str (creator data)
  && Js.truthy_str (fundingGoal data)
  && Js.truthy_num (deadline data)
  && Js.truthy_str (token data).

Definition handle (event : ParsedContractEvent) : M unit :=
  let data := data event in
  logger LOG ("Processing PROJECT_CREATED: Project " +:+ show_num (projectId data)
              +:+ " by " +:+ show_str (creator data));;
  user ← Prisma.upsertUser (creator data);
  contractId ← projectId_toString data;
  let title := "Project " +:+ show_num (projectId data) in
  goal ← lift (Js.BigInt (fundingGoal data));
  deadline ← match deadline data with
             | Some n => Prisma.dateArgument "Project" (Js.DateOfMillis (n * 1000))
             | None => throw (Js.PrismaValidation "Project")   (* Invalid Date *)
             end;
  d ← getDb;
  match project d !! contractId with
  | Some old =>
      modifyDb (set_project <[contractId :=
        mkProjectRow (p_id old) (p_creatorId old) title (p_category old) goal
                     deadline "ACTIVE" (p_currentFunds old)]>)
  | None =>
      i ← freshId;
      modifyDb (set_project <[contractId :=
        mkProjectRow i (u_id user) title "uncategorized" goal deadline "ACTIVE" 0]>)
  end;;
  logger LOG ("Created/updated project " +:+ show_num (projectId data)).

Definition handler : IEventHandler := mkHandler PROJECT_CREATED validate handle.

End ProjectCreatedHandler.

Module ContributionMadeHandler.

Definition validate (event : ParsedContractEvent) : bool :=
  let data := data event in
  Js.defined (projectId data)
  && Js.truthy_str (contributor data)
  && Js.truthy_str (amount data).

Definition handle (event : ParsedContractEvent) : M unit :=
  let data := data event in
  logger LOG ("Processing CONTRIBUTION_MADE: " +:+ show_str (amount data)
              +:+ " to project " +:+ show_num (projectId data)
              +:+ " from " +:+ show_str (contributor data));;
  user ← Prisma.upsertUser (contributor data);
  contractId ← projectId_toString data;
  project ← Prisma.findProject contractId;
  match project with
  | None =>
      logger WARN ("Project " +:+ show_num (projectId data)
                   +:+ " not found for contribution")
  | Some project =>
      amount' ← lift (Js.BigInt (amount data));
      timestamp ← Prisma.dateArgument "Contribution" (ledgerClosedAt event);
      d ← getDb;
      match contribution d !! transactionHash event with
      | Some _ => ret tt                 (* update: {} *)
      | None =>
          modifyDb (set_contribution <[transactionHash event :=
            mkContributionRow (u_id user) (p_id project) amount' timestamp]>)
      end;;
      totalRaised' ← lift (Js.BigInt (totalRaised data));
      Prisma.updateProjectById (p_id project)
        (λ row, mkProjectRow (p_id row) (p_creatorId row) (p_title row)
                  (p_category row) (p_goal row) (p_deadline row) (p_status row)
                  totalRaised');;
      logger LOG ("Recorded contribution of " +:+ show_str (amount data)
                  +:+ " for project " +:+ show_num (projectId data))
  end.

Definition handler : IEventHandler := mkHandler CONTRIBUTION_MADE validate handle.

End ContributionMadeHandler.

Module MilestoneApprovedHandler.

Definition validate (event : ParsedContractEvent) : bool :=
  let data := data event in
  Js.defined (projectId data) && Js.defined (milestoneId data).

Definition handle (event : ParsedContractEvent) : M unit :=
  let data := data event in
  logger LOG ("Processing MILESTONE_APPROVED: Milestone " +:+ show_num (milestoneId data)
              +:+ " for project " +:+ show_num (projectId data));;
  contractId ← projectId_toString data;
  project ← Prisma.findProject contractId;
  match project with
  | None =>
      logger WARN ("Project " +:+ show_num (projectId data)
                   +:+ " not found for milestone approval")
  | Some project =>
      Prisma.updateMilestonesOfProject (p_id project)
        (λ row, mkMilestoneRow (m_id row) (m_projectId row) "APPROVED"
                               (m_completionDate row));;
      logger LOG ("Approved milestone for project " +:+ show_num (projectId data))
  end.

Definition handler : IEventHandler := mkHandler MILESTONE_APPROVED validate handle.

End MilestoneApprovedHandler.

Module FundsReleasedHandler.

Definition validate (event : ParsedContractEvent) : bool :=
  let data := data event in
  Js.defined (projectId data) && Js.truthy_str (amount data).

Definition handle (event : ParsedContractEvent) : M unit :=
  let data := data event in
  logger LOG ("Processing FUNDS_RELEASED: " +:+ show_str (amount data)
              +:+ " for project " +:+ show_num (projectId data)
              +:+ ", milestone " +:+ show_num (milestoneId data));;
  contractId ← projectId_toString data;
  project ← Prisma.findProject contractId;
  match project with
  | None =>
      logger WARN ("Project " +:+ show_num (projectId data)
                   +:+ " not found for funds release")
  | Some project =>
      completionDate ← Prisma.dateArgument "Milestone" (ledgerClosedAt event);
      Prisma.updateMilestonesOfProject (p_id project)
        (λ row, mkMilestoneRow (m_id row) (m_projectId row) "FUNDED"
                               (Some completionDate));;
      logger LOG ("Released funds for project " +:+ show_num (projectId data))
  end.

Definition handler : IEventHandler := mkHandler FUNDS_RELEASED validate handle.

End FundsReleasedHandler.

Definition setStatus (s : string) (row : ProjectRow) : ProjectRow :=
  mkProjectRow (p_id row) (p_creatorId row) (p_title row) (p_category row)
               (p_goal row) (p_deadline row) s (p_currentFunds row).

Module ProjectCompletedHandler.

Definition validate (event : ParsedContractEvent) : bool :=
  Js.defined (projectId (data event)).

Definition handle (event : ParsedContractEvent) : M unit :=
  let data := data event in
  logger LOG ("Processing PROJECT_COMPLETED: Project " +:+ show_num (projectId data));;
  contractId ← projectId_toString data;
  Prisma.updateProjectsByContractId contractId (setStatus "COMPLETED");;
  logger LOG ("Marked project " +:+ show_num (projectId data) +:+ " as completed").

Definition handler : IEventHandler := mkHandler PROJECT_COMPLETED validate handle.

End ProjectCompletedHandler.

Module ProjectFailedHandler.

Definition validate (event : ParsedContractEvent) : bool :=
  Js.defined (projectId (data event)).

Definition handle (event : ParsedContractEvent) : M unit :=
  let data := data event in
  logger LOG ("Processing PROJECT_FAILED: Project " +:+ show_num (projectId data));;
  contractId ← projectId_toString data;
  Prisma.updateProjectsByContractId contractId (setStatus "CANCELLED");;
  logger LOG ("Marked project " +:+ show_num (projectId data) +:+ " as failed/cancelled").

Definition handler : IEventHandler := mkHandler PROJECT_FAILED validate handle.

End ProjectFailedHandler.

Module EventHandlerService.

(** [register]: [this.handlers.set(handler.eventType, handler)] *)
Definition register (handler : IEventHandler)
    (handlers : gmap string IEventHandler) : gmap string IEventHandler :=
  <[tag (h_eventType handler) := handler]> handlers.

(** The registry after the constructor has run [registerHandlers]. *)
Definition handlers : gmap string IEventHandler :=
  register ProjectFailedHandler.handler
    (register ProjectCompletedHandler.handler
      (register FundsReleasedHandler.handler
        (register MilestoneApprovedHandler.handler
          (register ContributionMadeHandler.handler
            (register ProjectCreatedHandler.handler ∅))))).

Definition getHandler (eventType : string) : option IEventHandler :=
  handlers !! eventType.

Definition isSupported (eventType : string) : bool :=
  bool_decide (is_Some (handlers !! eventType)).

Definition processEvent (event : ParsedContractEvent) : M bool :=
  match getHandler (tag (eventType event)) with
  | None =>
      logger DEBUG ("No handler registered for event type: " +:+ tag (eventType event));;
      ret false
  | Some handler =>
      try_catch
        (if negb (validate handler event) then
           logger WARN ("Event validation failed for " +:+ tag (eventType event));;
           ret false
         else
           handle handler event;;
           ret true)
        (λ error,
           logger ERROR ("Error processing event " +:+ tag (eventType event)
                         +:+ ": " +:+ Js.message error);;
           throw error)
  end.

End EventHandlerService.

(** ** services/indexer.service.ts *)

Module IndexerService.
Section service.
Context (cfg : Config).

(** [rpc.getLatestLedger()], then [.sequence]. *)
Definition getLatestLedger : M Z := λ w,
  match latestLedgerReplies w with
  | [] => mkRes (Raised (Js.RpcFailure "no response")) w [GetLatestLedger]
  | inl e :: rest => mkRes (Raised e) (set_latestLedgerReplies rest w) [GetLatestLedger]
  | inr n :: rest => mkRes (Returned n) (set_latestLedgerReplies rest w) [GetLatestLedger]
  end.

(** [txHash || transactionHash || ''] *)
Definition transformRpcEvent (event : RpcEvent) : SorobanEvent :=
  {| ev_type := r_type event;
     ev_ledger := r_ledger event;
     ev_ledgerClosedAt := r_ledgerClosedAt event;
     ev_contractId := r_contractId event;
     ev_id := r_id event;
     ev_pagingToken := r_pagingToken event;
     ev_topic := r_topic event;
     ev_value := r_value event;
     ev_inSuccessfulContractCall := r_inSuccessfulContractCall event;
     ev_txHash :=
       if Js.truthy_str (r_txHash event) then default "" (r_txHash event)
       else if Js.truthy_str (r_transactionHash event)
            then default "" (r_transactionHash event)
       else "" |}.

Definition filters : list EventFilter :=
  match contractIds cfg with
  | [] => [ mkEventFilter "contract" None ]
  | ids => map (λ contractId, mkEventFilter "contract" (Some [contractId])) ids
  end.

(** The [do ... while (cursor)] loop of [fetchEvents], run against the
    replies the node still has. *)
Fixpoint fetchPages (startLedger : Z)
    (replies : list (Js.Error + GetEventsResponse))
    (events : list SorobanEvent) (cursor : option string)
    : Outcome (list SorobanEvent) * list (Js.Error + GetEventsResponse) * list Effect :=
  let request := mkGetEventsRequest startLedger filters (maxEventsPerFetch cfg) cursor in
  match replies with
  | [] => (Raised (Js.RpcFailure "no response"), [], [GetEvents request])
  | inl e :: rest => (Raised e, rest, [GetEvents request])
  | inr response :: rest =>
      let events := events ++ map transformRpcEvent (default [] (resp_events response)) in
      let cursor := resp_cursor response in
      if bool_decide (maxEventsPerFetch cfg * 5 ≤ Z.of_nat (length events)) then
        (Returned events, rest,
         [ GetEvents request;
           Logged WARN ("Event fetch limit reached. Processing "
                        +:+ pretty (length events) +:+ " events.") ])
      else if Js.truthy_str cursor then
        let '(o, rest', fx) := fetchPages startLedger rest events cursor in
        (o, rest', GetEvents request :: fx)
      else (Returned events, rest, [GetEvents request])
  end.

Definition fetchEvents (startLedger endLedger : Z) : M (list SorobanEvent) := λ w,
  let '(o, rest, fx) := fetchPages startLedger (getEventsReplies w) [] None in
  mkRes o (set_getEventsReplies rest w) (FetchEvents startLedger endLedger :: fx).

(** The [for (attempt = 1; attempt <= retryAttempts; attempt++)] loop of
    [fetchEventsWithRetry], with [remaining] iterations still to run. *)
Fixpoint retryFrom (startLedger endLedger : Z) (remaining : nat) (attempt : Z)
    (lastError : option Js.Error) : M (list SorobanEvent) :=
  match remaining with
  | O =>
      throw (Js.JsError ("Failed to fetch events after "
        +:+ Js.toString (retryAttempts cfg) +:+ " attempts: "
        +:+ Js.message_opt lastError))
  | S remaining =>
      try_catch (fetchEvents startLedger endLedger)
        (λ error,
           logger WARN ("Fetch attempt " +:+ Js.toString attempt +:+ "/"
             +:+ Js.toString (retryAttempts cfg) +:+ " failed: " +:+ Js.message error);;
           (if bool_decide (attempt < retryAttempts cfg) then
              let delay := retryDelayMs cfg * 2 ^ (attempt - 1) in
              logger LOG ("Retrying in " +:+ Js.toString delay +:+ "ms...");;
              sleep delay
            else ret tt);;
           retryFrom startLedger endLedger remaining (attempt + 1) (Some error))
  end.

Definition fetchEventsWithRetry (startLedger endLedger : Z) : M (list SorobanEvent) :=
  retryFrom startLedger endLedger (Z.to_nat (retryAttempts cfg)) 1 None.

(** The errors raised by the successive calls of [fetchEvents] that a
    retry loop of [remaining] iterations makes from [w]; the calls stop at
    the first one that returns. *)
Fixpoint failures (startLedger endLedger : Z) (remaining : nat) (w : World)
    : list Js.Error :=
  match remaining with
  | O => []
  | S remaining =>
      let r := fetchEvents startLedger endLedger w in
      match outcome r with
      | Returned _ => []
      | Raised error => error :: failures startLedger endLedger remaining (final r)
      end
  end.

(** The delay slept after the failure of [attempt]. *)
Definition backoff (attempt : Z) : Z := retryDelayMs cfg * 2 ^ (attempt - 1).

(** [Object.values(ContractEventType).find(type => type === symbol) || null] *)
Definition parseEventType (symbol : string) : option ContractEventType :=
  match find (λ type, bool_decide (tag type = symbol)) ContractEventType_values with
  | Some type => if Js.truthy_string (tag type) then Some type else None
  | None => None
  end.

Definition parseEventData (valueXdr : string) (eventType : ContractEventType)
    : M EventData :=
  try_catch
    (ret (mkEventData (Some valueXdr) (Some eventType)
            None None None None None None None None None None None))
    (λ error,
       logger WARN ("Failed to parse event data: " +:+ Js.message error);;
       ret (mkEventData (Some valueXdr)
              None None None None None None None None None None None None)).

Definition parseEvent (event : SorobanEvent) : M (option ParsedContractEvent) :=
  try_catch
    (let eventTypeSymbol := head (ev_topic event) in
     if negb (Js.truthy_str eventTypeSymbol) then
       logger WARN ("Event " +:+ ev_id event +:+ " missing topic");;
       ret None
     else
       match parseEventType (default "" eventTypeSymbol) with
       | None =>
           logger DEBUG ("Unknown event type: " +:+ default "" eventTypeSymbol);;
           ret None
       | Some eventType =>
           data ← parseEventData (ev_value event) eventType;
           ret (Some {| eventId := ev_id event;
                        ledgerSeq := ev_ledger event;
                        ledgerClosedAt := Js.DateOfString (ev_ledgerClosedAt event);
                        contractId := ev_contractId event;
                        eventType := eventType;
                        transactionHash := ev_txHash event;
                        data := data;
                        inSuccessfulContractCall := ev_inSuccessfulContractCall event |})
       end)
    (λ error,
       logger ERROR ("Error parsing event " +:+ ev_id event +:+ ": " +:+ Js.message error);;
       ret None).

Definition processEvent (event : SorobanEvent) : M bool :=
  isProcessed ← LedgerTrackerService.isEventProcessed cfg (ev_id event);
  if isProcessed : bool then
    logger DEBUG ("Event " +:+ ev_id event +:+ " already processed, skipping");;
    ret false
  else
    parsedEvent ← parseEvent event;
    match parsedEvent with
    | None =>
        logger WARN ("Failed to parse event " +:+ ev_id event);;
        ret false
    | Some parsedEvent =>
        success ← EventHandlerService.processEvent parsedEvent;
        (if success : bool then
           LedgerTrackerService.markEventProcessed cfg (ev_id event) (ev_ledger event)
             (ev_contractId event) (tag (eventType parsedEvent)) (ev_txHash event)
         else ret tt);;
        ret success
    end.

(** The [for (const event of events)] loop of [pollEvents]; [step] is
    the per-event call ([this.processEvent]). *)
Fixpoint forEachEvent (step : SorobanEvent → M bool) (events : list SorobanEvent)
    (processedCount errorCount : nat) : M (nat * nat) :=
  match events with
  | [] => ret (processedCount, errorCount)
  | event :: events =>
      counts ← try_catch
        (success ← step event;
         ret (if success : bool then S processedCount else processedCount, errorCount))
        (λ error,
           logger ERROR ("Failed to process event " +:+ ev_id event +:+ ": "
                         +:+ Js.message error);;
           LedgerTrackerService.logError
             ("Event processing failed: " +:+ ev_id event)
             [ ("eventId", MetaString (ev_id event));
               ("error", MetaString (Js.message error)) ];;
           ret (processedCount, S errorCount));
      forEachEvent step events counts.1 counts.2
  end.

(** The body of the [try] block of [pollEvents]. *)
Definition pollCycle : M unit :=
  cursor ← LedgerTrackerService.getLastCursor cfg;
  let startLedger :=
    match cursor with Some cursor => lastLedgerSeq cursor + 1 | None => 1 end in
  latestLedger ← getLatestLedger;
  if bool_decide (latestLedger < startLedger) then
    logger DEBUG ("No new ledgers. Current: " +:+ Js.toString (startLedger - 1)
                  +:+ ", Latest: " +:+ Js.toString latestLedger)
  else
    logger LOG ("Polling events from ledger " +:+ Js.toString startLedger
                +:+ " to " +:+ Js.toString latestLedger);;
    events ← fetchEventsWithRetry startLedger latestLedger;
    match events with
    | [] =>
        logger DEBUG "No events found in ledger range";;
        LedgerTrackerService.updateCursor cfg latestLedger None
    | _ :: _ =>
        logger LOG ("Found " +:+ pretty (length events) +:+ " events to process");;
        counts ← forEachEvent processEvent events 0 0;
        LedgerTrackerService.updateCursor cfg latestLedger None;;
        LedgerTrackerService.logProgress cfg latestLedger latestLedger counts.1;;
        logger LOG ("Processed " +:+ pretty counts.1 +:+ "/" +:+ pretty (length events)
                    +:+ " events (" +:+ pretty counts.2 +:+ " errors)")
    end.

Definition pollEvents : M unit :=
  w ← getWorld;
  if isRunning w then
    logger DEBUG "Skipping poll - previous poll still running"
  else
    modifyWorld (set_isRunning true);;
    try_finally
      (try_catch pollCycle
         (λ error,
            logger ERROR ("Error in poll cycle: " +:+ Js.message error);;
            LedgerTrackerService.logError "Poll cycle failed"
              [ ("error", MetaString (Js.message error)) ]))
      (set_isRunning false).

Definition scheduledPoll : M unit :=
  w ← getWorld;
  if isShuttingDown w then ret tt else pollEvents.

End service.
End IndexerService.

(** ** The indexer over its injected collaborators

    [IndexerService] receives its [LedgerTrackerService] and its
    [EventHandlerService] through its constructor.  [LedgerTracker.t] is
    what it uses of the first; of the second it uses [processEvent] alone.
    [Indexer] has the methods of [IndexerService] that call a
    collaborator, over an arbitrary tracker and an arbitrary
    [eventHandler.processEvent]: each of their methods may return or raise
    as a store may.  [IndexerService] above is [Indexer] at the tracker
    and the handlers of this file. *)

Module LedgerTracker.

Record t := mk {
  getLastCursor : M (option LedgerCursor);
  updateCursor : Z → option string → M unit;
  isEventProcessed : string → M bool;
  markEventProcessed : string → Z → string → string → string → M unit;
  getStartLedger : Z → M Js.Numeric;
  logProgress : Z → Z → nat → M unit;
  logError : string → list (string * MetaValue) → M unit
}.

End LedgerTracker.

(** [LedgerTrackerService] as a tracker. *)
Definition ledgerTrackerService (cfg : Config) : LedgerTracker.t :=
  {| LedgerTracker.getLastCursor := LedgerTrackerService.getLastCursor cfg;
     LedgerTracker.updateCursor := LedgerTrackerService.updateCursor cfg;
     LedgerTracker.isEventProcessed := LedgerTrackerService.isEventProcessed cfg;
     LedgerTracker.markEventProcessed := LedgerTrackerService.markEventProcessed cfg;
     LedgerTracker.getStartLedger := LedgerTrackerService.getStartLedger cfg;
     LedgerTracker.logProgress := LedgerTrackerService.logProgress cfg;
     LedgerTracker.logError := LedgerTrackerService.logError |}.

Module Indexer.
Section service.
Context (cfg : Config).
Context (ledgerTracker : LedgerTracker.t).
Context (eventHandler : ParsedContractEvent → M bool).

Definition processEvent (event : SorobanEvent) : M bool :=
  isProcessed ← LedgerTracker.isEventProcessed ledgerTracker (ev_id event);
  if isProcessed : bool then
    logger DEBUG ("Event " +:+ ev_id event +:+ " already processed, skipping");;
    ret false
  else
    parsedEvent ← IndexerService.parseEvent event;
    match parsedEvent with
    | None =>
        logger WARN ("Failed to parse event " +:+ ev_id event);;
        ret false
    | Some parsedEvent =>
        success ← eventHandler parsedEvent;
        (if success : bool then
           LedgerTracker.markEventProcessed ledgerTracker (ev_id event) (ev_ledger event)
             (ev_contractId event) (tag (eventType parsedEvent)) (ev_txHash event)
         else ret tt);;
        ret success
    end.

(** The [catch] block of the loop over the events. *)
Definition eventFailed (event : SorobanEvent) (error : Js.Error) : M unit :=
  logger ERROR ("Failed to process event " +:+ ev_id event +:+ ": "
                +:+ Js.message error);;
  LedgerTracker.logError ledgerTracker
    ("Event processing failed: " +:+ ev_id event)
    [ ("eventId", MetaString (ev_id event));
      ("error", MetaString (Js.message error)) ].

(** The [for (const event of events)] loop of [pollEvents]; [step] is
    the per-event call ([this.processEvent]). *)
Fixpoint forEachEvent (step : SorobanEvent → M bool) (events : list SorobanEvent)
    (processedCount errorCount : nat) : M (nat * nat) :=
  match events with
  | [] => ret (processedCount, errorCount)
  | event :: events =>
      counts ← try_catch
        (success ← step event;
         ret (if success : bool then S processedCount else processedCount, errorCount))
        (λ error,
           eventFailed event error;;
           ret (processedCount, S errorCount));
      forEachEvent step events counts.1 counts.2
  end.

(** The body of the [try] block of [pollEvents]. *)
Definition pollCycle : M unit :=
  cursor ← LedgerTracker.getLastCursor ledgerTracker;
  let startLedger :=
    match cursor with Some cursor => lastLedgerSeq cursor + 1 | None => 1 end in
  latestLedger ← IndexerService.getLatestLedger;
  if bool_decide (latestLedger < startLedger) then
    logger DEBUG ("No new ledgers. Current: " +:+ Js.toString (startLedger - 1)
                  +:+ ", Latest: " +:+ Js.toString latestLedger)
  else
    logger LOG ("Polling events from ledger " +:+ Js.toString startLedger
                +:+ " to " +:+ Js.toString latestLedger);;
    events ← IndexerService.fetchEventsWithRetry cfg startLedger latestLedger;
    match events with
    | [] =>
        logger DEBUG "No events found in ledger range";;
        LedgerTracker.updateCursor ledgerTracker latestLedger None
    | _ :: _ =>
        logger LOG ("Found " +:+ pretty (length events) +:+ " events to process");;
        counts ← forEachEvent processEvent events 0 0;
        LedgerTracker.updateCursor ledgerTracker latestLedger None;;
        LedgerTracker.logProgress ledgerTracker latestLedger latestLedger counts.1;;
        logger LOG ("Processed " +:+ pretty counts.1 +:+ "/" +:+ pretty (length events)
                    +:+ " events (" +:+ pretty counts.2 +:+ " errors)")
    end.

(** The [catch] block of [pollEvents]. *)
Definition cycleFailed (error : Js.Error) : M unit :=
  logger ERROR ("Error in poll cycle: " +:+ Js.message error);;
  LedgerTracker.logError ledgerTracker "Poll cycle failed"
    [ ("error", MetaString (Js.message error)) ].

Definition pollEvents : M unit :=
  w ← getWorld;
  if isRunning w then
    logger DEBUG "Skipping poll - previous poll still running"
  else
    modifyWorld (set_isRunning true);;
    try_finally (try_catch pollCycle cycleFailed) (set_isRunning false).

Definition scheduledPoll : M unit :=
  w ← getWorld;
  if isShuttingDown w then ret tt else pollEvents.

(** [initializeIndexer]; [health] is what the node answers to
    [rpc.getHealth()]: a rejection or the status. *)
Definition initializeIndexer (health : Js.Error + string) : M unit :=
  try_catch
    (status ← lift health;
     logger LOG ("RPC Health: " +:+ status);;
     latestLedger ← IndexerService.getLatestLedger;
     logger LOG ("Latest ledger on network: " +:+ Js.toString latestLedger);;
     startLedger ← LedgerTracker.getStartLedger ledgerTracker latestLedger;
     logger LOG ("Starting indexing from ledger " +:+ Js.show startLedger);;
     pollEvents)
    (λ error,
       logger ERROR ("Failed to initialize indexer: " +:+ Js.message error);;
       throw error).

Definition onModuleInit (health : Js.Error + string) : M unit :=
  logger LOG "Starting blockchain indexer...";;
  initializeIndexer health.

End service.
End Indexer.

(** ** Notions used to state the properties *)

(** The last error a retry loop has seen: the last of [errors], or the
    one it started with. *)
Definition lastOr (lastError : option Js.Error) (errors : list Js.Error) : option Js.Error :=
  match last errors with Some e => Some e | None => lastError end.

(** A computation that leaves the table of ledger cursors as it found
    it, whether it returns or raises. *)
Definition keepsCursor {A} (m : M A) : Prop :=
  ∀ w, ledgerCursor (db (final (m w))) = ledgerCursor (db w).

(** A tracker that reads and moves the cursor as [LedgerTrackerService]
    does, and whose other methods, which may return or raise as they
    like, leave the table of cursors alone. *)
Definition tracksCursor (cfg : Config) (tracker : LedgerTracker.t) : Prop :=
  (∀ w, LedgerTracker.getLastCursor tracker w = LedgerTrackerService.getLastCursor cfg w)
  ∧ (∀ ledgerSeq ledgerHash w,
       LedgerTracker.updateCursor tracker ledgerSeq ledgerHash w
       = LedgerTrackerService.updateCursor cfg ledgerSeq ledgerHash w)
  ∧ (∀ eventId, keepsCursor (LedgerTracker.isEventProcessed tracker eventId))
  ∧ (∀ eventId ledgerSeq contractId eventType transactionHash,
       keepsCursor (LedgerTracker.markEventProcessed tracker eventId ledgerSeq
                      contractId eventType transactionHash))
  ∧ (∀ currentLedger targetLedger eventsProcessed,
       keepsCursor (LedgerTracker.logProgress tracker currentLedger targetLedger
                      eventsProcessed))
  ∧ (∀ message metadata, keepsCursor (LedgerTracker.logError tracker message metadata)).

(** A tracker whose [logError] returns in every world. *)
Definition logsErrors (tracker : LedgerTracker.t) : Prop :=
  ∀ message metadata w,
    outcome (LedgerTracker.logError tracker message metadata w) = Returned tt.

(** ** Further parts of services/indexer.service.ts *)

(** The contract-id keys that [getContractIds] reads from the
    configuration. *)
Record ContractEnv := mkContractEnv {
  PROJECT_LAUNCH_CONTRACT_ID : option string;
  ESCROW_CONTRACT_ID : option string;
  PROFIT_DISTRIBUTION_CONTRACT_ID : option string;
  SUBSCRIPTION_POOL_CONTRACT_ID : option string;
  GOVERNANCE_CONTRACT_ID : option string;
  REPUTATION_CONTRACT_ID : option string
}.

(** [if (v) contracts.push(v)] *)
Definition pushIfSet (v : option string) (contracts : list string) : list string :=
  if Js.truthy_str v then contracts ++ [default "" v] else contracts.

Definition getContractIds (env : ContractEnv) : list string :=
  pushIfSet (REPUTATION_CONTRACT_ID env)
    (pushIfSet (GOVERNANCE_CONTRACT_ID env)
      (pushIfSet (SUBSCRIPTION_POOL_CONTRACT_ID env)
        (pushIfSet (PROFIT_DISTRIBUTION_CONTRACT_ID env)
          (pushIfSet (ESCROW_CONTRACT_ID env)
            (pushIfSet (PROJECT_LAUNCH_CONTRACT_ID env) []))))).

Definition set_isShuttingDown (b : bool) (w : World) : World :=
  mkWorld (db w) (latestLedgerReplies w) (getEventsReplies w) (isRunning w) b.

Module IndexerStartup.

(** [while (this.isRunning) { await this.sleep(100); }], for at most
    [fuel] rounds; the result tells whether the loop has ended. *)
Fixpoint awaitIdle (fuel : nat) : M bool :=
  w ← getWorld;
  if isRunning w then
    match fuel with
    | O => ret false
    | S fuel => sleep 100;; awaitIdle fuel
    end
  else ret true.

(** [onModuleDestroy]; the result tells whether it has returned within
    [fuel] rounds of its waiting loop. *)
Definition onModuleDestroy (fuel : nat) : M bool :=
  logger LOG "Shutting down blockchain indexer...";;
  modifyWorld (set_isShuttingDown true);;
  idle ← awaitIdle fuel;
  if idle : bool then
    logger LOG "Indexer shutdown complete";;
    ret true
  else ret false.

Section service.
Context (cfg : Config).

(** [initializeIndexer] and [onModuleInit] of the service of this file. *)
Definition initializeIndexer : Js.Error + string → M unit :=
  Indexer.initializeIndexer cfg (ledgerTrackerService cfg) EventHandlerService.processEvent.

Definition onModuleInit : Js.Error + string → M unit :=
  Indexer.onModuleInit cfg (ledgerTrackerService cfg) EventHandlerService.processEvent.

End service.
End IndexerStartup.

(** ** Further notions used to state the properties *)

(** The ledger that [getStartLedger] starts a new cursor from: the
    number of the configured string, if one is configured, or the latest
    ledger. *)
Definition configuredOr (cfg : Config) (latestLedger : Z) : option Z :=
  if Js.truthy_str (INDEXER_START_LEDGER cfg)
  then Js.StringToNumber (default "" (INDEXER_START_LEDGER cfg))
  else Some latestLedger.

(** The [getEvents] requests among a list of effects, in order. *)
Definition requests (fx : list Effect) : list GetEventsRequest :=
  omap (λ e, match e with GetEvents request => Some request | _ => None end) fx.

(** The number of [getLatestLedger] requests among a list of effects. *)
Definition latestLedgerCalls (fx : list Effect) : nat :=
  length (omap (λ e, match e with GetLatestLedger => Some () | _ => None end) fx).

(** The events that a reply of the node contributes to a fetch. *)
Definition pageEvents (reply : Js.Error + GetEventsResponse) : list SorobanEvent :=
  match reply with
  | inr response =>
      map IndexerService.transformRpcEvent (default [] (resp_events response))
  | inl _ => []
  end.

(** The safe ledger that [handleReorg] computes for a detection result. *)
Definition safeLedgerOf (cfg : Config) (res : ReorgDetectionResult) : Z :=
  Z.max 0 (lastValidLedger res
           - Z.min (reorgDepth res + 2) (reorgDepthThreshold cfg)).

(** The network has no cursor row, or one without a hash. *)
Definition hashless (cfg : Config) (w : World) : Prop :=
  ∀ row, ledgerCursor (db w) !! network cfg = Some row →
         or_undefined (lc_lastLedgerHash row) = None.

(** The ledger a cycle would start from. *)
Definition startOf (cfg : Config) (w : World) : Z :=
  match ledgerCursor (db w) !! network cfg with
  | Some row => lc_lastLedgerSeq row + 1
  | None => 1
  end.

(** The pagination token that a reply of the node carries. *)
Definition replyCursor (reply : Js.Error + GetEventsResponse) : option string :=
  match reply with
  | inr response => resp_cursor response
  | inl _ => None
  end.

(** The six contract-id keys, in the order [getContractIds] reads them. *)
Definition contractKeys (env : ContractEnv) : list (option string) :=
  [ PROJECT_LAUNCH_CONTRACT_ID env; ESCROW_CONTRACT_ID env;
    PROFIT_DISTRIBUTION_CONTRACT_ID env; SUBSCRIPTION_POOL_CONTRACT_ID env;
    GOVERNANCE_CONTRACT_ID env; REPUTATION_CONTRACT_ID env ].

(** The event types that have a handler, in registration order. *)
Definition handledTypes : list ContractEventType :=
  [ PROJECT_CREATED; CONTRIBUTION_MADE; MILESTONE_APPROVED; FUNDS_RELEASED;
    PROJECT_COMPLETED; PROJECT_FAILED ].

(** The rows that [project.update({ where: { id }, data: { currentFunds } })]
    of [ContributionMadeHandler.handle] rewrites, and how. *)
Definition fundsOf (pid : nat) (total : Z) (row : ProjectRow) : ProjectRow :=
  if bool_decide (p_id row = pid)
  then mkProjectRow (p_id row) (p_creatorId row) (p_title row) (p_category row)
                    (p_goal row) (p_deadline row) (p_status row) total
  else row.

(** ** Proof steps for the handlers *)

(** Rewrite a world built from setters into its tables. *)
Ltac tables :=
  unfold set_db, set_user, set_project, set_contribution, set_milestone,
    set_processedEvent, set_ledgerCursor, set_indexerLog, set_nextId;
  cbn [db latestLedgerReplies getEventsReplies isRunning isShuttingDown
       ledgerCursor processedEvent user project contribution milestone indexerLog
       nextId].

(** Project the fields of the rows that were written. *)
Ltac rows :=
  cbn [p_id p_creatorId p_title p_category p_goal p_deadline p_status p_currentFunds
       u_id u_reputationScore].


(** ** Sample configurations and worlds *)

Module Sample.

(** The defaults of the services. *)
Definition cfg : Config := mkConfig "testnet" 5 None 100 3 1000 [].

(** A configuration whose start ledger is set to zero. *)
Definition cfgStartZero : Config := mkConfig "testnet" 5 (Some "0") 100 3 1000 [].

(** A configuration with an explicit start ledger. *)
Definition cfgStart : Config := mkConfig "testnet" 5 (Some "1200") 100 3 1000 [].

Definition worldOf (d : Db) : World := mkWorld d [] [] false false.

(** A fresh store. *)
Definition fresh : World := worldOf emptyDb.

(** A cursor at ledger 100 with hash H1. *)
Definition dbAt100 : Db :=
  set_nextId S (set_ledgerCursor <["testnet" := mkLedgerCursorRow 0 100 (Some "H1")]> emptyDb).

Definition at100 : World := worldOf dbAt100.

Definition remote (seq : Z) (h : string) : LedgerInfo := mkLedgerInfo seq h "" 0 0.

(** Dedup rows at ledgers 95..98 of this network and one of another. *)
Definition dbWithDedup : Db :=
  set_processedEvent
    (λ _, <["e95" := mkProcessedEventRow "testnet" 95 "C1" "contrib" "t95"]>
          (<["e96" := mkProcessedEventRow "testnet" 96 "C1" "contrib" "t96"]>
          (<["e97" := mkProcessedEventRow "testnet" 97 "C1" "contrib" "t97"]>
          (<["e98" := mkProcessedEventRow "testnet" 98 "C1" "contrib" "t98"]>
          (<["m99" := mkProcessedEventRow "mainnet" 99 "C1" "contrib" "u99"]> ∅)))))
    dbAt100.

Definition withDedup : World := worldOf dbWithDedup.

(** A raw contribution event, as fetched. *)
Definition rawContribution : SorobanEvent :=
  mkSorobanEvent "contract" 97 "2024-01-01T00:00:00Z" "C1" "e97" "p97"
                 ["contrib"; "extra"] "AAAAEQ==" true "t97".

(** Project 42 (primary key 7) with two milestones, and project 43
    (primary key 8) with one. *)
Definition dbWithProject : Db :=
  mkDb (ledgerCursor dbAt100) ∅
       {[ "GCREATOR" := mkUserRow 3 0 ]}
       {[ "42" := mkProjectRow 7 3 "Project 42" "uncategorized" 1000
                    (Js.DateOfMillis 1700000000000) "ACTIVE" 0;
          "43" := mkProjectRow 8 3 "Project 43" "uncategorized" 500
                    (Js.DateOfMillis 1700000000000) "ACTIVE" 0 ]}
       ∅
       [ mkMilestoneRow 11 7 "PENDING" None;
         mkMilestoneRow 12 7 "SUBMITTED" None;
         mkMilestoneRow 13 8 "PENDING" None ]
       [] 20.

Definition withProject : World := worldOf dbWithProject.

Definition parsed (type : ContractEventType) (d : EventData) : ParsedContractEvent :=
  mkParsedContractEvent "e200" 200 (Js.DateOfString "2024-01-01T00:00:00Z") "C1"
                        type "tx200" d true.

(** Approval of milestone 0 of project 42. *)
Definition milestoneApproved : ParsedContractEvent :=
  parsed MILESTONE_APPROVED
    (mkEventData None None (Some 42) None None None None None None None
                 (Some 0) (Some 2) None).

(** Funds released for milestone 0 of project 42. *)
Definition fundsReleased : ParsedContractEvent :=
  parsed FUNDS_RELEASED
    (mkEventData None None (Some 42) None None None None None (Some "250") None
                 (Some 0) None None).

(** The same two events for a project that is not in the store. *)
Definition milestoneApprovedUnknown : ParsedContractEvent :=
  parsed MILESTONE_APPROVED
    (mkEventData None None (Some 99) None None None None None None None
                 (Some 0) (Some 2) None).

Definition fundsReleasedUnknown : ParsedContractEvent :=
  parsed FUNDS_RELEASED
    (mkEventData None None (Some 99) None None None None None (Some "250") None
                 (Some 0) None None).

(** A contribution of 100 to project 42 that reports no running total. *)
Definition contributionNoTotal : ParsedContractEvent :=
  parsed CONTRIBUTION_MADE
    (mkEventData None None (Some 42) None None None None (Some "GINVESTOR")
                 (Some "100") None None None None).

(** The same for a project that is not in the store. *)
Definition contributionNoTotalUnknown : ParsedContractEvent :=
  parsed CONTRIBUTION_MADE
    (mkEventData None None (Some 99) None None None None (Some "GINVESTOR")
                 (Some "100") None None None None).

(** A contribution whose amount is missing. *)
Definition contributionNoAmount : ParsedContractEvent :=
  parsed CONTRIBUTION_MADE
    (mkEventData None None (Some 42) None None None None (Some "GINVESTOR")
                 None (Some "100") None None None).

(** A node that rejects the next three [getEvents] requests. *)
Definition nodeDown : World :=
  mkWorld dbAt100 []
    [ inl (Js.RpcFailure "timeout"); inl (Js.RpcFailure "reset");
      inl (Js.RpcFailure "unavailable") ] false false.

(** A node that rejects the first [getEvents] request and then returns an
    empty page. *)
Definition nodeFlaky : World :=
  mkWorld dbAt100 []
    [ inl (Js.RpcFailure "timeout"); inr (mkGetEventsResponse (Some []) None) ]
    false false.

(** A cursor at ledger 49; the node reports ledger 80 as its latest and
    has no event for the range. *)
Definition emptyRange : World :=
  mkWorld (set_nextId S (set_ledgerCursor <["testnet" := mkLedgerCursorRow 0 49 None]> emptyDb))
    [ inr 80 ] [ inr (mkGetEventsResponse (Some []) None) ] false false.

(** The same cursor, with a node that rejects every request for events. *)
Definition unreachable : World :=
  mkWorld (set_nextId S (set_ledgerCursor <["testnet" := mkLedgerCursorRow 0 49 None]> emptyDb))
    [ inr 80 ]
    [ inl (Js.RpcFailure "timeout"); inl (Js.RpcFailure "timeout");
      inl (Js.RpcFailure "timeout") ] false false.

Definition rpcEvent (i : string) (ledger : Z) (topic : list string) : RpcEvent :=
  mkRpcEvent "contract" ledger "2024-01-01T00:00:00Z" "C1" i i topic "AAAAEQ==" true
             (Some ("tx-" +:+ i)) None.

(** The same cursor, with a node that returns one page of three events:
    one without topic, one of an unknown type and one contribution. *)
Definition threeEvents : World :=
  mkWorld (set_nextId S (set_ledgerCursor <["testnet" := mkLedgerCursorRow 0 49 None]> emptyDb))
    [ inr 80 ]
    [ inr (mkGetEventsResponse
             (Some [ rpcEvent "a" 50 []; rpcEvent "b" 60 ["mystery"];
                     rpcEvent "c" 70 ["contrib"] ]) None) ] false false.

(** A per-event step that raises on every event. *)
Definition failingStep (event : SorobanEvent) : M bool :=
  throw (Js.JsError ("cannot handle " +:+ ev_id event)).

(** [LedgerTrackerService] over a store that rejects every write to the
    log table. *)
Definition logless : LedgerTracker.t :=
  {| LedgerTracker.getLastCursor := LedgerTrackerService.getLastCursor cfg;
     LedgerTracker.updateCursor := LedgerTrackerService.updateCursor cfg;
     LedgerTracker.isEventProcessed := LedgerTrackerService.isEventProcessed cfg;
     LedgerTracker.markEventProcessed := LedgerTrackerService.markEventProcessed cfg;
     LedgerTracker.getStartLedger := LedgerTrackerService.getStartLedger cfg;
     LedgerTracker.logProgress := λ _ _ _, throw (Js.JsError "log table locked");
     LedgerTracker.logError := λ _ _, throw (Js.JsError "log table locked") |}.

(** Handler services that accept, and that reject, every event. *)
Definition acceptingHandler (event : ParsedContractEvent) : M bool := ret true.

Definition failingHandler (event : ParsedContractEvent) : M bool :=
  throw (Js.JsError ("cannot handle " +:+ eventId event)).

End Sample.

(** ** Further sample worlds *)

Module Scenario.

(** A deep reorg: the cursor is at ledger 100 and the node reports
    ledger 90. *)
Definition deepReorg : ReorgDetectionResult := mkReorgDetectionResult true 10 90 90.

(** A node that answers two [getLatestLedger] requests and returns one
    empty page of events. *)
Definition startingNode (d : Db) : World :=
  mkWorld d [ inr 500; inr 503 ] [ inr (mkGetEventsResponse (Some []) None) ] false false.

(** Two contracts configured, one key set to the empty string. *)
Definition twoContracts : ContractEnv :=
  mkContractEnv (Some "CLAUNCH") (Some "") None None (Some "CGOV") None.

Definition page (ids : list string) (cursor : option string) : Js.Error + GetEventsResponse :=
  inr (mkGetEventsResponse
         (Some (map (λ i, Sample.rpcEvent i 110 ["contrib"]) ids)) cursor).

(** A node that serves two pages and then a last one without a token. *)
Definition threePages : World :=
  mkWorld Sample.dbAt100 []
    [ page ["a"; "b"] (Some "t1"); page ["c"] (Some "t2"); page ["d"] None;
      page ["never"] None ] false false.

(** A page size of 1: the cap of 5 events is reached on the fifth page. *)
Definition cfgSmallPages : Config := mkConfig "testnet" 5 None 1 3 1000 [].

Definition endlessPages : World :=
  mkWorld Sample.dbAt100 []
    [ page ["a"] (Some "t1"); page ["b"] (Some "t2"); page ["c"] (Some "t3");
      page ["d"] (Some "t4"); page ["e"] (Some "t5"); page ["f"] (Some "t6") ]
    false false.

(** Creation of project 42 by GCREATOR with goal 2500. *)
Definition projectCreated : ParsedContractEvent :=
  Sample.parsed PROJECT_CREATED
    (mkEventData None None (Some 42) (Some "GCREATOR") (Some "2500") (Some 1800000000)
                 (Some "CTOKEN") None None None None None None).

(** Creation of project 77 by a wallet that is not yet a user. *)
Definition projectCreatedNew : ParsedContractEvent :=
  Sample.parsed PROJECT_CREATED
    (mkEventData None None (Some 77) (Some "GNEW") (Some "900") (Some 1800000000)
                 (Some "CTOKEN") None None None None None None).

(** A contribution of 100 to project 42 that reports a running total of
    350. *)
Definition contribution : ParsedContractEvent :=
  Sample.parsed CONTRIBUTION_MADE
    (mkEventData None None (Some 42) None None None None (Some "GINVESTOR")
                 (Some "100") (Some "350") None None None).

Definition projectCompleted : ParsedContractEvent :=
  Sample.parsed PROJECT_COMPLETED
    (mkEventData None None (Some 42) None None None None None None None None None
                 (Some "completed")).

End Scenario.

(** * Properties *)

#[local] Arguments pretty : simpl never.

(** ** The monad *)

Lemma run_bind {A B} (m : M A) (k : A → M B) (w : World) :
  (m ≫= k) w =
  match outcome (m w) with
  | Returned a =>
      mkRes (outcome (k a (final (m w)))) (final (k a (final (m w))))
            (effects (m w) ++ effects (k a (final (m w))))
  | Raised e => mkRes (Raised e) (final (m w)) (effects (m w))
  end.
Proof.
  unfold mbind, M_bind, bind.
  destruct (m w) as [[a|e] w' fx]; [|done]. simpl. by destruct (k a w').
Qed.

Lemma run_try_catch {A} (m : M A) (h : Js.Error → M A) (w : World) :
  try_catch m h w =
  match outcome (m w) with
  | Returned a => m w
  | Raised e =>
      mkRes (outcome (h e (final (m w)))) (final (h e (final (m w))))
            (effects (m w) ++ effects (h e (final (m w))))
  end.
Proof.
  unfold try_catch.
  destruct (m w) as [[a|e] w' fx]; [done|]. simpl. by destruct (h e w').
Qed.

Lemma run_try_finally {A} (m : M A) (f : World → World) (w : World) :
  try_finally m f w = mkRes (outcome (m w)) (f (final (m w))) (effects (m w)).
Proof. unfold try_finally. by destruct (m w). Qed.

(** Unfold the monadic plumbing of a goal down to plain matches. *)
Ltac mrun :=
  unfold mbind, M_bind, bind, mret, M_ret, ret, throw, try_catch, try_finally,
    logger, sleep, emit, getDb, modifyDb, getWorld, modifyWorld, lift, freshId in *;
  cbn [outcome final effects
       db latestLedgerReplies getEventsReplies isRunning isShuttingDown
       set_db set_latestLedgerReplies set_getEventsReplies set_isRunning
       ledgerCursor processedEvent user project contribution milestone indexerLog nextId
       set_ledgerCursor set_processedEvent set_user set_project set_contribution
       set_milestone set_indexerLog set_nextId
       negb andb fst snd app] in *.

(** ** Ledger cursor tracker *)

Section tracker.
Context (cfg : Config).
Import LedgerTrackerService.

Lemma getLastCursor_run (w : World) :
  getLastCursor cfg w =
  mkRes (Returned (toCursor cfg <$> (ledgerCursor (db w) !! network cfg))) w [].
Proof.
  unfold getLastCursor. mrun.
  destruct (ledgerCursor (db w) !! network cfg); reflexivity.
Qed.

Lemma updateCursor_run (w : World) (row : LedgerCursorRow) (seq : Z) (h : option string) :
  ledgerCursor (db w) !! network cfg = Some row →
  updateCursor cfg seq h w =
  mkRes (Returned tt)
    (set_db (set_ledgerCursor
       <[network cfg := mkLedgerCursorRow (lc_id row) seq (or_undefined h)]>) w)
    [Logged DEBUG ("Updated cursor to ledger " +:+ Js.toString seq)].
Proof. intros H. unfold updateCursor. mrun. rewrite H. reflexivity. Qed.

Lemma updateCursor_missing (w : World) (seq : Z) (h : option string) :
  ledgerCursor (db w) !! network cfg = None →
  updateCursor cfg seq h w = mkRes (Raised (Js.PrismaNotFound "LedgerCursor")) w [].
Proof. intros H. unfold updateCursor. mrun. rewrite H. reflexivity. Qed.

End tracker.

(** C1. [detectReorg] never raises, leaves the world as it was, and
    classifies the remote report against the stored cursor, first match
    first: (a) with no cursor row, or a cursor without a hash, there is no
    reorg and the last valid ledger is [sequence - 1]; with a cursor that
    has a hash, (b) the same sequence under a different hash is a reorg of
    depth 1 with last valid ledger [sequence - 1], and (d) a remote sequence
    below the cursor is a reorg of depth [cursorSeq - remoteSeq]; (c) a
    remote sequence above the cursor is never a reorg. *)
Theorem detectReorg_classifies (cfg : Config) (currentLedger : LedgerInfo) (w : World) :
  let cursor := LedgerTrackerService.toCursor cfg <$> (ledgerCursor (db w) !! network cfg) in
  let r := LedgerTrackerService.detectReorg cfg currentLedger w in
  ∃ res,
    outcome r = Returned res ∧ final r = w
    ∧ ((cursor = None ∨ (∃ c, cursor = Some c ∧ lastLedgerHash c = None)) →
         hasReorg res = false
         ∧ lastValidLedger res = sequence currentLedger - 1)
    ∧ (∀ c h, cursor = Some c → lastLedgerHash c = Some h →
         sequence currentLedger = lastLedgerSeq c → hash currentLedger ≠ h →
         hasReorg res = true ∧ reorgDepth res = 1
         ∧ lastValidLedger res = sequence currentLedger - 1)
    ∧ (∀ c, cursor = Some c → lastLedgerSeq c < sequence currentLedger →
         hasReorg res = false)
    ∧ (∀ c h, cursor = Some c → lastLedgerHash c = Some h →
         sequence currentLedger < lastLedgerSeq c →
         hasReorg res = true
         ∧ reorgDepth res = lastLedgerSeq c - sequence currentLedger).
Proof.
  intros cursor r. subst cursor r.
  unfold LedgerTrackerService.detectReorg.
  rewrite run_bind, getLastCursor_run. simpl.
  destruct (ledgerCursor (db w) !! network cfg) as [row|] eqn:Hrow; simpl;
    [destruct (or_undefined (lc_lastLedgerHash row)) as [h|] eqn:Hh;
      [destruct (bool_decide (sequence currentLedger = _)) eqn:Hsame;
        [destruct (bool_decide (hash currentLedger = h)) eqn:Hhash
        |destruct (bool_decide (_ < sequence currentLedger)) eqn:Hlt] |] |];
    mrun; eexists; (split; [reflexivity|]); (split; [reflexivity|]); simpl;
    repeat match goal with
           | H : bool_decide _ = true |- _ => apply bool_decide_eq_true in H
           | H : bool_decide _ = false |- _ => apply bool_decide_eq_false in H
           end;
    split_and!; intros;
    repeat match goal with
           | H : _ ∨ _ |- _ => destruct H
           | H : ∃ _, _ |- _ => destruct H
           | H : _ ∧ _ |- _ => destruct H
           end;
    simplify_eq/=; try done; try lia; try congruence.
Qed.

(** The reorg classification of the specification's example: cursor at
    ledger 100 with hash H1, remote ledger 100 with hash H2. *)
Lemma detectReorg_classifies_witness :
  ∃ res,
    outcome (LedgerTrackerService.detectReorg Sample.cfg (Sample.remote 100 "H2") Sample.at100)
      = Returned res
    ∧ hasReorg res = true ∧ reorgDepth res = 1 ∧ lastValidLedger res = 99.
Proof.
  destruct (detectReorg_classifies Sample.cfg (Sample.remote 100 "H2") Sample.at100)
    as (res & Hrun & _ & _ & Hb & _).
  exists res. split.
  - exact Hrun.
  - apply (Hb (mkLedgerCursor 0 "testnet" 100 (Some "H1")) "H1");
      [reflexivity | reflexivity | reflexivity | discriminate].
Defined.

(** The other three cases on the same cursor: a remote report ahead of
    it, one behind it, and any report when the cursor has no hash. *)
Example detectReorg_cases :
  outcome (LedgerTrackerService.detectReorg Sample.cfg (Sample.remote 130 "H9") Sample.at100)
    = Returned (mkReorgDetectionResult false 0 100 130)
  ∧ outcome (LedgerTrackerService.detectReorg Sample.cfg (Sample.remote 93 "H9") Sample.at100)
    = Returned (mkReorgDetectionResult true 7 93 93)
  ∧ outcome (LedgerTrackerService.detectReorg Sample.cfg (Sample.remote 100 "H1") Sample.at100)
    = Returned (mkReorgDetectionResult false 0 100 100)
  ∧ outcome (LedgerTrackerService.detectReorg Sample.cfg (Sample.remote 93 "H9") Sample.fresh)
    = Returned (mkReorgDetectionResult false 0 92 93).
Proof. split_and!; reflexivity. Qed.

(** A reorg is only ever reported against a stored cursor. *)
Lemma detectReorg_reorg_has_cursor (cfg : Config) (currentLedger : LedgerInfo)
    (w : World) (res : ReorgDetectionResult) :
  outcome (LedgerTrackerService.detectReorg cfg currentLedger w) = Returned res →
  hasReorg res = true →
  is_Some (ledgerCursor (db w) !! network cfg).
Proof.
  unfold LedgerTrackerService.detectReorg.
  rewrite run_bind, getLastCursor_run. cbn [outcome final effects].
  destruct (ledgerCursor (db w) !! network cfg) as [row|]; [eauto|].
  cbn. intros [= <-]. done.
Qed.

Lemma rolledBack_false (cfg : Config) (safe : Z) (row : ProcessedEventRow) :
  LedgerTrackerService.rolledBack cfg safe row = false
  ↔ ¬ (pe_network row = network cfg ∧ safe < pe_ledgerSeq row).
Proof.
  unfold LedgerTrackerService.rolledBack.
  rewrite andb_false_iff, !bool_decide_eq_false.
  split; [tauto|]. intros H.
  destruct (decide (pe_network row = network cfg)); [right|left]; tauto.
Qed.

(** C2. [handleReorg] does nothing when the detection result reports no
    reorg.  On a reorg, with the cursor row of the network in place, it
    returns [safeLedger = max(0, lastValidLedger - min(reorgDepth + 2,
    reorgDepthThreshold))], keeps exactly the dedup rows that are not rows
    of this network above [safeLedger], sets the cursor to [safeLedger]
    (without a hash), and touches no domain table. *)
Theorem handleReorg_rolls_back (cfg : Config) (res : ReorgDetectionResult) (w : World) :
  let r := LedgerTrackerService.handleReorg cfg res w in
  let rollbackDepth := Z.min (reorgDepth res + 2) (reorgDepthThreshold cfg) in
  let safeLedger := Z.max 0 (lastValidLedger res - rollbackDepth) in
  (hasReorg res = false →
     outcome r = Returned (newLatestLedger res) ∧ final r = w ∧ effects r = [])
  ∧ (hasReorg res = true →
     ∀ row, ledgerCursor (db w) !! network cfg = Some row →
       outcome r = Returned safeLedger
       ∧ (∀ eventId row',
            processedEvent (db (final r)) !! eventId = Some row'
            ↔ processedEvent (db w) !! eventId = Some row'
              ∧ ¬ (pe_network row' = network cfg ∧ safeLedger < pe_ledgerSeq row'))
       ∧ ledgerCursor (db (final r))
           = <[network cfg := mkLedgerCursorRow (lc_id row) safeLedger None]>
               (ledgerCursor (db w))
       ∧ user (db (final r)) = user (db w)
       ∧ project (db (final r)) = project (db w)
       ∧ contribution (db (final r)) = contribution (db w)
       ∧ milestone (db (final r)) = milestone (db w)).
Proof.
  intros r rollbackDepth safeLedger. subst r.
  unfold LedgerTrackerService.handleReorg.
  split; intros Hre; rewrite Hre; simpl; [done|].
  intros row Hrow.
  fold rollbackDepth. fold safeLedger.
  unfold LedgerTrackerService.updateCursor. mrun. rewrite Hrow. simpl.
  split_and!; try reflexivity.
  intros eventId row'.
  rewrite map_lookup_filter_Some. simpl.
  rewrite rolledBack_false. reflexivity.
Qed.

(** The rollback example of the specification: depth 1, last valid ledger
    99 and threshold 5 resume at ledger 96. *)
Lemma handleReorg_rolls_back_witness :
  let r := LedgerTrackerService.handleReorg Sample.cfg
             (mkReorgDetectionResult true 1 99 100) Sample.withDedup in
  outcome r = Returned 96
  ∧ ledgerCursor (db (final r)) !! "testnet" = Some (mkLedgerCursorRow 0 96 None).
Proof.
  destruct (handleReorg_rolls_back Sample.cfg (mkReorgDetectionResult true 1 99 100)
              Sample.withDedup) as [_ H].
  destruct (H eq_refl (mkLedgerCursorRow 0 100 (Some "H1")) eq_refl)
    as (Hout & _ & Hcur & _).
  split; [exact Hout|].
  etransitivity; [exact (f_equal (λ m, m !! "testnet") Hcur)|reflexivity].
Defined.

(** The purge of that example, row by row: the rows of the network at
    ledgers 97 and 98 go, those at 95 and 96 and the row of the other
    network stay. *)
Example handleReorg_purges_above_96 :
  let d := db (final (LedgerTrackerService.handleReorg Sample.cfg
                        (mkReorgDetectionResult true 1 99 100) Sample.withDedup)) in
  processedEvent d !! "e95" = Some (mkProcessedEventRow "testnet" 95 "C1" "contrib" "t95")
  ∧ processedEvent d !! "e96" = Some (mkProcessedEventRow "testnet" 96 "C1" "contrib" "t96")
  ∧ processedEvent d !! "e97" = None
  ∧ processedEvent d !! "e98" = None
  ∧ processedEvent d !! "m99" = Some (mkProcessedEventRow "mainnet" 99 "C1" "contrib" "u99").
Proof. vm_compute. done. Qed.

(** Without a cursor row the update of the cursor is rejected by the
    store, after the purge. *)
Example handleReorg_without_cursor :
  outcome (LedgerTrackerService.handleReorg Sample.cfg
             (mkReorgDetectionResult true 1 99 100) Sample.fresh)
  = Raised (Js.PrismaNotFound "LedgerCursor").
Proof. reflexivity. Qed.

(** C4. With a cursor row, [getStartLedger] returns
    [lastLedgerSeq + 1] and changes nothing, whatever is configured.
    Without one, a configured start ledger, which reaches the service as
    the non-empty string [s] of the environment, puts the cursor at the
    number of [s] less one (no hash) and is returned as it is; this
    includes a start ledger of 0.  With no start ledger configured (the
    key unset or empty) the cursor is put at [latestLedger - 1] and
    [latestLedger] is returned. *)
Theorem getStartLedger_resume_or_initialize (cfg : Config) (latestLedger : Z) (w : World) :
  let r := LedgerTrackerService.getStartLedger cfg latestLedger w in
  let initializedAt (n : Z) :=
    ledgerCursor (db (final r))
      = <[network cfg := mkLedgerCursorRow (nextId (db w)) n None]> (ledgerCursor (db w)) in
  (∀ row, ledgerCursor (db w) !! network cfg = Some row →
     outcome r = Returned (Js.Num (lc_lastLedgerSeq row + 1)) ∧ final r = w)
  ∧ (ledgerCursor (db w) !! network cfg = None →
     (∀ s n, INDEXER_START_LEDGER cfg = Some s → s ≠ "" →
        Js.StringToNumber s = Some n →
        outcome r = Returned (Js.Text s) ∧ initializedAt (n - 1))
     ∧ (INDEXER_START_LEDGER cfg = None ∨ INDEXER_START_LEDGER cfg = Some "" →
        outcome r = Returned (Js.Num latestLedger) ∧ initializedAt (latestLedger - 1))).
Proof.
  intros r initializedAt. subst r initializedAt.
  unfold LedgerTrackerService.getStartLedger.
  rewrite run_bind, getLastCursor_run. simpl.
  split.
  - intros row ->. simpl. done.
  - intros Hnone. rewrite Hnone. simpl. split.
    + intros s n -> Hs Hn. destruct s as [|a s]; [done|]. simpl.
      rewrite Hn.
      unfold LedgerTrackerService.initializeCursor. mrun. rewrite Hnone. simpl. done.
    + intros [-> | ->]; simpl;
        unfold LedgerTrackerService.initializeCursor; mrun; rewrite Hnone; simpl; done.
Qed.

Lemma getStartLedger_resume_or_initialize_witness :
  outcome (LedgerTrackerService.getStartLedger Sample.cfgStart 5000 Sample.at100)
    = Returned (Js.Num 101)
  ∧ outcome (LedgerTrackerService.getStartLedger Sample.cfgStart 5000 Sample.fresh)
    = Returned (Js.Text "1200")
  ∧ outcome (LedgerTrackerService.getStartLedger Sample.cfg 5000 Sample.fresh)
    = Returned (Js.Num 5000).
Proof.
  split_and!.
  - apply (proj1 (getStartLedger_resume_or_initialize Sample.cfgStart 5000 Sample.at100)
             (mkLedgerCursorRow 0 100 (Some "H1")) eq_refl).
  - apply (proj1 (proj2 (getStartLedger_resume_or_initialize Sample.cfgStart 5000 Sample.fresh)
                    eq_refl) "1200" 1200 eq_refl); [discriminate|reflexivity].
  - apply (proj2 (proj2 (getStartLedger_resume_or_initialize Sample.cfg 5000 Sample.fresh)
                    eq_refl)). left. reflexivity.
Defined.

(** A start ledger configured as 0 is used: the cursor is put at -1 and
    the configured string is returned. *)
Example getStartLedger_configured_zero :
  let r := LedgerTrackerService.getStartLedger Sample.cfgStartZero 500 Sample.fresh in
  outcome r = Returned (Js.Text "0")
  ∧ ledgerCursor (db (final r)) !! "testnet" = Some (mkLedgerCursorRow 0 (-1) None).
Proof. vm_compute. done. Qed.

(** A configured string that is not an integer is passed on as a
    non-integer, which the store rejects. *)
Example getStartLedger_configured_text :
  let cfg := mkConfig "testnet" 5 (Some "genesis") 100 3 1000 [] in
  let r := LedgerTrackerService.getStartLedger cfg 500 Sample.fresh in
  outcome r = Raised (Js.PrismaValidation "LedgerCursor") ∧ final r = Sample.fresh.
Proof. vm_compute. done. Qed.

(** C5. [markEventProcessed] never raises and is idempotent: after one
    call the dedup table holds exactly one row under the event id, and a
    second call with that id (whatever its other arguments) leaves the
    whole world as the first call left it. *)
Theorem markEventProcessed_idempotent (cfg : Config) (eventId : string)
    (ledgerSeq ledgerSeq' : Z) (contractId eventType transactionHash : string)
    (contractId' eventType' transactionHash' : string) (w : World) :
  let once := LedgerTrackerService.markEventProcessed cfg eventId ledgerSeq contractId
                eventType transactionHash w in
  let twice := LedgerTrackerService.markEventProcessed cfg eventId ledgerSeq' contractId'
                 eventType' transactionHash' (final once) in
  outcome once = Returned tt
  ∧ outcome twice = Returned tt
  ∧ final twice = final once
  ∧ size (filter (λ kv, kv.1 = eventId) (processedEvent (db (final twice)))) = 1%nat.
Proof.
  intros once twice. subst once twice.
  unfold LedgerTrackerService.markEventProcessed. mrun.
  assert (Hone : ∀ (m : gmap string ProcessedEventRow) row,
             m !! eventId = Some row →
             size (filter (λ kv : string * ProcessedEventRow, kv.1 = eventId) m) = 1%nat).
  { intros m row Hm.
    replace (filter (λ kv : string * ProcessedEventRow, kv.1 = eventId) m)
      with ({[eventId := row]} : gmap string ProcessedEventRow);
      [apply map_size_singleton|].
    apply map_eq. intros k. destruct (decide (k = eventId)) as [->|Hne].
    - rewrite lookup_singleton_eq. symmetry. by apply map_lookup_filter_Some.
    - rewrite lookup_singleton_ne by done. symmetry.
      apply map_lookup_filter_None. right. intros ? _ ?. done. }
  destruct (processedEvent (db w) !! eventId) as [row|] eqn:Hrow; simpl.
  - rewrite Hrow. simpl. split_and!; try done. by eapply Hone.
  - rewrite lookup_insert_eq. simpl. split_and!; try done.
    eapply Hone. apply lookup_insert_eq.
Qed.

(** Marking event e99 twice on the sample store adds one row. *)
Example markEventProcessed_twice :
  let once := final (LedgerTrackerService.markEventProcessed Sample.cfg "e99" 99 "C1"
                       "contrib" "t99" Sample.withDedup) in
  let twice := final (LedgerTrackerService.markEventProcessed Sample.cfg "e99" 99 "C1"
                        "contrib" "t99" once) in
  size (processedEvent (db Sample.withDedup)) = 5%nat
  ∧ size (processedEvent (db once)) = 6%nat
  ∧ size (processedEvent (db twice)) = 6%nat
  ∧ processedEvent (db twice) !! "e99"
    = Some (mkProcessedEventRow "testnet" 99 "C1" "contrib" "t99").
Proof. vm_compute. done. Qed.

(** ** Event decoder *)

Lemma parseEventType_tag (t : ContractEventType) :
  IndexerService.parseEventType (tag t) = Some t.
Proof. destruct t; reflexivity. Qed.

Lemma parseEventType_Some (s : string) (t : ContractEventType) :
  IndexerService.parseEventType s = Some t ↔ tag t = s.
Proof.
  split.
  - unfold IndexerService.parseEventType.
    destruct (find _ _) as [t'|] eqn:Hfind; [|done].
    apply find_some in Hfind as [_ Htag]. apply bool_decide_eq_true in Htag.
    destruct (Js.truthy_string (tag t')); [|done]. by intros [= <-].
  - intros <-. apply parseEventType_tag.
Qed.

Lemma parseEventType_None (s : string) :
  IndexerService.parseEventType s = None ↔ ∀ t, tag t ≠ s.
Proof.
  split.
  - intros Hnone t Ht. apply parseEventType_Some in Ht. congruence.
  - intros Hno. destruct (IndexerService.parseEventType s) as [t|] eqn:Hs; [|done].
    apply parseEventType_Some in Hs. by destruct (Hno t).
Qed.

Lemma tag_not_empty (t : ContractEventType) : tag t ≠ "".
Proof. destruct t; discriminate. Qed.

(** C10. [parseEvent] and [parseEventData] never raise and leave the
    world untouched.  [parseEvent] returns nothing exactly when the topic
    list is empty or its first symbol is not the tag of an event type;
    otherwise it returns the event of that type, built from the raw
    fields, whose data carries the raw payload. *)
Theorem parseEvent_total (event : SorobanEvent) (valueXdr : string)
    (type : ContractEventType) (w : World) :
  let r := IndexerService.parseEvent event w in
  let d := IndexerService.parseEventData valueXdr type w in
  (∃ data, outcome d = Returned data ∧ final d = w ∧ rawXdr data = Some valueXdr)
  ∧ ∃ parsed, outcome r = Returned parsed ∧ final r = w
      ∧ (parsed = None
         ↔ head (ev_topic event) = None
           ∨ ∃ symbol, head (ev_topic event) = Some symbol ∧ ∀ t, tag t ≠ symbol)
      ∧ (∀ p, parsed = Some p →
           head (ev_topic event) = Some (tag (eventType p))
           ∧ rawXdr (data p) = Some (ev_value event)
           ∧ eventId p = ev_id event
           ∧ ledgerSeq p = ev_ledger event
           ∧ contractId p = ev_contractId event
           ∧ transactionHash p = ev_txHash event
           ∧ inSuccessfulContractCall p = ev_inSuccessfulContractCall event).
Proof.
  intros r d. subst r d. split.
  { eexists. split_and!; reflexivity. }
  unfold IndexerService.parseEvent.
  destruct (head (ev_topic event)) as [symbol|] eqn:Hhead; simpl.
  - destruct symbol as [|a symbol]; simpl.
    + mrun. eexists. split_and!; try reflexivity.
      * split; [|done]. intros _. right. eexists. split; [done|].
        intros t. apply tag_not_empty.
      * done.
    + destruct (IndexerService.parseEventType (String a symbol)) as [t|] eqn:Ht.
      * mrun. eexists. split_and!; try reflexivity.
        -- split; [done|]. apply parseEventType_Some in Ht.
           intros [?|(s & [= <-] & Hno)]; [done|]. by destruct (Hno t).
        -- intros p [= <-]. simpl. apply parseEventType_Some in Ht.
           rewrite Ht. done.
      * mrun. eexists. split_and!; try reflexivity.
        -- split; [|done]. intros _. right. eexists. split; [done|].
           by apply parseEventType_None.
        -- done.
  - mrun. eexists. split_and!; try reflexivity.
    + split; [|done]. intros _. by left.
    + done.
Qed.

Lemma parseEvent_total_witness :
  ∃ p, outcome (IndexerService.parseEvent Sample.rawContribution Sample.fresh)
         = Returned (Some p)
       ∧ eventType p = CONTRIBUTION_MADE
       ∧ rawXdr (data p) = Some "AAAAEQ==".
Proof.
  destruct (parseEvent_total Sample.rawContribution "" PROJECT_CREATED Sample.fresh)
    as (_ & parsed & Hout & _ & _ & Hsome).
  vm_compute in Hout. injection Hout as <-.
  destruct (Hsome _ eq_refl) as (_ & Hraw & _).
  eexists. split; [reflexivity|].
  split; [reflexivity|exact Hraw].
Defined.

(** ** Idempotency gate of the orchestrator *)

Lemma isEventProcessed_run (cfg : Config) (eventId : string) (w : World) :
  LedgerTrackerService.isEventProcessed cfg eventId w
  = mkRes (Returned (match processedEvent (db w) !! eventId with
                     | Some row => bool_decide (pe_network row = network cfg)
                     | None => false
                     end)) w [].
Proof.
  unfold LedgerTrackerService.isEventProcessed, LedgerTrackerService.countProcessed.
  mrun. f_equal. f_equal.
  destruct (processedEvent (db w) !! eventId) as [row|]; [|done].
  destruct (bool_decide (pe_network row = network cfg)); done.
Qed.

(** C6. An event whose id has a dedup row of the indexer's network is
    skipped by [processEvent]: the call returns [false], the only effect
    is the debug line of the skip (no decoding warning, no handler log),
    and the world, with every domain table, is as before. *)
Theorem processEvent_skips_processed (cfg : Config) (event : SorobanEvent)
    (row : ProcessedEventRow) (w : World) :
  processedEvent (db w) !! ev_id event = Some row →
  pe_network row = network cfg →
  IndexerService.processEvent cfg event w
  = mkRes (Returned false) w
      [Logged DEBUG ("Event " +:+ ev_id event +:+ " already processed, skipping")].
Proof.
  intros Hrow Hnet. unfold IndexerService.processEvent.
  rewrite run_bind, isEventProcessed_run. simpl.
  rewrite Hrow, bool_decide_eq_true_2 by done. reflexivity.
Qed.

Lemma processEvent_skips_processed_witness :
  let r := IndexerService.processEvent Sample.cfg Sample.rawContribution Sample.withDedup in
  outcome r = Returned false ∧ final r = Sample.withDedup.
Proof.
  rewrite (processEvent_skips_processed Sample.cfg Sample.rawContribution
             (mkProcessedEventRow "testnet" 97 "C1" "contrib" "t97") Sample.withDedup
             eq_refl eq_refl).
  split; reflexivity.
Defined.

(** ** Handler registry *)

Lemma getHandler_registered :
  EventHandlerService.getHandler (tag PROJECT_CREATED) = Some ProjectCreatedHandler.handler
  ∧ EventHandlerService.getHandler (tag CONTRIBUTION_MADE) = Some ContributionMadeHandler.handler
  ∧ EventHandlerService.getHandler (tag MILESTONE_APPROVED) = Some MilestoneApprovedHandler.handler
  ∧ EventHandlerService.getHandler (tag FUNDS_RELEASED) = Some FundsReleasedHandler.handler
  ∧ EventHandlerService.getHandler (tag PROJECT_COMPLETED) = Some ProjectCompletedHandler.handler
  ∧ EventHandlerService.getHandler (tag PROJECT_FAILED) = Some ProjectFailedHandler.handler.
Proof. split_and!; reflexivity. Qed.

(** An event that fails its handler's validation is skipped: nothing is
    raised, the world is unchanged, and one warning is logged. *)
Lemma processEvent_validation_failure (event : ParsedContractEvent)
    (handler : IEventHandler) (w : World) :
  EventHandlerService.getHandler (tag (eventType event)) = Some handler →
  validate handler event = false →
  EventHandlerService.processEvent event w
  = mkRes (Returned false) w
      [Logged WARN ("Event validation failed for " +:+ tag (eventType event))].
Proof.
  intros Hh Hv. unfold EventHandlerService.processEvent. rewrite Hh.
  mrun. rewrite Hv. reflexivity.
Qed.

(** A contribution that lacks its project id, its contributor or its
    amount fails validation. *)
Lemma ContributionMade_validate_false (event : ParsedContractEvent) :
  ContributionMadeHandler.validate event = false
  ↔ projectId (data event) = None
    ∨ Js.truthy_str (contributor (data event)) = false
    ∨ Js.truthy_str (amount (data event)) = false.
Proof.
  unfold ContributionMadeHandler.validate.
  rewrite !andb_false_iff. unfold Js.defined.
  destruct (projectId (data event)); split; intros H; try tauto.
  - destruct H as [[?|?]|?]; auto. done.
  - destruct H as [?|[?|?]]; auto. done.
Qed.

(** The running total is not part of the validation of a contribution. *)
Lemma ContributionMade_validate_ignores_total (event : ParsedContractEvent)
    (total : option string) :
  ContributionMadeHandler.validate
    (mkParsedContractEvent (eventId event) (ledgerSeq event) (ledgerClosedAt event)
       (contractId event) (eventType event) (transactionHash event)
       (mkEventData (rawXdr (data event)) (d_eventType (data event))
          (projectId (data event)) (creator (data event)) (fundingGoal (data event))
          (deadline (data event)) (token (data event)) (contributor (data event))
          (amount (data event)) total (milestoneId (data event))
          (approvalCount (data event)) (status (data event)))
       (inSuccessfulContractCall event))
  = ContributionMadeHandler.validate event.
Proof. reflexivity. Qed.


(** C8 (the code departs from the claim). Project 42 has milestone 11
    (pending) and milestone 12 (submitted).  An approval of one milestone
    of project 42 marks both approved, and a release of funds for one
    milestone marks both funded and stamps both; only the milestone of the
    other project keeps its status. *)
Example milestone_handlers_update_every_milestone :
  let approved := EventHandlerService.processEvent Sample.milestoneApproved Sample.withProject in
  let released := EventHandlerService.processEvent Sample.fundsReleased Sample.withProject in
  milestone (db Sample.withProject)
    = [ mkMilestoneRow 11 7 "PENDING" None;
        mkMilestoneRow 12 7 "SUBMITTED" None;
        mkMilestoneRow 13 8 "PENDING" None ]
  ∧ outcome approved = Returned true
  ∧ milestone (db (final approved))
    = [ mkMilestoneRow 11 7 "APPROVED" None;
        mkMilestoneRow 12 7 "APPROVED" None;
        mkMilestoneRow 13 8 "PENDING" None ]
  ∧ outcome released = Returned true
  ∧ milestone (db (final released))
    = [ mkMilestoneRow 11 7 "FUNDED" (Some (Js.DateOfString "2024-01-01T00:00:00Z"));
        mkMilestoneRow 12 7 "FUNDED" (Some (Js.DateOfString "2024-01-01T00:00:00Z"));
        mkMilestoneRow 13 8 "PENDING" None ].
Proof. vm_compute. done. Qed.



(** Both events for project 99, which is not in the store: handled
    without error, and nothing changes. *)
Example milestone_events_for_unknown_project :
  let approved := EventHandlerService.processEvent Sample.milestoneApprovedUnknown
                    Sample.withProject in
  let released := EventHandlerService.processEvent Sample.fundsReleasedUnknown
                    Sample.withProject in
  outcome approved = Returned true ∧ final approved = Sample.withProject
  ∧ outcome released = Returned true ∧ final released = Sample.withProject.
Proof. split_and!; reflexivity. Qed.

(** C9 (the code departs from the claim). A contribution of 100 to the
    existing project 42 that reports no running total passes validation;
    handling it creates the contributor and the contribution row and then
    raises on the missing total.  For a project that is not in the store
    nothing is raised, and the contributor is still created. *)
Example contribution_without_total_is_handled :
  let known := EventHandlerService.processEvent Sample.contributionNoTotal Sample.withProject in
  let unknown := EventHandlerService.processEvent Sample.contributionNoTotalUnknown
                   Sample.withProject in
  totalRaised (data Sample.contributionNoTotal) = None
  ∧ ContributionMadeHandler.validate Sample.contributionNoTotal = true
  ∧ user (db Sample.withProject) !! "GINVESTOR" = None
  ∧ contribution (db Sample.withProject) !! "tx200" = None
  ∧ outcome known = Raised (Js.TypeError "Cannot convert undefined to a BigInt")
  ∧ user (db (final known)) !! "GINVESTOR" = Some (mkUserRow 20 0)
  ∧ contribution (db (final known)) !! "tx200"
    = Some (mkContributionRow 20 7 100 (Js.DateOfString "2024-01-01T00:00:00Z"))
  ∧ outcome unknown = Returned true
  ∧ user (db (final unknown)) !! "GINVESTOR" = Some (mkUserRow 20 0).
Proof. vm_compute. done. Qed.

(** A contribution without an amount is skipped by validation. *)
Example contribution_without_amount_is_skipped :
  EventHandlerService.processEvent Sample.contributionNoAmount Sample.withProject
  = mkRes (Returned false) Sample.withProject
      [Logged WARN "Event validation failed for contrib"].
Proof.
  rewrite (processEvent_validation_failure _ ContributionMadeHandler.handler)
    by reflexivity.
  reflexivity.
Qed.

(** Every registered handler rejects an event whose data has no project
    id. *)
Lemma handlers_require_projectId (eventType : string) (handler : IEventHandler)
    (event : ParsedContractEvent) :
  EventHandlerService.getHandler eventType = Some handler →
  projectId (data event) = None →
  validate handler event = false.
Proof.
  unfold EventHandlerService.getHandler, EventHandlerService.handlers,
    EventHandlerService.register.
  repeat (rewrite lookup_insert; case_decide; [intros [= <-]|]);
    [..|by rewrite lookup_empty]; intros Hnone; cbn [validate];
    unfold ProjectFailedHandler.handler, ProjectCompletedHandler.handler,
      FundsReleasedHandler.handler, MilestoneApprovedHandler.handler,
      ContributionMadeHandler.handler, ProjectCreatedHandler.handler,
      ProjectFailedHandler.validate, ProjectCompletedHandler.validate,
      FundsReleasedHandler.validate, MilestoneApprovedHandler.validate,
      ContributionMadeHandler.validate, ProjectCreatedHandler.validate;
    cbn [validate]; by rewrite Hnone.
Qed.

(** The decoder extracts no field beyond the raw payload, so the
    orchestrator applies no event: [processEvent] returns [false] and
    leaves the store as it was, for every event and every world. *)
Lemma processEvent_applies_nothing (cfg : Config) (event : SorobanEvent) (w : World) :
  outcome (IndexerService.processEvent cfg event w) = Returned false
  ∧ final (IndexerService.processEvent cfg event w) = w.
Proof.
  unfold IndexerService.processEvent.
  rewrite run_bind, isEventProcessed_run. cbn [outcome final effects].
  destruct (match processedEvent (db w) !! ev_id event with
            | Some row => bool_decide (pe_network row = network cfg)
            | None => false
            end); [done|].
  rewrite run_bind.
  unfold IndexerService.parseEvent, IndexerService.parseEventData.
  destruct (Js.truthy_str (head (ev_topic event))); cbn [negb]; [|done].
  destruct (IndexerService.parseEventType _) as [type|]; [|done].
  mrun.
  match goal with
  | |- context [EventHandlerService.processEvent ?p w] => set (parsed := p)
  end.
  assert (EventHandlerService.processEvent parsed w
          = mkRes (Returned false) w (effects (EventHandlerService.processEvent parsed w)))
    as ->; [|done].
  unfold EventHandlerService.processEvent.
  destruct (EventHandlerService.getHandler _) as [handler|] eqn:Hh; [|done].
  mrun. by rewrite (handlers_require_projectId _ handler parsed Hh).
Qed.

(** ** Event fetcher *)

Section fetcher.
Context (cfg : Config).
Import IndexerService.

Lemma sleeps_app (fx fx' : list Effect) : sleeps (fx ++ fx') = sleeps fx ++ sleeps fx'.
Proof. apply omap_app. Qed.

Lemma fetchCalls_app (fx fx' : list Effect) :
  fetchCalls (fx ++ fx') = (fetchCalls fx + fetchCalls fx')%nat.
Proof. unfold fetchCalls. by rewrite omap_app, length_app. Qed.

(** The page loop only talks to the node and the logger. *)
Lemma fetchPages_quiet (startLedger : Z) (replies : list (Js.Error + GetEventsResponse))
    (events : list SorobanEvent) (cursor : option string) :
  sleeps (fetchPages cfg startLedger replies events cursor).2 = []
  ∧ fetchCalls (fetchPages cfg startLedger replies events cursor).2 = 0%nat.
Proof.
  revert events cursor.
  induction replies as [|[e|response] rest IH]; intros events cursor; simpl; [done..|].
  destruct (bool_decide _); [done|].
  destruct (Js.truthy_str _); [|done].
  specialize (IH (events ++ map transformRpcEvent (default [] (resp_events response)))
                 (resp_cursor response)).
  destruct (fetchPages _ _ _ _ _) as [[o rest'] fx]. simpl in *. done.
Qed.

Lemma fetchEvents_effects (startLedger endLedger : Z) (w : World) :
  sleeps (effects (fetchEvents cfg startLedger endLedger w)) = []
  ∧ fetchCalls (effects (fetchEvents cfg startLedger endLedger w)) = 1%nat.
Proof.
  unfold fetchEvents.
  pose proof (fetchPages_quiet startLedger (getEventsReplies w) [] None) as [Hs Hc].
  destruct (fetchPages _ _ _ _ _) as [[o rest'] fx].
  split; [exact Hs|]. unfold fetchCalls in *. simpl. f_equal. exact Hc.
Qed.

Lemma fetchEvents_db (startLedger endLedger : Z) (w : World) :
  db (final (fetchEvents cfg startLedger endLedger w)) = db w
  ∧ isRunning (final (fetchEvents cfg startLedger endLedger w)) = isRunning w.
Proof.
  unfold fetchEvents. destruct (fetchPages _ _ _ _ _) as [[o rest'] fx]. done.
Qed.

(** A first reply that is a rejection makes the call fail with it. *)
Lemma fetchEvents_rejected (startLedger endLedger : Z) (w : World) (e : Js.Error)
    (rest : list (Js.Error + GetEventsResponse)) :
  getEventsReplies w = inl e :: rest →
  outcome (fetchEvents cfg startLedger endLedger w) = Raised e
  ∧ final (fetchEvents cfg startLedger endLedger w) = set_getEventsReplies rest w.
Proof. intros H. unfold fetchEvents. rewrite H. done. Qed.

(** One iteration of the retry loop. *)
Lemma retryFrom_step (startLedger endLedger : Z) (remaining : nat) (attempt : Z)
    (lastError : option Js.Error) (w : World) :
  let r := fetchEvents cfg startLedger endLedger w in
  retryFrom cfg startLedger endLedger (S remaining) attempt lastError w
  = match outcome r with
    | Returned _ => r
    | Raised error =>
        let rest := retryFrom cfg startLedger endLedger remaining (attempt + 1)
                      (Some error) (final r) in
        mkRes (outcome rest) (final rest)
          (effects r
           ++ (Logged WARN ("Fetch attempt " +:+ Js.toString attempt +:+ "/"
                 +:+ Js.toString (retryAttempts cfg) +:+ " failed: " +:+ Js.message error)
               :: (if bool_decide (attempt < retryAttempts cfg)
                   then [ Logged LOG ("Retrying in " +:+ Js.toString (backoff cfg attempt)
                                      +:+ "ms...");
                          Slept (backoff cfg attempt) ]
                   else []))
           ++ effects rest)
    end.
Proof.
  intros r. subst r. cbn [retryFrom]. unfold try_catch.
  destruct (fetchEvents cfg startLedger endLedger w) as [[evs|error] w' fx];
    cbn [outcome final effects]; [done|].
  unfold backoff.
  destruct (bool_decide (attempt < retryAttempts cfg)); mrun;
    destruct (retryFrom _ _ _ _ _ _ _) as [o w'' fx'];
    cbn [outcome final effects app]; by rewrite <- ?app_assoc.
Qed.

Lemma retryFrom_spec (startLedger endLedger : Z) (remaining : nat) :
  ∀ (attempt : Z) (lastError : option Js.Error) (w : World),
    remaining = 0%nat ∨ attempt + Z.of_nat remaining = retryAttempts cfg + 1 →
    let r := retryFrom cfg startLedger endLedger remaining attempt lastError w in
    let errors := failures cfg startLedger endLedger remaining w in
    (length errors ≤ remaining)%nat
    ∧ fetchCalls (effects r) = (remaining `min` S (length errors))%nat
    ∧ sleeps (effects r)
      = backoff cfg <$> seqZ attempt (Z.of_nat (length errors `min` (remaining - 1)))
    ∧ (length errors = remaining →
       outcome r = Raised (Js.JsError ("Failed to fetch events after "
         +:+ Js.toString (retryAttempts cfg) +:+ " attempts: "
         +:+ Js.message_opt (lastOr lastError errors))))
    ∧ ((length errors < remaining)%nat → ∃ events, outcome r = Returned events)
    ∧ db (final r) = db w ∧ isRunning (final r) = isRunning w.
Proof.
  induction remaining as [|k IH]; intros attempt lastError w Hinv r errors.
  - subst r errors. simpl. split_and!; try done. lia.
  - subst r errors. rewrite retryFrom_step. cbn [failures].
    destruct (fetchEvents_effects startLedger endLedger w) as [Hs Hc].
    destruct (fetchEvents_db startLedger endLedger w) as [Hdb Hrun].
    destruct (outcome (fetchEvents cfg startLedger endLedger w)) as [evs|error] eqn:Hout.
    + simpl. rewrite Hs, Hc, Hout. split_and!; try done; try lia. eauto.
    + cbn zeta.
      assert (Hinv' : k = 0%nat ∨ attempt + 1 + Z.of_nat k = retryAttempts cfg + 1) by lia.
      specialize (IH (attempt + 1) (Some error)
                     (final (fetchEvents cfg startLedger endLedger w)) Hinv').
      cbn zeta in IH. destruct IH as (Hlen & Hcalls & Hsleeps & Hall & Hsome & Hdb' & Hrun').
      set (errors := failures cfg startLedger endLedger k _) in *.
      cbn [outcome final effects length].
      rewrite !fetchCalls_app, !sleeps_app, Hs, Hc, Hcalls, Hsleeps, Hdb', Hrun'.
      split_and!; try done.
      * lia.
      * replace (fetchCalls (_ :: _)) with 0%nat
          by (destruct (bool_decide (attempt < _)); reflexivity). lia.
      * destruct k as [|k].
        -- assert (errors = []) as -> by (by destruct errors; simpl in *; [|lia]).
           rewrite bool_decide_eq_false_2 by lia. reflexivity.
        -- rewrite bool_decide_eq_true_2 by lia.
           replace (S k - 0)%nat with (S k) by lia.
           replace (S (length errors) `min` (S (S k) - 1))%nat
             with (S (length errors `min` (S k - 1))) by lia.
           rewrite Nat2Z.inj_succ, (seqZ_cons attempt) by lia.
           simpl. f_equal. f_equal. f_equal; lia.
      * intros Hfull. rewrite Hall by lia. unfold lastOr.
        destruct errors as [|e' errors']; [done|].
        change (last (error :: e' :: errors')) with (last (e' :: errors')).
        destruct (last (e' :: errors')) eqn:Hl; [done|].
        by apply last_None in Hl.
      * intros Hlt. apply Hsome. lia.
Qed.

Lemma fetchEventsWithRetry_db (startLedger endLedger : Z) (w : World) :
  db (final (fetchEventsWithRetry cfg startLedger endLedger w)) = db w.
Proof.
  unfold fetchEventsWithRetry.
  apply (retryFrom_spec startLedger endLedger (Z.to_nat (retryAttempts cfg)) 1 None w).
  destruct (Z.to_nat (retryAttempts cfg)) eqn:Hn; [by left|right]. lia.
Qed.

End fetcher.

(** C7. [fetchEventsWithRetry] enters [fetchEvents] at most
    [retryAttempts] times: once more than the number of failed calls,
    capped at [retryAttempts].  After the failure of attempt [k] it sleeps
    [retryDelayMs * 2^(k-1)] when another attempt follows, so the sleeps
    are these delays for [k = 1, 2, ...] in order.  If every attempt fails
    it raises an error whose message names the number of attempts and the
    message of the last error observed; otherwise it returns. *)
Theorem fetchEventsWithRetry_backoff (cfg : Config) (startLedger endLedger : Z) (w : World) :
  let n := Z.to_nat (retryAttempts cfg) in
  let r := IndexerService.fetchEventsWithRetry cfg startLedger endLedger w in
  let errors := IndexerService.failures cfg startLedger endLedger n w in
  (fetchCalls (effects r) ≤ n)%nat
  ∧ fetchCalls (effects r) = (n `min` S (length errors))%nat
  ∧ sleeps (effects r)
    = (λ attempt, retryDelayMs cfg * 2 ^ (attempt - 1))
        <$> seqZ 1 (Z.of_nat (length errors `min` (n - 1)))
  ∧ (length errors = n →
     outcome r = Raised (Js.JsError ("Failed to fetch events after "
       +:+ Js.toString (retryAttempts cfg) +:+ " attempts: "
       +:+ Js.message_opt (last errors))))
  ∧ ((length errors < n)%nat → ∃ events, outcome r = Returned events).
Proof.
  intros n r errors. subst r errors. unfold IndexerService.fetchEventsWithRetry.
  destruct (retryFrom_spec cfg startLedger endLedger n 1 None w)
    as (Hlen & Hcalls & Hsleeps & Hall & Hsome & _).
  { subst n. destruct (Z.to_nat (retryAttempts cfg)) eqn:Hn; [by left|right]. lia. }
  fold n. split_and!; try done.
  - rewrite Hcalls. lia.
  - intros Hfull. rewrite (Hall Hfull). unfold lastOr.
    by destruct (last _).
Qed.

(** The backoff example of the specification: three attempts, base delay
    1000 ms, a node that rejects three requests. *)
Lemma fetchEventsWithRetry_backoff_witness :
  let r := IndexerService.fetchEventsWithRetry Sample.cfg 101 130 Sample.nodeDown in
  outcome r
    = Raised (Js.JsError "Failed to fetch events after 3 attempts: unavailable")
  ∧ sleeps (effects r) = [1000; 2000]
  ∧ fetchCalls (effects r) = 3%nat.
Proof.
  destruct (fetchEventsWithRetry_backoff Sample.cfg 101 130 Sample.nodeDown)
    as (_ & Hcalls & Hsleeps & Hall & _).
  split_and!.
  - apply Hall. reflexivity.
  - exact Hsleeps.
  - exact Hcalls.
Defined.

(** One failure, then a page: one sleep of the base delay, two calls, and
    the events are returned. *)
Example fetchEventsWithRetry_second_attempt :
  let r := IndexerService.fetchEventsWithRetry Sample.cfg 101 130 Sample.nodeFlaky in
  outcome r = Returned []
  ∧ sleeps (effects r) = [1000]
  ∧ fetchCalls (effects r) = 2%nat.
Proof. vm_compute. done. Qed.

(** ** Frame: what leaves the ledger cursors alone *)

Lemma keepsCursor_ret {A} (a : A) : keepsCursor (ret a).
Proof. done. Qed.

Lemma keepsCursor_throw {A} (e : Js.Error) : keepsCursor (@throw A e).
Proof. done. Qed.

Lemma keepsCursor_logger (level : Level) (text : string) : keepsCursor (logger level text).
Proof. done. Qed.

Lemma keepsCursor_getDb : keepsCursor getDb.
Proof. done. Qed.

Lemma keepsCursor_lift {A} (x : Js.Error + A) : keepsCursor (lift x).
Proof. by destruct x. Qed.

Lemma keepsCursor_freshId : keepsCursor freshId.
Proof. done. Qed.

Lemma keepsCursor_modifyDb (f : Db → Db) :
  (∀ d, ledgerCursor (f d) = ledgerCursor d) → keepsCursor (modifyDb f).
Proof. intros Hf w. apply Hf. Qed.

Lemma keepsCursor_bind {A B} (m : M A) (k : A → M B) :
  keepsCursor m → (∀ a, keepsCursor (k a)) → keepsCursor (m ≫= k).
Proof.
  intros Hm Hk w. rewrite run_bind.
  destruct (outcome (m w)) as [a|e]; simpl; [rewrite Hk|]; apply Hm.
Qed.

Lemma keepsCursor_try_catch {A} (m : M A) (h : Js.Error → M A) :
  keepsCursor m → (∀ e, keepsCursor (h e)) → keepsCursor (try_catch m h).
Proof.
  intros Hm Hh w. rewrite run_try_catch.
  destruct (outcome (m w)) as [a|e]; simpl; [|rewrite Hh]; apply Hm.
Qed.

(** Take a computation apart along its binds, handlers and branches. *)
Ltac frame :=
  repeat first
    [ apply keepsCursor_ret
    | apply keepsCursor_throw
    | apply keepsCursor_logger
    | apply keepsCursor_getDb
    | apply keepsCursor_lift
    | apply keepsCursor_freshId
    | apply keepsCursor_modifyDb; intros ?; reflexivity
    | apply keepsCursor_bind; [|intros ?]
    | apply keepsCursor_try_catch; [|intros ?]
    | progress cbv zeta
    | match goal with
      | |- keepsCursor (match ?x with _ => _ end) => destruct x
      end ].

Lemma upsertUser_keepsCursor (walletAddress : option string) :
  keepsCursor (Prisma.upsertUser walletAddress).
Proof. unfold Prisma.upsertUser. frame. Qed.

Lemma projectId_toString_keepsCursor (d : EventData) : keepsCursor (projectId_toString d).
Proof. unfold projectId_toString. frame. Qed.

Lemma findProject_keepsCursor (contractId : string) :
  keepsCursor (Prisma.findProject contractId).
Proof. unfold Prisma.findProject. frame. Qed.

Lemma updateProjectById_keepsCursor (pid : nat) (f : ProjectRow → ProjectRow) :
  keepsCursor (Prisma.updateProjectById pid f).
Proof. unfold Prisma.updateProjectById. frame. Qed.

Lemma updateProjectsByContractId_keepsCursor (contractId : string)
    (f : ProjectRow → ProjectRow) :
  keepsCursor (Prisma.updateProjectsByContractId contractId f).
Proof. unfold Prisma.updateProjectsByContractId. frame. Qed.

Lemma updateMilestonesOfProject_keepsCursor (pid : nat) (f : MilestoneRow → MilestoneRow) :
  keepsCursor (Prisma.updateMilestonesOfProject pid f).
Proof. unfold Prisma.updateMilestonesOfProject. frame. Qed.

Lemma dateArgument_keepsCursor (model : string) (d : Js.Date) :
  keepsCursor (Prisma.dateArgument model d).
Proof. unfold Prisma.dateArgument. frame. Qed.

Create HintDb frame.

#[local] Hint Resolve upsertUser_keepsCursor projectId_toString_keepsCursor
  findProject_keepsCursor updateProjectById_keepsCursor
  updateProjectsByContractId_keepsCursor updateMilestonesOfProject_keepsCursor
  dateArgument_keepsCursor : frame.

Lemma handlers_keepCursor (eventType : string) (handler : IEventHandler)
    (event : ParsedContractEvent) :
  EventHandlerService.getHandler eventType = Some handler →
  keepsCursor (handle handler event).
Proof.
  unfold EventHandlerService.getHandler, EventHandlerService.handlers,
    EventHandlerService.register.
  repeat (rewrite lookup_insert; case_decide; [intros [= <-]|]);
    [..|by rewrite lookup_empty]; simpl.
  - unfold ProjectFailedHandler.handle. cbv zeta. frame; auto with frame.
  - unfold ProjectCompletedHandler.handle. cbv zeta. frame; auto with frame.
  - unfold FundsReleasedHandler.handle. cbv zeta. frame; auto with frame.
  - unfold MilestoneApprovedHandler.handle. cbv zeta. frame; auto with frame.
  - unfold ContributionMadeHandler.handle. cbv zeta. frame; auto with frame.
  - unfold ProjectCreatedHandler.handle. cbv zeta. frame; auto with frame.
Qed.

Lemma EventHandlerService_processEvent_keepsCursor (event : ParsedContractEvent) :
  keepsCursor (EventHandlerService.processEvent event).
Proof.
  unfold EventHandlerService.processEvent.
  destruct (EventHandlerService.getHandler _) as [handler|] eqn:Hh; frame.
  by eapply handlers_keepCursor.
Qed.

Lemma parseEvent_keepsCursor (event : SorobanEvent) :
  keepsCursor (IndexerService.parseEvent event).
Proof. unfold IndexerService.parseEvent, IndexerService.parseEventData. frame. Qed.

Lemma processEvent_keepsCursor (cfg : Config) (event : SorobanEvent) :
  keepsCursor (IndexerService.processEvent cfg event).
Proof.
  unfold IndexerService.processEvent, LedgerTrackerService.isEventProcessed,
    LedgerTrackerService.markEventProcessed.
  frame; auto using parseEvent_keepsCursor, EventHandlerService_processEvent_keepsCursor.
Qed.

Lemma logError_keepsCursor (message : string) (metadata : list (string * MetaValue)) :
  keepsCursor (LedgerTrackerService.logError message metadata).
Proof. unfold LedgerTrackerService.logError. frame. Qed.

(** ** The per-event loop *)

Lemma bind_assoc {A B C} (m : M A) (f : A → M B) (g : B → M C) (w : World) :
  ((m ≫= f) ≫= g) w = (m ≫= (λ a, f a ≫= g)) w.
Proof.
  rewrite !run_bind. destruct (outcome (m w)) as [a|e]; simpl; [|done].
  rewrite !run_bind. destruct (outcome (f a (final (m w)))) as [b|e]; simpl; [|done].
  by rewrite app_assoc.
Qed.

Lemma bind_ext {A B} (m : M A) (f g : A → M B) (w : World) :
  (∀ a w', f a w' = g a w') → (m ≫= f) w = (m ≫= g) w.
Proof. intros H. rewrite !run_bind. destruct (outcome (m w)); [|done]. by rewrite H. Qed.

Section loop.
Context (step : SorobanEvent → M bool).
Import IndexerService.

(** The loop returns on every batch, whatever the steps do. *)
Lemma forEachEvent_returns (events : list SorobanEvent) :
  ∀ (processedCount errorCount : nat) (w : World),
    ∃ counts, outcome (forEachEvent step events processedCount errorCount w)
              = Returned counts
      ∧ (counts.1 + counts.2 ≤ processedCount + errorCount + length events)%nat.
Proof.
  induction events as [|event events IH]; intros p e w; simpl.
  - eexists. split; [reflexivity|]. simpl. lia.
  - unfold LedgerTrackerService.logError. mrun.
    destruct (step event w) as [[success|error] w' fx]; mrun.
    + destruct (IH (if success then S p else p) e w') as (counts & Hout & Hle).
      destruct (forEachEvent _ _ _ _ _) as [o w'' fx']. simpl in *.
      eexists. split; [done|]. destruct success; lia.
    + match goal with
      | |- context [forEachEvent step events p (S e) ?w0] =>
          destruct (IH p (S e) w0) as (counts & Hout & Hle)
      end.
      destruct (forEachEvent _ _ _ _ _) as [o w'' fx']. simpl in *.
      eexists. split; [done|]. lia.
Qed.

(** Processing a batch is processing a prefix and then, from the world
    and the counts that the prefix left, the rest. *)
Lemma forEachEvent_app (events1 events2 : list SorobanEvent) :
  ∀ (processedCount errorCount : nat) (w : World),
    forEachEvent step (events1 ++ events2) processedCount errorCount w
    = (forEachEvent step events1 processedCount errorCount
         ≫= λ counts, forEachEvent step events2 counts.1 counts.2) w.
Proof.
  induction events1 as [|event events1 IH]; intros p e w.
  - simpl. rewrite run_bind. simpl.
    by destruct (forEachEvent step events2 p e w).
  - cbn [app forEachEvent]. rewrite bind_assoc.
    apply bind_ext. intros counts w'. apply IH.
Qed.

Lemma forEachEvent_keepsCursor (events : list SorobanEvent) :
  (∀ event, keepsCursor (step event)) →
  ∀ processedCount errorCount,
    keepsCursor (forEachEvent step events processedCount errorCount).
Proof.
  intros Hstep. induction events as [|event events IH]; intros p e; simpl.
  - frame.
  - frame; auto using logError_keepsCursor.
Qed.

End loop.
(** ** One poll cycle *)

Section cycle.
Context (cfg : Config).
Import IndexerService.

Lemma getLatestLedger_run (w : World) (latest : Z) (rest : list (Js.Error + Z)) :
  latestLedgerReplies w = inr latest :: rest →
  getLatestLedger w = mkRes (Returned latest) (set_latestLedgerReplies rest w) [GetLatestLedger].
Proof. intros H. unfold getLatestLedger. by rewrite H. Qed.


(** The body of the cycle, from a world with a cursor row and a node
    that reports [latest]: it fails with the fetch, and otherwise moves
    the cursor to [latest]. *)
Lemma pollCycle_run (w : World) (row : LedgerCursorRow) (latest : Z)
    (rest : list (Js.Error + Z)) :
  ledgerCursor (db w) !! network cfg = Some row →
  latestLedgerReplies w = inr latest :: rest →
  lc_lastLedgerSeq row + 1 ≤ latest →
  let fetch := fetchEventsWithRetry cfg (lc_lastLedgerSeq row + 1) latest
                 (set_latestLedgerReplies rest w) in
  let r := pollCycle cfg w in
  match outcome fetch with
  | Raised e => outcome r = Raised e ∧ db (final r) = db w
  | Returned events =>
      outcome r = Returned tt
      ∧ ledgerCursor (db (final r))
        = <[network cfg := mkLedgerCursorRow (lc_id row) latest None]> (ledgerCursor (db w))
  end.
Proof.
  intros Hrow Hlatest Hle fetch r. subst r. unfold pollCycle.
  mrun.
  rewrite getLastCursor_run, Hrow.
  cbn [fmap option_fmap option_map LedgerTrackerService.toCursor lastLedgerSeq].
  rewrite (getLatestLedger_run w latest rest Hlatest).
  rewrite bool_decide_eq_false_2 by lia.
  fold fetch.
  pose proof (fetchEventsWithRetry_db cfg (lc_lastLedgerSeq row + 1) latest
                (set_latestLedgerReplies rest w)) as Hdb.
  fold fetch in Hdb. cbn [db set_latestLedgerReplies] in Hdb.
  clearbody fetch. destruct fetch as [[events|e] wf fxf];
    cbn [outcome final effects] in *; [|done].
  destruct events as [|event events].
  - rewrite (updateCursor_run cfg wf row) by (by rewrite Hdb).
    cbn [outcome final effects db set_db ledgerCursor set_ledgerCursor].
    by rewrite Hdb.
  - destruct (forEachEvent_returns (processEvent cfg) (event :: events) 0 0 wf)
      as (counts & Hcounts & _).
    pose proof (forEachEvent_keepsCursor (processEvent cfg) (event :: events)
                  (processEvent_keepsCursor cfg) 0%nat 0%nat wf) as Hloop.
    rewrite Hdb in Hloop.
    destruct (forEachEvent _ _ _ _ _) as [o wl fxl].
    cbn [outcome final effects] in *. subst o.
    rewrite (updateCursor_run cfg wl row) by (by rewrite Hloop).
    unfold LedgerTrackerService.logProgress. mrun.
    by rewrite Hloop.
Qed.

(** [IndexerService] is [Indexer] at the collaborators of this file. *)
Lemma IndexerService_instance :
  (∀ event, processEvent cfg event
            = Indexer.processEvent (ledgerTrackerService cfg)
                EventHandlerService.processEvent event)
  ∧ (∀ step events processedCount errorCount,
       forEachEvent step events processedCount errorCount
       = Indexer.forEachEvent (ledgerTrackerService cfg) step events
           processedCount errorCount)
  ∧ pollCycle cfg
    = Indexer.pollCycle cfg (ledgerTrackerService cfg) EventHandlerService.processEvent
  ∧ pollEvents cfg
    = Indexer.pollEvents cfg (ledgerTrackerService cfg) EventHandlerService.processEvent
  ∧ scheduledPoll cfg
    = Indexer.scheduledPoll cfg (ledgerTrackerService cfg) EventHandlerService.processEvent.
Proof. split_and!; reflexivity. Qed.

End cycle.

(** ** The cycle over arbitrary collaborators *)

Section collaborators.
Context (cfg : Config).
Context (ledgerTracker : LedgerTracker.t).
Context (eventHandler : ParsedContractEvent → M bool).


Lemma Indexer_eventFailed_keepsCursor (event : SorobanEvent) (error : Js.Error) :
  tracksCursor cfg ledgerTracker →
  keepsCursor (Indexer.eventFailed ledgerTracker event error).
Proof. intros (_ & _ & _ & _ & _ & Hlog). unfold Indexer.eventFailed. frame; auto. Qed.







End collaborators.



Lemma ledgerTrackerService_logsErrors (cfg : Config) : logsErrors (ledgerTrackerService cfg).
Proof. intros message metadata w. reflexivity. Qed.

(** So is the tracker over a store that rejects every write to the log. *)
Lemma logless_tracksCursor : tracksCursor Sample.cfg Sample.logless.
Proof.
  split_and!; cbn [Sample.logless LedgerTracker.getLastCursor
    LedgerTracker.updateCursor LedgerTracker.isEventProcessed
    LedgerTracker.markEventProcessed LedgerTracker.logProgress LedgerTracker.logError];
    [done|done|intros ?|intros ? ? ? ? ?|intros ? ? ?|intros ? ?].
  - unfold LedgerTrackerService.isEventProcessed. frame.
  - unfold LedgerTrackerService.markEventProcessed. frame.
  - frame.
  - frame.
Qed.


(** A node that rejects every request: the cycle ends without raising
    and the cursor stays at ledger 49. *)
Example pollEvents_fetch_failure :
  let r := IndexerService.pollEvents Sample.cfg Sample.unreachable in
  outcome r = Returned tt
  ∧ sleeps (effects r) = [1000; 2000]
  ∧ ledgerCursor (db (final r)) !! "testnet" = Some (mkLedgerCursorRow 0 49 None)
  ∧ l_message <$> indexerLog (db (final r)) = ["Poll cycle failed"].
Proof. vm_compute. done. Qed.

(** A batch of three events, none of which is applied: the cursor ends at
    ledger 80. *)
Example pollEvents_three_events :
  let r := IndexerService.pollEvents Sample.cfg Sample.threeEvents in
  outcome r = Returned tt
  ∧ ledgerCursor (db (final r)) !! "testnet" = Some (mkLedgerCursorRow 0 80 None)
  ∧ processedEvent (db (final r)) = ∅.
Proof. vm_compute. done. Qed.

(** The same batch with a handler service that accepts what it is given:
    the event that parses is handled and marked, and the cursor ends at
    ledger 80. *)
Example pollEvents_event_handled :
  let r := Indexer.pollEvents Sample.cfg (ledgerTrackerService Sample.cfg)
             Sample.acceptingHandler Sample.threeEvents in
  outcome r = Returned tt
  ∧ ledgerCursor (db (final r)) !! "testnet" = Some (mkLedgerCursorRow 0 80 None)
  ∧ dom (processedEvent (db (final r))) = {[ "c" ]}
  ∧ Logged LOG "Processed 1/3 events (0 errors)" ∈ effects r.
Proof. vm_compute. split_and!; [done..|set_solver]. Qed.

(** With a handler service that raises, the failure is logged, the batch
    is finished and the cursor ends at ledger 80. *)
Example pollEvents_event_failed :
  let r := Indexer.pollEvents Sample.cfg (ledgerTrackerService Sample.cfg)
             Sample.failingHandler Sample.threeEvents in
  outcome r = Returned tt
  ∧ ledgerCursor (db (final r)) !! "testnet" = Some (mkLedgerCursorRow 0 80 None)
  ∧ processedEvent (db (final r)) = ∅
  ∧ l_message <$> indexerLog (db (final r))
    = ["Event processing failed: c"; "Processed ledger 80"]
  ∧ Logged LOG "Processed 0/3 events (1 errors)" ∈ effects r.
Proof. vm_compute. split_and!; [done..|set_solver]. Qed.

(** If moreover the store rejects the log of that failure, the cycle is
    abandoned: the cursor stays at ledger 49 and [pollEvents] raises, with
    the running flag released. *)
Example pollEvents_event_failed_unlogged :
  let r := Indexer.pollEvents Sample.cfg Sample.logless Sample.failingHandler
             Sample.threeEvents in
  outcome r = Raised (Js.JsError "log table locked")
  ∧ ledgerCursor (db (final r)) !! "testnet" = Some (mkLedgerCursorRow 0 49 None)
  ∧ isRunning (final r) = false.
Proof. vm_compute. done. Qed.

(** A step that raises on every event: the loop counts three errors,
    logs each of them and returns. *)
Example forEachEvent_counts_failures :
  let r := IndexerService.forEachEvent Sample.failingStep
             [Sample.rawContribution; Sample.rawContribution; Sample.rawContribution]
             0 0 Sample.fresh in
  outcome r = Returned (0%nat, 3%nat)
  ∧ length (indexerLog (db (final r))) = 3%nat.
Proof. vm_compute. done. Qed.

(** Without a cursor row the cycle fetches from ledger 1 and the update
    of the cursor is rejected by the store; the cycle logs the failure. *)
Example pollEvents_without_cursor :
  let w := mkWorld emptyDb [inr 80] [inr (mkGetEventsResponse (Some []) None)] false false in
  let r := IndexerService.pollEvents Sample.cfg w in
  outcome r = Returned tt
  ∧ ledgerCursor (db (final r)) = ∅
  ∧ l_message <$> indexerLog (db (final r)) = ["Poll cycle failed"].
Proof. vm_compute. done. Qed.

(** * Further properties *)

(** ** Ledger cursor tracker: round trips and compositions *)

(** X1. [initializeCursor] never raises.  Afterwards [getLastCursor]
    returns the cursor it returned: at [startLedger], without a hash, under
    the primary key the network's row already had if there was one; the
    cursors of other networks are untouched, and a second call with the
    same ledger changes nothing. *)
Theorem initializeCursor_read_back (cfg : Config) (startLedger : Z) (w : World) :
  let r := LedgerTrackerService.initializeCursor cfg startLedger w in
  ∃ c, outcome r = Returned c
    ∧ lastLedgerSeq c = startLedger ∧ lastLedgerHash c = None
    ∧ cursor_id c = match ledgerCursor (db w) !! network cfg with
                    | Some row => lc_id row
                    | None => nextId (db w)
                    end
    ∧ outcome (LedgerTrackerService.getLastCursor cfg (final r)) = Returned (Some c)
    ∧ (∀ other, other ≠ network cfg →
         ledgerCursor (db (final r)) !! other = ledgerCursor (db w) !! other)
    ∧ final (LedgerTrackerService.initializeCursor cfg startLedger (final r)) = final r.
Proof.
  intros r. subst r. unfold LedgerTrackerService.initializeCursor.
  rewrite !getLastCursor_run. mrun.
  destruct (ledgerCursor (db w) !! network cfg) as [row|] eqn:Hrow; mrun;
    rewrite !lookup_insert_eq; mrun;
    (eexists; split_and!; [reflexivity..| |]);
    try (intros other Hne; by rewrite lookup_insert_ne);
    unfold set_db, set_ledgerCursor, set_nextId;
    cbn [db ledgerCursor processedEvent user project contribution milestone
         indexerLog nextId latestLedgerReplies getEventsReplies isRunning
         isShuttingDown lc_id];
    by rewrite insert_insert_eq.
Qed.

(** X2. [updateCursor] on a store without a cursor row of the network
    raises and changes nothing.  With a row, it returns, keeps the row's
    primary key, and [getLastCursor] reads back the ledger and the hash (an
    empty hash as no hash); every other table and the cursors of other
    networks stay as they were. *)
Theorem updateCursor_read_back (cfg : Config) (ledgerSeq : Z) (ledgerHash : option string)
    (w : World) :
  let r := LedgerTrackerService.updateCursor cfg ledgerSeq ledgerHash w in
  (ledgerCursor (db w) !! network cfg = None →
     outcome r = Raised (Js.PrismaNotFound "LedgerCursor") ∧ final r = w)
  ∧ (∀ row, ledgerCursor (db w) !! network cfg = Some row →
       outcome r = Returned tt
       ∧ outcome (LedgerTrackerService.getLastCursor cfg (final r))
         = Returned (Some (mkLedgerCursor (lc_id row) (network cfg) ledgerSeq
                             (if Js.truthy_str ledgerHash then ledgerHash else None)))
       ∧ (∀ other, other ≠ network cfg →
            ledgerCursor (db (final r)) !! other = ledgerCursor (db w) !! other)
       ∧ set_db (set_ledgerCursor (λ _, ledgerCursor (db w))) (final r) = w).
Proof.
  intros r. subst r. split.
  - intros Hnone. by rewrite updateCursor_missing.
  - intros row Hrow. rewrite (updateCursor_run cfg w row) by done.
    rewrite getLastCursor_run. mrun. rewrite lookup_insert_eq.
    split_and!; try done.
    + unfold LedgerTrackerService.toCursor, or_undefined. cbn.
      by destruct (Js.truthy_str ledgerHash) eqn:Hh; rewrite ?Hh.
    + intros other Hne. by rewrite lookup_insert_ne.
    + by destruct w as [[]].
Qed.

Lemma updateCursor_read_back_witness :
  outcome (LedgerTrackerService.updateCursor Sample.cfg 7 None Sample.fresh)
    = Raised (Js.PrismaNotFound "LedgerCursor")
  ∧ outcome (LedgerTrackerService.getLastCursor Sample.cfg
               (final (LedgerTrackerService.updateCursor Sample.cfg 120 (Some "") Sample.at100)))
    = Returned (Some (mkLedgerCursor 0 "testnet" 120 None)).
Proof.
  split.
  - apply (proj1 (updateCursor_read_back Sample.cfg 7 None Sample.fresh) eq_refl).
  - apply (proj2 (updateCursor_read_back Sample.cfg 120 (Some "") Sample.at100)
             (mkLedgerCursorRow 0 100 (Some "H1")) eq_refl).
Defined.

(** X3. After [markEventProcessed] of an event id that had no dedup row,
    or had one of this network, [isEventProcessed] answers [true] for it.
    If the id already had a row of another network, the mark changes
    nothing and the answer stays [false].  The answer for every other id is
    as before. *)
Theorem markEventProcessed_then_isEventProcessed (cfg : Config) (eventId : string)
    (ledgerSeq : Z) (contractId eventType transactionHash : string) (w : World) :
  let w1 := final (LedgerTrackerService.markEventProcessed cfg eventId ledgerSeq
                     contractId eventType transactionHash w) in
  ((processedEvent (db w) !! eventId = None
    ∨ ∃ row, processedEvent (db w) !! eventId = Some row ∧ pe_network row = network cfg) →
     outcome (LedgerTrackerService.isEventProcessed cfg eventId w1) = Returned true)
  ∧ (∀ row, processedEvent (db w) !! eventId = Some row → pe_network row ≠ network cfg →
       w1 = w
       ∧ outcome (LedgerTrackerService.isEventProcessed cfg eventId w1) = Returned false)
  ∧ (∀ other, other ≠ eventId →
       outcome (LedgerTrackerService.isEventProcessed cfg other w1)
       = outcome (LedgerTrackerService.isEventProcessed cfg other w)).
Proof.
  intros w1. subst w1. rewrite !isEventProcessed_run.
  unfold LedgerTrackerService.markEventProcessed. mrun.
  destruct (processedEvent (db w) !! eventId) as [row|] eqn:Hrow; mrun.
  - split_and!.
    + intros [?|(row' & [= <-] & Hnet)]; [done|].
      by rewrite Hrow, bool_decide_eq_true_2.
    + intros row' [= <-] Hnet. by rewrite Hrow, bool_decide_eq_false_2.
    + intros other Hne. by rewrite isEventProcessed_run.
  - split_and!.
    + intros _. by rewrite lookup_insert_eq, bool_decide_eq_true_2.
    + done.
    + intros other Hne. rewrite !isEventProcessed_run. mrun.
      by rewrite lookup_insert_ne.
Qed.

Lemma markEventProcessed_then_isEventProcessed_witness :
  outcome (LedgerTrackerService.isEventProcessed Sample.cfg "e99"
             (final (LedgerTrackerService.markEventProcessed Sample.cfg "e99" 99 "C1"
                       "contrib" "t99" Sample.withDedup)))
    = Returned true
  ∧ outcome (LedgerTrackerService.isEventProcessed Sample.cfg "m99"
               (final (LedgerTrackerService.markEventProcessed Sample.cfg "m99" 99 "C1"
                         "contrib" "t99" Sample.withDedup)))
    = Returned false.
Proof.
  split.
  - apply (proj1 (markEventProcessed_then_isEventProcessed Sample.cfg "e99" 99 "C1"
                    "contrib" "t99" Sample.withDedup)).
    left. reflexivity.
  - apply (proj1 (proj2 (markEventProcessed_then_isEventProcessed Sample.cfg "m99" 99 "C1"
                           "contrib" "t99" Sample.withDedup))
             (mkProcessedEventRow "mainnet" 99 "C1" "contrib" "u99") eq_refl).
    discriminate.
Defined.

(** ** Reorg handling: bounds and what follows a rollback *)

Section rollback.
Context (cfg : Config).
Import LedgerTrackerService.

(** The world that a rollback leaves. *)
Lemma handleReorg_run (res : ReorgDetectionResult) (row : LedgerCursorRow) (w : World) :
  hasReorg res = true →
  ledgerCursor (db w) !! network cfg = Some row →
  outcome (handleReorg cfg res w) = Returned (safeLedgerOf cfg res)
  ∧ final (handleReorg cfg res w)
    = set_db (set_ledgerCursor
               <[network cfg := mkLedgerCursorRow (lc_id row) (safeLedgerOf cfg res) None]>)
        (set_db (set_processedEvent
                  (filter (λ kv, rolledBack cfg (safeLedgerOf cfg res) kv.2 = false))) w).
Proof.
  intros Hre Hrow. unfold handleReorg, updateCursor, safeLedgerOf.
  rewrite Hre. mrun. rewrite Hrow. mrun. done.
Qed.

(** What [detectReorg] can return. *)
Lemma detectReorg_shape (currentLedger : LedgerInfo) (w : World) :
  ∃ res, outcome (detectReorg cfg currentLedger w) = Returned res
    ∧ final (detectReorg cfg currentLedger w) = w
    ∧ newLatestLedger res = sequence currentLedger
    ∧ (hasReorg res = true →
         is_Some (ledgerCursor (db w) !! network cfg)
         ∧ 1 ≤ reorgDepth res
         ∧ sequence currentLedger - 1 ≤ lastValidLedger res ≤ sequence currentLedger).
Proof.
  unfold detectReorg.
  rewrite run_bind, getLastCursor_run. cbn [outcome final effects].
  destruct (ledgerCursor (db w) !! network cfg) as [row|] eqn:Hrow;
    cbn [fmap option_fmap option_map toCursor lastLedgerHash lastLedgerSeq];
    [destruct (or_undefined (lc_lastLedgerHash row)) as [h|] eqn:Hh;
      [destruct (bool_decide (sequence currentLedger = _)) eqn:Hsame;
        [destruct (bool_decide (hash currentLedger = h)) eqn:Hhash
        |destruct (bool_decide (_ < sequence currentLedger)) eqn:Hlt] |] |];
    mrun; eexists; (split; [reflexivity|]); (split; [reflexivity|]);
    (split; [reflexivity|]); cbn [hasReorg reorgDepth lastValidLedger];
    repeat match goal with
           | H : bool_decide _ = true |- _ => apply bool_decide_eq_true in H
           | H : bool_decide _ = false |- _ => apply bool_decide_eq_false in H
           end;
    intros; split_and!; eauto; try done; lia.
Qed.

End rollback.

(** X4. A rollback is bounded.  When [handleReorg] handles a reorg with a
    non-negative threshold, depth and last valid ledger, the ledger it
    returns lies between 0 and the last valid ledger and at most
    [reorgDepthThreshold] below it; the cursor is put there, and afterwards
    no dedup row of the network lies above the cursor. *)
Theorem handleReorg_bounded (cfg : Config) (res : ReorgDetectionResult)
    (row : LedgerCursorRow) (w : World) :
  hasReorg res = true →
  ledgerCursor (db w) !! network cfg = Some row →
  0 ≤ reorgDepthThreshold cfg → 0 ≤ reorgDepth res → 0 ≤ lastValidLedger res →
  let r := LedgerTrackerService.handleReorg cfg res w in
  ∃ safeLedger row',
    outcome r = Returned safeLedger
    ∧ 0 ≤ safeLedger ≤ lastValidLedger res
    ∧ lastValidLedger res - safeLedger ≤ reorgDepthThreshold cfg
    ∧ ledgerCursor (db (final r)) !! network cfg = Some row'
    ∧ lc_lastLedgerSeq row' = safeLedger
    ∧ ∀ eventId dedup,
        processedEvent (db (final r)) !! eventId = Some dedup →
        pe_network dedup = network cfg →
        pe_ledgerSeq dedup ≤ lc_lastLedgerSeq row'.
Proof.
  intros Hre Hrow Hthr Hdepth Hvalid r. subst r.
  destruct (handleReorg_run cfg res row w Hre Hrow) as [-> ->].
  eexists _, _. split_and!; [reflexivity|..].
  - unfold safeLedgerOf. lia.
  - unfold safeLedgerOf. lia.
  - unfold safeLedgerOf. lia.
  - mrun. apply lookup_insert_eq.
  - reflexivity.
  - mrun. intros eventId dedup Hlook Hnet.
    apply map_lookup_filter_Some in Hlook as [_ Hkeep]. cbn in Hkeep.
    apply rolledBack_false in Hkeep.
    destruct (Z.le_gt_cases (pe_ledgerSeq dedup) (safeLedgerOf cfg res)); [done|].
    destruct Hkeep. split; [done|lia].
Qed.

(** A reorg of depth 10 under the default threshold of 5 is rolled back
    by 5 ledgers, from the last valid ledger 90 to ledger 85. *)
Lemma handleReorg_bounded_witness :
  ∃ row',
    outcome (LedgerTrackerService.handleReorg Sample.cfg Scenario.deepReorg Sample.withDedup)
      = Returned 85
    ∧ ledgerCursor (db (final (LedgerTrackerService.handleReorg Sample.cfg
                                 Scenario.deepReorg Sample.withDedup))) !! "testnet"
      = Some row'
    ∧ lc_lastLedgerSeq row' = 85.
Proof.
  destruct (handleReorg_bounded Sample.cfg Scenario.deepReorg
              (mkLedgerCursorRow 0 100 (Some "H1")) Sample.withDedup
              eq_refl eq_refl)
    as (safeLedger & row' & Hout & _ & _ & Hcur & Hseq & _);
    [vm_compute; discriminate..|].
  vm_compute in Hout. injection Hout as <-.
  exists row'. split_and!; [reflexivity|exact Hcur|exact Hseq].
Defined.

(** X5. What follows a rollback.  After [handleReorg] has handled a
    reorg, [getStartLedger] resumes at the safe ledger plus one,
    [detectReorg] reports no reorg for any remote ledger (the rollback
    stores no hash), and [isEventProcessed] answers [false] for every
    event of the network that was recorded above the safe ledger and
    [true] for those recorded at or below it. *)
Theorem handleReorg_then_resume (cfg : Config) (res : ReorgDetectionResult)
    (row : LedgerCursorRow) (w : World) :
  hasReorg res = true →
  ledgerCursor (db w) !! network cfg = Some row →
  let w1 := final (LedgerTrackerService.handleReorg cfg res w) in
  let safeLedger := safeLedgerOf cfg res in
  (∀ latestLedger,
     outcome (LedgerTrackerService.getStartLedger cfg latestLedger w1)
       = Returned (Js.Num (safeLedger + 1))
     ∧ final (LedgerTrackerService.getStartLedger cfg latestLedger w1) = w1)
  ∧ (∀ currentLedger, ∃ detected,
       outcome (LedgerTrackerService.detectReorg cfg currentLedger w1) = Returned detected
       ∧ hasReorg detected = false
       ∧ lastValidLedger detected = sequence currentLedger - 1)
  ∧ (∀ eventId dedup,
       processedEvent (db w) !! eventId = Some dedup →
       pe_network dedup = network cfg →
       outcome (LedgerTrackerService.isEventProcessed cfg eventId w1)
       = Returned (bool_decide (pe_ledgerSeq dedup ≤ safeLedger))).
Proof.
  intros Hre Hrow w1 safeLedger. subst w1 safeLedger.
  destruct (handleReorg_run cfg res row w Hre Hrow) as [_ ->].
  split_and!.
  - intros latestLedger. unfold LedgerTrackerService.getStartLedger.
    rewrite run_bind, getLastCursor_run. mrun. rewrite lookup_insert_eq. done.
  - intros currentLedger. unfold LedgerTrackerService.detectReorg.
    rewrite run_bind, getLastCursor_run. mrun. rewrite lookup_insert_eq.
    cbn. eexists. split_and!; reflexivity.
  - intros eventId dedup Hdedup Hnet. rewrite isEventProcessed_run. mrun.
    f_equal.
    destruct (decide (pe_ledgerSeq dedup ≤ safeLedgerOf cfg res)) as [Hle|Hgt].
    + rewrite (bool_decide_eq_true_2 (pe_ledgerSeq dedup ≤ _)) by done.
      erewrite (proj2 (map_lookup_filter_Some _ _ eventId dedup)).
      * by apply bool_decide_eq_true_2.
      * split; [done|]. cbn. apply rolledBack_false. intros [_ ?]. lia.
    + rewrite (bool_decide_eq_false_2 (pe_ledgerSeq dedup ≤ _)) by done.
      rewrite (proj2 (map_lookup_filter_None _ _ eventId)); [done|].
      right. intros dedup' Hd'. rewrite Hdedup in Hd'. injection Hd' as <-.
      cbn. intros Hfalse. apply rolledBack_false in Hfalse. destruct Hfalse.
      split; [done|lia].
Qed.

Lemma handleReorg_then_resume_witness :
  let w1 := final (LedgerTrackerService.handleReorg Sample.cfg
                     (mkReorgDetectionResult true 1 99 100) Sample.withDedup) in
  outcome (LedgerTrackerService.getStartLedger Sample.cfg 500 w1) = Returned (Js.Num 97)
  ∧ outcome (LedgerTrackerService.isEventProcessed Sample.cfg "e97" w1) = Returned false
  ∧ outcome (LedgerTrackerService.isEventProcessed Sample.cfg "e96" w1) = Returned true.
Proof.
  destruct (handleReorg_then_resume Sample.cfg (mkReorgDetectionResult true 1 99 100)
              (mkLedgerCursorRow 0 100 (Some "H1")) Sample.withDedup eq_refl eq_refl)
    as (Hstart & _ & Hdedup).
  split_and!.
  - apply Hstart.
  - apply (Hdedup "e97" (mkProcessedEventRow "testnet" 97 "C1" "contrib" "t97")
             eq_refl eq_refl).
  - apply (Hdedup "e96" (mkProcessedEventRow "testnet" 96 "C1" "contrib" "t96")
             eq_refl eq_refl).
Defined.

(** X6. Detection followed by handling never raises: whatever the store
    and the remote report, [handleReorg] applied to the result of
    [detectReorg] returns a ledger.  Without a reorg it is the remote
    sequence; in every case, for a non-negative threshold and remote
    sequence, it lies between 0 and the remote sequence. *)
Theorem detectReorg_then_handleReorg (cfg : Config) (currentLedger : LedgerInfo) (w : World) :
  let detection := LedgerTrackerService.detectReorg cfg currentLedger w in
  ∃ detected resume,
    outcome detection = Returned detected
    ∧ outcome (LedgerTrackerService.handleReorg cfg detected (final detection))
      = Returned resume
    ∧ (hasReorg detected = false → resume = sequence currentLedger)
    ∧ (0 ≤ reorgDepthThreshold cfg → 0 ≤ sequence currentLedger →
       0 ≤ resume ≤ sequence currentLedger).
Proof.
  intros detection. subst detection.
  destruct (detectReorg_shape cfg currentLedger w)
    as (detected & Hout & -> & Hlatest & Hreorg).
  exists detected. rewrite Hout.
  destruct (hasReorg detected) eqn:Hre.
  - destruct (Hreorg eq_refl) as ([row Hrow] & Hdepth & Hvalid).
    destruct (handleReorg_run cfg detected row w Hre Hrow) as [-> _].
    eexists. split_and!; [reflexivity..|done|].
    unfold safeLedgerOf. lia.
  - unfold LedgerTrackerService.handleReorg. rewrite Hre. cbn.
    eexists. split_and!; [reflexivity..|done|lia].
Qed.

Lemma detectReorg_then_handleReorg_witness :
  ∃ detected resume,
    outcome (LedgerTrackerService.detectReorg Sample.cfg (Sample.remote 93 "H9") Sample.at100)
      = Returned detected
    ∧ outcome (LedgerTrackerService.handleReorg Sample.cfg detected Sample.at100)
      = Returned resume
    ∧ 0 ≤ resume ≤ 93.
Proof.
  destruct (detectReorg_then_handleReorg Sample.cfg (Sample.remote 93 "H9") Sample.at100)
    as (detected & resume & Hd & Hh & _ & Hb).
  exists detected, resume. split_and!; [exact Hd|exact Hh|apply Hb; done..].
Defined.

(** ** The poll cycle on every world *)

Section everyCycle.
Context (cfg : Config).
Import IndexerService.

(** With the decoder as it is, the loop applies nothing. *)
Lemma forEachEvent_inert (events : list SorobanEvent) :
  ∀ (processedCount errorCount : nat) (w : World),
    outcome (forEachEvent (processEvent cfg) events processedCount errorCount w)
      = Returned (processedCount, errorCount)
    ∧ final (forEachEvent (processEvent cfg) events processedCount errorCount w) = w.
Proof.
  induction events as [|event events IH]; intros p e w; [done|].
  cbn [forEachEvent]. mrun.
  destruct (processEvent_applies_nothing cfg event w) as [Hout Hfin].
  destruct (processEvent cfg event w) as [o w' fx]. cbn in Hout, Hfin. subst o w'.
  cbn [fst snd]. destruct (IH p e w) as [Hout Hfin].
  destruct (forEachEvent _ _ _ _ _) as [o w' fx']. cbn in *. by subst.
Qed.

(** What a cycle body can do to the store: nothing, or move the cursor
    of the network forward and append to the log. *)
Lemma pollCycle_db (w : World) :
  db (final (pollCycle cfg w)) = db w
  ∨ ∃ row latest logs,
      ledgerCursor (db w) !! network cfg = Some row
      ∧ lc_lastLedgerSeq row + 1 ≤ latest
      ∧ outcome (pollCycle cfg w) = Returned tt
      ∧ db (final (pollCycle cfg w))
        = set_indexerLog (λ l, l ++ logs)
            (set_ledgerCursor
               <[network cfg := mkLedgerCursorRow (lc_id row) latest None]> (db w)).
Proof.
  unfold pollCycle. mrun. rewrite getLastCursor_run.
  unfold getLatestLedger.
  destruct (latestLedgerReplies w) as [|[e|latest] rest];
    [destruct (ledgerCursor (db w) !! network cfg); by left..|].
  set (start := match ledgerCursor (db w) !! network cfg with
                | Some row => lc_lastLedgerSeq row + 1 | None => 1 end).
  assert (Hfetch : ∀ s, db (final (fetchEventsWithRetry cfg s latest
                                     (set_latestLedgerReplies rest w))) = db w)
    by (intros s; by rewrite fetchEventsWithRetry_db).
  destruct (ledgerCursor (db w) !! network cfg) as [row|] eqn:Hrow;
    cbn [fmap option_fmap option_map LedgerTrackerService.toCursor lastLedgerSeq
         outcome final effects];
    (destruct (bool_decide (latest < _)) eqn:Hidle; [by left|]);
    apply bool_decide_eq_false in Hidle;
    match goal with
    | |- context [fetchEventsWithRetry cfg ?s latest ?w0] =>
        specialize (Hfetch s);
        destruct (fetchEventsWithRetry cfg s latest w0) as [[events|e] wf fxf]
    end; cbn [outcome final effects] in *; try (by left).
  - destruct events as [|event events].
    + rewrite (updateCursor_run cfg wf row) by (by rewrite Hfetch).
      right. exists row, latest, []. split_and!; [done|lia|done|].
      mrun. rewrite Hfetch. unfold set_indexerLog, set_ledgerCursor.
      cbn [ledgerCursor processedEvent user project contribution milestone
           indexerLog nextId]. by rewrite app_nil_r.
    + destruct (forEachEvent_inert (event :: events) 0 0 wf) as [Hout Hfin].
      destruct (forEachEvent _ _ _ _ _) as [o wl fxl]. cbn in Hout, Hfin. subst o wl.
      rewrite (updateCursor_run cfg wf row) by (by rewrite Hfetch).
      unfold LedgerTrackerService.logProgress. mrun.
      right. exists row, latest. eexists. split_and!; [done|lia|done|].
      rewrite Hfetch. reflexivity.
  - destruct events as [|event events].
    + rewrite (updateCursor_missing cfg wf) by (by rewrite Hfetch). by left.
    + destruct (forEachEvent_inert (event :: events) 0 0 wf) as [Hout Hfin].
      destruct (forEachEvent _ _ _ _ _) as [o wl fxl]. cbn in Hout, Hfin. subst o wl.
      rewrite (updateCursor_missing cfg wf) by (by rewrite Hfetch). by left.
Qed.

(** A cycle never raises, and ends with the flag released if it found
    it released. *)
Lemma pollEvents_returns (w : World) :
  outcome (pollEvents cfg w) = Returned tt
  ∧ (isRunning w = false → isRunning (final (pollEvents cfg w)) = false).
Proof.
  unfold pollEvents. mrun. destruct (isRunning w); [done|].
  destruct (pollCycle cfg _) as [[[]|e] wc fxc]; [done|].
  unfold LedgerTrackerService.logError. by mrun.
Qed.

(** What a whole cycle can do to the store. *)
Lemma pollEvents_db (w : World) :
  ∃ logs,
    db (final (pollEvents cfg w)) = set_indexerLog (λ l, l ++ logs) (db w)
    ∨ ∃ row latest,
        ledgerCursor (db w) !! network cfg = Some row
        ∧ lc_lastLedgerSeq row + 1 ≤ latest
        ∧ db (final (pollEvents cfg w))
          = set_indexerLog (λ l, l ++ logs)
              (set_ledgerCursor
                 <[network cfg := mkLedgerCursorRow (lc_id row) latest None]> (db w)).
Proof.
  assert (Hnil : ∀ d, set_indexerLog (λ l, l ++ []) d = d).
  { intros [].  unfold set_indexerLog. cbn. by rewrite app_nil_r. }
  unfold pollEvents. mrun. destruct (isRunning w).
  { exists []. left. by rewrite Hnil. }
  pose proof (pollCycle_db (set_isRunning true w)) as Hcycle.
  destruct (pollCycle cfg _) as [[[]|e] wc fxc]; cbn [outcome final effects] in *.
  - destruct Hcycle as [Hsame|(row & latest & logs & Hrow & Hle & _ & Hdb)].
    + exists []. left. mrun. by rewrite Hsame, Hnil.
    + exists logs. right. exists row, latest. mrun. by rewrite Hdb.
  - destruct Hcycle as [Hsame|(row & latest & logs & _ & _ & ? & _)]; [|done].
    unfold LedgerTrackerService.logError. mrun.
    eexists. left. rewrite Hsame. reflexivity.
Qed.

End everyCycle.

Section anyCollaborators.
Context (cfg : Config).
Context (ledgerTracker : LedgerTracker.t).
Context (eventHandler : ParsedContractEvent → M bool).

(** [pollEvents] when no cycle is running, in terms of the cycle and of
    the [catch] block. *)
Lemma Indexer_pollEvents_free (w : World) :
  isRunning w = false →
  let cycle := Indexer.pollCycle cfg ledgerTracker eventHandler (set_isRunning true w) in
  Indexer.pollEvents cfg ledgerTracker eventHandler w
  = match outcome cycle with
    | Returned _ =>
        mkRes (Returned tt) (set_isRunning false (final cycle)) (effects cycle)
    | Raised e0 =>
        mkRes (outcome (Indexer.cycleFailed ledgerTracker e0 (final cycle)))
          (set_isRunning false
             (final (Indexer.cycleFailed ledgerTracker e0 (final cycle))))
          (effects cycle
           ++ effects (Indexer.cycleFailed ledgerTracker e0 (final cycle)))
    end.
Proof.
  intros Hrun cycle. subst cycle. unfold Indexer.pollEvents. mrun. rewrite Hrun.
  destruct (Indexer.pollCycle cfg ledgerTracker eventHandler (set_isRunning true w))
    as [[[]|e0] wc fxc]; mrun; [done|].
  by destruct (Indexer.cycleFailed ledgerTracker e0 wc).
Qed.

Lemma Indexer_cycleFailed_outcome (e0 : Js.Error) (w : World) :
  outcome (Indexer.cycleFailed ledgerTracker e0 w)
  = outcome (LedgerTracker.logError ledgerTracker "Poll cycle failed"
               [ ("error", MetaString (Js.message e0)) ] w).
Proof.
  unfold Indexer.cycleFailed. rewrite run_bind.
  unfold logger, emit. cbn [outcome final effects].
  by destruct (LedgerTracker.logError _ _ _ _) as [[[]|?] ? ?].
Qed.

(** [pollEvents] raises only what [logError] raised on a failed cycle. *)
Lemma Indexer_pollEvents_raised (w : World) (e : Js.Error) :
  outcome (Indexer.pollEvents cfg ledgerTracker eventHandler w) = Raised e →
  let cycle := Indexer.pollCycle cfg ledgerTracker eventHandler (set_isRunning true w) in
  isRunning w = false
  ∧ ∃ e0, outcome cycle = Raised e0
      ∧ outcome (LedgerTracker.logError ledgerTracker "Poll cycle failed"
                   [ ("error", MetaString (Js.message e0)) ] (final cycle))
        = Raised e.
Proof.
  intros Hraised cycle. destruct (isRunning w) eqn:Hrun.
  { revert Hraised. unfold Indexer.pollEvents. mrun. by rewrite Hrun. }
  split; [done|]. rewrite (Indexer_pollEvents_free w Hrun) in Hraised.
  cbv zeta in Hraised. fold cycle in Hraised.
  destruct (outcome cycle) as [[]|e0]; [done|].
  exists e0. split; [done|]. by rewrite <- Indexer_cycleFailed_outcome.
Qed.

End anyCollaborators.

(** X7. Single flight, over any tracker and any handler service.
    Called while a cycle is running, [pollEvents] changes nothing, sends no
    request and only logs that it skips.  Called otherwise it ends with the
    running flag released, whether it returns or raises and whatever the
    node, the tracker and the handlers do.  A failed cycle is absorbed when
    its failure is logged: [pollEvents] raises only the error that
    [logError] raised when it was to log the failure of the cycle, so with
    a tracker whose [logError] returns it always returns.  [scheduledPoll]
    does nothing at all once the service is shutting down. *)
Theorem pollEvents_single_flight (cfg : Config) (ledgerTracker : LedgerTracker.t)
    (eventHandler : ParsedContractEvent → M bool) (w : World) :
  let r := Indexer.pollEvents cfg ledgerTracker eventHandler w in
  let cycle := Indexer.pollCycle cfg ledgerTracker eventHandler (set_isRunning true w) in
  (isRunning w = true →
     outcome r = Returned tt ∧ final r = w
     ∧ effects r = [Logged DEBUG "Skipping poll - previous poll still running"])
  ∧ (isRunning w = false → isRunning (final r) = false)
  ∧ (∀ e, outcome r = Raised e →
       isRunning w = false
       ∧ ∃ e0, outcome cycle = Raised e0
           ∧ outcome (LedgerTracker.logError ledgerTracker "Poll cycle failed"
                        [ ("error", MetaString (Js.message e0)) ] (final cycle))
             = Raised e)
  ∧ (logsErrors ledgerTracker → outcome r = Returned tt)
  ∧ (isShuttingDown w = true →
       Indexer.scheduledPoll cfg ledgerTracker eventHandler w = mkRes (Returned tt) w []).
Proof.
  intros r cycle. subst r. split_and!.
  - intros Hrun. unfold Indexer.pollEvents. mrun. by rewrite Hrun.
  - intros Hrun. rewrite (Indexer_pollEvents_free cfg ledgerTracker eventHandler w Hrun).
    cbv zeta. fold cycle. by destruct (outcome cycle).
  - intros e Hraised.
    apply (Indexer_pollEvents_raised cfg ledgerTracker eventHandler w e Hraised).
  - intros Hlog. destruct (isRunning w) eqn:Hrun.
    { unfold Indexer.pollEvents. mrun. by rewrite Hrun. }
    rewrite (Indexer_pollEvents_free cfg ledgerTracker eventHandler w Hrun).
    cbv zeta. fold cycle. destruct (outcome cycle) as [[]|e0]; [done|].
    cbn [outcome]. rewrite Indexer_cycleFailed_outcome. apply Hlog.
  - intros Hdown. unfold Indexer.scheduledPoll. mrun. by rewrite Hdown.
Qed.

(** A second call while a cycle runs, with the collaborators of this
    file, and a cycle whose failure the store refuses to log. *)
Lemma pollEvents_single_flight_witness :
  let busy := set_isRunning true Sample.threeEvents in
  let poll := Indexer.pollEvents Sample.cfg (ledgerTrackerService Sample.cfg)
                EventHandlerService.processEvent in
  final (poll busy) = busy
  ∧ fetchCalls (effects (poll busy)) = 0%nat
  ∧ outcome (poll Sample.threeEvents) = Returned tt
  ∧ isRunning (final (Indexer.pollEvents Sample.cfg Sample.logless Sample.failingHandler
                        Sample.threeEvents)) = false.
Proof.
  destruct (pollEvents_single_flight Sample.cfg (ledgerTrackerService Sample.cfg)
              EventHandlerService.processEvent (set_isRunning true Sample.threeEvents))
    as (Hbusy & _).
  destruct (Hbusy eq_refl) as (_ & Hfin & Hfx).
  destruct (pollEvents_single_flight Sample.cfg (ledgerTrackerService Sample.cfg)
              EventHandlerService.processEvent Sample.threeEvents)
    as (_ & _ & _ & Hreturns & _).
  destruct (pollEvents_single_flight Sample.cfg Sample.logless Sample.failingHandler
              Sample.threeEvents) as (_ & Hfree & _).
  split_and!; [exact Hfin| |exact (Hreturns (ledgerTrackerService_logsErrors Sample.cfg))
              |exact (Hfree eq_refl)].
  cbv zeta. rewrite Hfx. reflexivity.
Defined.

(** X8. The cursor only moves forward in a cycle.  [pollEvents] never
    creates or deletes a cursor row and never touches the cursor of another
    network; the row of its own network keeps its primary key, its ledger
    never decreases, and if the row changes it ends without a hash. *)
Theorem pollEvents_cursor_monotone (cfg : Config) (w : World) :
  let r := IndexerService.pollEvents cfg w in
  (∀ other, other ≠ network cfg →
     ledgerCursor (db (final r)) !! other = ledgerCursor (db w) !! other)
  ∧ match ledgerCursor (db w) !! network cfg with
    | None => ledgerCursor (db (final r)) !! network cfg = None
    | Some row =>
        ∃ row', ledgerCursor (db (final r)) !! network cfg = Some row'
          ∧ lc_id row' = lc_id row
          ∧ lc_lastLedgerSeq row ≤ lc_lastLedgerSeq row'
          ∧ (row' = row ∨ lc_lastLedgerHash row' = None)
    end.
Proof.
  intros r. subst r.
  destruct (pollEvents_db cfg w) as (logs & [->|(row & latest & Hrow & Hle & ->)]);
    cbn [ledgerCursor set_indexerLog set_ledgerCursor].
  - split; [done|]. destruct (ledgerCursor (db w) !! network cfg); eauto 10 with lia.
  - split; [intros other Hne; by rewrite lookup_insert_ne|].
    rewrite Hrow, lookup_insert_eq. eexists. split_and!; [done..| |by right].
    cbn. lia.
Qed.

(** X9. No fetch without a new ledger.  If the node rejects the
    latest-ledger request, or reports a ledger below the one the cycle
    would start from, [pollEvents] never enters [fetchEvents]; in the second
    case it leaves the store exactly as it was. *)
Theorem pollEvents_idle (cfg : Config) (w : World) :
  isRunning w = false →
  let r := IndexerService.pollEvents cfg w in
  ((latestLedgerReplies w = [] ∨ ∃ e rest, latestLedgerReplies w = inl e :: rest) →
     fetchCalls (effects r) = 0%nat
     ∧ ledgerCursor (db (final r)) = ledgerCursor (db w)
     ∧ ∃ row, indexerLog (db (final r)) = indexerLog (db w) ++ [row]
              ∧ l_level row = "error" ∧ l_message row = "Poll cycle failed")
  ∧ (∀ latest rest, latestLedgerReplies w = inr latest :: rest →
       latest < startOf cfg w →
       fetchCalls (effects r) = 0%nat ∧ db (final r) = db w
       ∧ getEventsReplies (final r) = getEventsReplies w).
Proof.
  intros Hrun r. subst r. unfold IndexerService.pollEvents, IndexerService.pollCycle.
  mrun. rewrite Hrun, getLastCursor_run. unfold IndexerService.getLatestLedger.
  cbn [outcome final effects latestLedgerReplies set_isRunning db].
  split.
  - unfold LedgerTrackerService.logError.
    intros [->|(e & rest & ->)]; mrun; (split_and!; [done..|]); eexists; done.
  - intros latest rest -> Hidle. unfold startOf in Hidle.
    destruct (ledgerCursor (db w) !! network cfg) as [row|];
      cbn [fmap option_fmap option_map LedgerTrackerService.toCursor lastLedgerSeq
           outcome final effects];
      rewrite bool_decide_eq_true_2 by done; by mrun.
Qed.

Lemma pollEvents_idle_witness :
  let caughtUp := mkWorld Sample.dbAt100 [inr 100] [] false false in
  fetchCalls (effects (IndexerService.pollEvents Sample.cfg caughtUp)) = 0%nat
  ∧ db (final (IndexerService.pollEvents Sample.cfg caughtUp)) = Sample.dbAt100
  ∧ fetchCalls (effects (IndexerService.pollEvents Sample.cfg Sample.at100)) = 0%nat.
Proof.
  destruct (pollEvents_idle Sample.cfg (mkWorld Sample.dbAt100 [inr 100] [] false false)
              eq_refl) as [_ Hidle].
  destruct (Hidle 100 [] eq_refl) as (Hcalls & Hdb & _); [vm_compute; reflexivity|].
  destruct (pollEvents_idle Sample.cfg Sample.at100 eq_refl) as [Hdown _].
  destruct Hdown as (Hcalls' & _); [by left|].
  split_and!; [exact Hcalls|exact Hdb|exact Hcalls'].
Defined.

(** X10. With the decoder as it is written, a cycle applies no event.
    For every world, [pollEvents] leaves the dedup rows and the User,
    Project, Contribution and Milestone tables exactly as they were and
    only appends to the log; its per-event loop reports no processed event
    and no error for any batch. *)
Theorem pollEvents_applies_nothing (cfg : Config) (w : World) :
  let d := db (final (IndexerService.pollEvents cfg w)) in
  processedEvent d = processedEvent (db w)
  ∧ user d = user (db w)
  ∧ project d = project (db w)
  ∧ contribution d = contribution (db w)
  ∧ milestone d = milestone (db w)
  ∧ nextId d = nextId (db w)
  ∧ (∃ logs, indexerLog d = indexerLog (db w) ++ logs)
  ∧ ∀ events,
      outcome (IndexerService.forEachEvent (IndexerService.processEvent cfg) events 0 0 w)
      = Returned (0%nat, 0%nat).
Proof.
  intros d. subst d.
  destruct (pollEvents_db cfg w) as (logs & [->|(row & latest & _ & _ & ->)]);
    (split_and!; [done..|by exists logs|]);
    intros events; apply forEachEvent_inert.
Qed.

(** ** No hash is ever stored; start-up *)

Section startup.
Context (cfg : Config).
Import LedgerTrackerService.

(** Detection on a store without a hash. *)
Lemma detectReorg_hashless (currentLedger : LedgerInfo) (w : World) :
  hashless cfg w →
  ∃ detected, outcome (detectReorg cfg currentLedger w) = Returned detected
              ∧ hasReorg detected = false.
Proof.
  intros Hw. unfold detectReorg.
  rewrite run_bind, getLastCursor_run. cbn [outcome final effects].
  destruct (ledgerCursor (db w) !! network cfg) as [row|] eqn:Hrow;
    cbn [fmap option_fmap option_map toCursor lastLedgerHash].
  - rewrite (Hw row Hrow). eexists. by mrun.
  - eexists. by mrun.
Qed.

(** [getStartLedger] leaves the world as it was, or returns with a new
    cursor row that has no hash. *)
Lemma getStartLedger_cursor (latestLedger : Z) (w : World) :
  let r := getStartLedger cfg latestLedger w in
  match ledgerCursor (db w) !! network cfg, configuredOr cfg latestLedger with
  | Some row, _ => outcome r = Returned (Js.Num (lc_lastLedgerSeq row + 1)) ∧ final r = w
  | None, None => (∃ e, outcome r = Raised e) ∧ final r = w
  | None, Some n =>
      (∃ start, outcome r = Returned start)
      ∧ ledgerCursor (db (final r)) !! network cfg
        = Some (mkLedgerCursorRow (nextId (db w)) (n - 1) None)
  end.
Proof.
  unfold configuredOr, getStartLedger. rewrite run_bind, getLastCursor_run.
  cbn [outcome final effects].
  destruct (ledgerCursor (db w) !! network cfg) as [row|] eqn:Hrow;
    cbn [fmap option_fmap option_map]; [by mrun|].
  destruct (Js.truthy_str (INDEXER_START_LEDGER cfg));
    [destruct (Js.StringToNumber _)|];
    unfold initializeCursor; mrun; rewrite ?Hrow; mrun;
    (split; [by eauto|]); first [apply lookup_insert_eq|done].
Qed.

End startup.

(** X11. No operation of the services stores a ledger hash.  From a
    store whose cursor has no hash (or that has no cursor), the worlds left
    by [pollEvents], [getStartLedger], [handleReorg] and [initializeCursor]
    again have no hash, and on each of them [detectReorg] reports no reorg
    for every remote ledger, including one behind the cursor. *)
Theorem no_hash_no_reorg (cfg : Config) (latestLedger startLedger : Z)
    (res : ReorgDetectionResult) (w : World) :
  hashless cfg w →
  ∀ w',
    w' ∈ [ final (IndexerService.pollEvents cfg w);
           final (LedgerTrackerService.getStartLedger cfg latestLedger w);
           final (LedgerTrackerService.handleReorg cfg res w);
           final (LedgerTrackerService.initializeCursor cfg startLedger w) ] →
    hashless cfg w'
    ∧ ∀ currentLedger, ∃ detected,
        outcome (LedgerTrackerService.detectReorg cfg currentLedger w') = Returned detected
        ∧ hasReorg detected = false.
Proof.
  intros Hw w' Hin.
  assert (hashless cfg w') as Hw'; [|split; [done|]; intros; by apply detectReorg_hashless].
  rewrite !elem_of_cons, elem_of_nil in Hin.
  destruct Hin as [->|[->|[->|[->|[]]]]]; intros row'.
  - destruct (pollEvents_db cfg w) as (logs & [->|(row & latest & Hrow & Hle & ->)]);
      cbn [ledgerCursor set_indexerLog set_ledgerCursor].
    + apply Hw.
    + rewrite lookup_insert_eq. by intros [= <-].
  - pose proof (getStartLedger_cursor cfg latestLedger w) as Hcase. cbv zeta in Hcase.
    destruct (ledgerCursor (db w) !! network cfg) as [row|] eqn:Hrow;
      [|destruct (configuredOr cfg latestLedger)].
    + destruct Hcase as [_ ->]. apply Hw.
    + destruct Hcase as [_ ->]. by intros [= <-].
    + destruct Hcase as [_ ->]. apply Hw.
  - destruct (hasReorg res) eqn:Hre.
    + destruct (ledgerCursor (db w) !! network cfg) as [row|] eqn:Hrow.
      * destruct (handleReorg_run cfg res row w Hre Hrow) as [_ ->]. mrun.
        rewrite lookup_insert_eq. by intros [= <-].
      * unfold LedgerTrackerService.handleReorg, LedgerTrackerService.updateCursor.
        rewrite Hre. mrun. rewrite Hrow. mrun. by rewrite Hrow.
    + unfold LedgerTrackerService.handleReorg. rewrite Hre. apply Hw.
  - unfold LedgerTrackerService.initializeCursor. mrun.
    destruct (ledgerCursor (db w) !! network cfg); mrun;
      rewrite lookup_insert_eq; by intros [= <-].
Qed.

(** After the cycle on the empty range the cursor is at ledger 80; a
    remote report of ledger 60 is not classified as a reorg. *)
Lemma no_hash_no_reorg_witness :
  ∃ detected,
    outcome (LedgerTrackerService.detectReorg Sample.cfg (Sample.remote 60 "H60")
               (final (IndexerService.pollEvents Sample.cfg Sample.emptyRange)))
      = Returned detected
    ∧ hasReorg detected = false.
Proof.
  assert (hashless Sample.cfg Sample.emptyRange) as Hw.
  { intros row Hrow. vm_compute in Hrow. by injection Hrow as <-. }
  destruct (no_hash_no_reorg Sample.cfg 0 0 (mkReorgDetectionResult false 0 0 0)
              Sample.emptyRange Hw
              (final (IndexerService.pollEvents Sample.cfg Sample.emptyRange)))
    as [_ Hdetect]; [by left|].
  apply Hdetect.
Defined.

(** X12. When start-up is fatal, over any tracker and any handler
    service.  [initializeIndexer] raises exactly the first error among the
    health check, the latest-ledger request, the tracker's
    [getStartLedger] and the first [pollEvents], and that last one raises
    only what [logError] raised on a cycle that had failed: a node that
    cannot be reached is fatal, and so is a store that rejects the cursor of
    the start or the log of a failed cycle.  Nothing is written before the
    node has answered twice.  With the tracker and the handlers of this
    file, whenever start-up returns the network has a cursor row: the row
    it had, not moved backwards, or a new one at or after the ledger before
    the start that [getStartLedger] chose. *)
Theorem initializeIndexer_fatal_or_cursor (cfg : Config) (ledgerTracker : LedgerTracker.t)
    (eventHandler : ParsedContractEvent → M bool) (health : Js.Error + string)
    (w : World) :
  let r := Indexer.initializeIndexer cfg ledgerTracker eventHandler health w in
  let ledger := IndexerService.getLatestLedger w in
  match health, outcome ledger with
  | inl e, _ => outcome r = Raised e ∧ final r = w
  | inr _, Raised e => outcome r = Raised e ∧ db (final r) = db w
  | inr _, Returned latest =>
      let start := LedgerTracker.getStartLedger ledgerTracker latest (final ledger) in
      match outcome start with
      | Raised e => outcome r = Raised e ∧ final r = final start
      | Returned _ =>
          let poll := Indexer.pollEvents cfg ledgerTracker eventHandler (final start) in
          outcome r = outcome poll ∧ final r = final poll
          ∧ ∀ e, outcome poll = Raised e →
              let cycle := Indexer.pollCycle cfg ledgerTracker eventHandler
                             (set_isRunning true (final start)) in
              ∃ e0, outcome cycle = Raised e0
                ∧ outcome (LedgerTracker.logError ledgerTracker "Poll cycle failed"
                             [ ("error", MetaString (Js.message e0)) ] (final cycle))
                  = Raised e
      end
  end
  ∧ (let r0 := IndexerStartup.initializeIndexer cfg health w in
     outcome r0 = Returned tt →
     ∃ latest row',
       outcome ledger = Returned latest
       ∧ ledgerCursor (db (final r0)) !! network cfg = Some row'
       ∧ match ledgerCursor (db w) !! network cfg with
         | Some row => lc_id row' = lc_id row ∧ lc_lastLedgerSeq row ≤ lc_lastLedgerSeq row'
         | None => ∃ n, configuredOr cfg latest = Some n ∧ n - 1 ≤ lc_lastLedgerSeq row'
         end).
Proof.
  intros r ledger. subst r. split.
  - subst ledger. unfold Indexer.initializeIndexer, lift.
    destruct health as [e|status]; [by mrun|].
    assert (db (final (IndexerService.getLatestLedger w)) = db w) as Hledger.
    { unfold IndexerService.getLatestLedger.
      by destruct (latestLedgerReplies w) as [|[?|?] ?]. }
    mrun.
    destruct (IndexerService.getLatestLedger w) as [[latest|e] wl fxl];
      cbn [outcome final effects] in *; [|done].
    destruct (LedgerTracker.getStartLedger ledgerTracker latest wl) as [[start|e] ws fxs];
      cbn [outcome final effects]; [|done].
    pose proof (λ e, Indexer_pollEvents_raised cfg ledgerTracker eventHandler ws e)
      as Hraised.
    cbv zeta in Hraised.
    destruct (Indexer.pollEvents cfg ledgerTracker eventHandler ws) as [[[]|e] wp fxp];
      cbn [outcome final effects] in *.
    + split_and!; [done..|]. by intros e [=].
    + split_and!; [done..|]. intros e' [= <-].
      by destruct (Hraised e eq_refl) as [_ He].
  - cbv zeta. unfold IndexerStartup.initializeIndexer, Indexer.initializeIndexer, lift.
    cbn [ledgerTrackerService LedgerTracker.getStartLedger].
    destruct health as [e|status]; [by mrun|].
    subst ledger. unfold IndexerService.getLatestLedger. mrun.
    destruct (latestLedgerReplies w) as [|[e|latest] rest] eqn:Hreplies;
      mrun; [done..|].
    pose proof (getStartLedger_cursor cfg latest (set_latestLedgerReplies rest w)) as Hstart.
    cbv zeta in Hstart. cbn [db set_latestLedgerReplies] in Hstart.
    destruct (LedgerTrackerService.getStartLedger cfg latest _) as [[start|e] wg fxg];
      cbn [outcome final effects] in *; [|by mrun].
    pose proof (pollEvents_db cfg wg) as (logs & Hdb).
    change (Indexer.pollEvents cfg (ledgerTrackerService cfg)
              EventHandlerService.processEvent)
      with (IndexerService.pollEvents cfg).
    destruct (IndexerService.pollEvents cfg wg) as [[[]|e] wp fxp];
      cbn [outcome final effects] in *; [|by mrun].
    intros _. exists latest.
    assert (∀ row1, ledgerCursor (db wg) !! network cfg = Some row1 →
              ∃ row', ledgerCursor (db wp) !! network cfg = Some row'
                      ∧ lc_id row' = lc_id row1
                      ∧ lc_lastLedgerSeq row1 ≤ lc_lastLedgerSeq row') as Hpoll.
    { intros row1 Hrow1.
      destruct Hdb as [->|(row & latest' & Hrow & Hle & ->)];
        cbn [ledgerCursor set_indexerLog set_ledgerCursor].
      - exists row1. by rewrite Hrow1.
      - rewrite lookup_insert_eq. rewrite Hrow1 in Hrow. injection Hrow as <-.
        eexists. split_and!; [done..|]. cbn. lia. }
    destruct (ledgerCursor (db w) !! network cfg) as [row|] eqn:Hrow.
    + destruct Hstart as [_ ->]. cbn [db set_latestLedgerReplies] in Hpoll.
      destruct (Hpoll row Hrow) as (row' & ? & ? & ?). by exists row'.
    + destruct (configuredOr cfg latest) as [n|]; [|by destruct Hstart as [[? [=]] _]].
      destruct Hstart as [_ Hrow1].
      destruct (Hpoll _ Hrow1) as (row' & ? & ? & Hseq). cbn in Hseq.
      exists row'. split_and!; [done..|]. by exists n.
Qed.

(** A fresh store and a node that reports ledger 500 and then 503: the
    cursor ends at 503; it was never at a ledger before 499.  A node that
    is down is fatal. *)
Lemma initializeIndexer_fatal_or_cursor_witness :
  (∃ row', ledgerCursor (db (final (IndexerStartup.initializeIndexer Sample.cfg
                                      (inr "healthy") (Scenario.startingNode emptyDb))))
             !! "testnet" = Some row'
           ∧ 499 ≤ lc_lastLedgerSeq row')
  ∧ outcome (Indexer.initializeIndexer Sample.cfg Sample.logless Sample.failingHandler
               (inl (Js.RpcFailure "down")) (Scenario.startingNode emptyDb))
    = Raised (Js.RpcFailure "down").
Proof.
  pose proof (initializeIndexer_fatal_or_cursor Sample.cfg (ledgerTrackerService Sample.cfg)
                EventHandlerService.processEvent (inr "healthy")
                (Scenario.startingNode emptyDb)) as [_ Hcursor].
  pose proof (initializeIndexer_fatal_or_cursor Sample.cfg Sample.logless
                Sample.failingHandler (inl (Js.RpcFailure "down"))
                (Scenario.startingNode emptyDb)) as [[Hdown _] _].
  split; [|exact Hdown].
  destruct (Hcursor eq_refl) as (latest & row' & Hlatest & Hrow' & n & Hn & Hle).
  exists row'. split; [exact Hrow'|].
  vm_compute in Hlatest. injection Hlatest as <-.
  vm_compute in Hn. injection Hn as <-. exact Hle.
Defined.

(** ** The fetcher: pagination, truncation, filters *)

Section pages.
Context (cfg : Config).
Import IndexerService.

Lemma requests_cons_GetEvents (request : GetEventsRequest) (fx : list Effect) :
  requests (GetEvents request :: fx) = request :: requests fx.
Proof. reflexivity. Qed.

(** The page loop, from any accumulator and token. *)
Lemma fetchPages_spec (startLedger : Z) (replies : list (Js.Error + GetEventsResponse)) :
  ∀ (events : list SorobanEvent) (cursor : option string),
    let res := fetchPages cfg startLedger replies events cursor in
    let reqs := requests res.2 in
    let n := length reqs in
    (1 ≤ n ≤ S (length replies))%nat
    ∧ res.1.2 = drop n replies
    ∧ (∀ i req, reqs !! i = Some req →
         req_startLedger req = startLedger
         ∧ req_filters req = filters cfg
         ∧ req_limit req = maxEventsPerFetch cfg
         ∧ req_cursor req = match i with
                            | O => cursor
                            | S j => replies !! j ≫= replyCursor
                            end
         ∧ (i ≠ 0%nat → Js.truthy_str (req_cursor req) = true))
    ∧ (∀ k, (0 < k < n)%nat →
         Z.of_nat (length (events ++ flat_map pageEvents (take k replies)))
         < maxEventsPerFetch cfg * 5)
    ∧ match res.1.1 with
      | Returned evs =>
          evs = events ++ flat_map pageEvents (take n replies)
          ∧ ∃ last, replies !! (n - 1)%nat = Some (inr last)
              ∧ (Js.truthy_str (resp_cursor last) = false
                 ∨ maxEventsPerFetch cfg * 5 ≤ Z.of_nat (length evs))
      | Raised err =>
          replies !! (n - 1)%nat = Some (inl err)
          ∨ (n = S (length replies) ∧ err = Js.RpcFailure "no response")
      end.
Proof.
  induction replies as [|[e|response] rest IH]; intros events cursor.
  - cbn. split_and!;
      [lia|lia|done|intros [|i] req; [by intros [= <-]|done]|intros k ?; lia|by right].
  - cbn. split_and!;
      [lia|lia|done|intros [|i] req; [by intros [= <-]|done]|intros k ?; lia|by left].
  - cbn [fetchPages].
    set (events' := events ++ map transformRpcEvent (default [] (resp_events response))).
    assert (Hone : events ++ flat_map pageEvents (take 1 (inr response :: rest)) = events').
    { cbn. by rewrite take_0, app_nil_r. }
    destruct (bool_decide (maxEventsPerFetch cfg * 5 ≤ Z.of_nat (length events')))
      eqn:Hcap.
    { apply bool_decide_eq_true in Hcap. cbv zeta. cbn [fst snd requests omap list_omap length].
      rewrite Hone.
      split_and!;
        [lia|cbn; lia|done|intros [|i] req; [by intros [= <-]|done]|intros k ?; lia
        |done|].
      exists response. split; [done|]. by right. }
    apply bool_decide_eq_false in Hcap.
    destruct (Js.truthy_str (resp_cursor response)) eqn:Hmore.
    2:{ cbv zeta. cbn [fst snd requests omap list_omap length]. rewrite Hone.
        split_and!;
          [lia|cbn; lia|done|intros [|i] req; [by intros [= <-]|done]|intros k ?; lia
          |done|].
        exists response. split; [done|]. by left. }
    specialize (IH events' (resp_cursor response)).
    destruct (fetchPages cfg startLedger rest events' (resp_cursor response))
      as [[o rest'] fx].
    cbn [fst snd] in *. rewrite requests_cons_GetEvents. cbn [length].
    destruct IH as (Hn & Hrest & Hreq & Hbelow & Hout).
    split_and!.
    + lia.
    + cbn [length]. lia.
    + done.
    + intros [|i] req.
      * by intros [= <-].
      * intros Hi. cbn in Hi. destruct (Hreq i req Hi) as (? & ? & ? & Hc & Htruthy).
        split_and!; try done.
        -- rewrite Hc. by destruct i.
        -- intros _. destruct i as [|i]; [by rewrite Hc|]. by apply Htruthy.
    + intros [|[|k]] Hk; [lia| |].
      * rewrite Hone. lia.
      * cbn [take flat_map pageEvents]. rewrite app_assoc. fold events'.
        apply (Hbelow (S k)). lia.
    + destruct o as [evs|err].
      * destruct Hout as (-> & last & Hlast & Hwhy).
        split; [cbn [take flat_map pageEvents]; by rewrite app_assoc|].
        exists last. split; [|done].
        replace (S (length (requests fx)) - 1)%nat
          with (S (length (requests fx) - 1)) by lia. done.
      * destruct Hout as [Herr|[Hlen ->]].
        -- left. replace (S (length (requests fx)) - 1)%nat
             with (S (length (requests fx) - 1)) by lia. done.
        -- right. split; [|done]. cbn [length]. lia.
Qed.

End pages.

(** X13. Pagination.  [fetchEvents] sends at least one request; every
    request carries the start ledger, the configured filters and the page
    size; the first has no token and each later one carries the non-empty
    token of the reply before it.  It consumes exactly the replies to its
    requests and changes nothing else in the world.  If it returns, the
    events are those of the consumed pages, in order; if it raises, the
    error is the rejection it received (or the node had no reply left).
    The end of the range is not used: every [endLedger] gives the same
    result. *)
Theorem fetchEvents_pagination (cfg : Config) (startLedger endLedger : Z) (w : World) :
  let r := IndexerService.fetchEvents cfg startLedger endLedger w in
  let reqs := requests (effects r) in
  let replies := getEventsReplies w in
  (1 ≤ length reqs ≤ S (length replies))%nat
  ∧ final r = set_getEventsReplies (drop (length reqs) replies) w
  ∧ (∀ i req, reqs !! i = Some req →
       req_startLedger req = startLedger
       ∧ req_filters req = IndexerService.filters cfg
       ∧ req_limit req = maxEventsPerFetch cfg
       ∧ req_cursor req = match i with
                          | O => None
                          | S j => replies !! j ≫= replyCursor
                          end
       ∧ (i ≠ 0%nat → Js.truthy_str (req_cursor req) = true))
  ∧ match outcome r with
    | Returned events => events = flat_map pageEvents (take (length reqs) replies)
    | Raised err =>
        replies !! (length reqs - 1)%nat = Some (inl err)
        ∨ (length reqs = S (length replies) ∧ err = Js.RpcFailure "no response")
    end
  ∧ ∀ endLedger',
      outcome (IndexerService.fetchEvents cfg startLedger endLedger' w) = outcome r
      ∧ final (IndexerService.fetchEvents cfg startLedger endLedger' w) = final r.
Proof.
  intros r reqs replies. subst r reqs replies. unfold IndexerService.fetchEvents.
  pose proof (fetchPages_spec cfg startLedger (getEventsReplies w) [] None) as Hspec.
  destruct (IndexerService.fetchPages cfg startLedger (getEventsReplies w) [] None)
    as [[o rest] fx].
  cbn [fst snd outcome final effects] in *.
  change (requests (FetchEvents startLedger endLedger :: fx)) with (requests fx).
  destruct Hspec as (Hn & -> & Hreq & _ & Hout).
  split_and!; try done; try lia.
  destruct o as [evs|err]; [by destruct Hout as [-> _]|exact Hout].
Qed.

(** Three pages: four events, three requests, the fourth reply is left
    for later. *)
Lemma fetchEvents_pagination_witness :
  let r := IndexerService.fetchEvents Sample.cfg 101 130 Scenario.threePages in
  ev_id <$> default [] (match outcome r with Returned evs => Some evs | _ => None end)
    = ["a"; "b"; "c"; "d"]
  ∧ req_cursor <$> requests (effects r) = [None; Some "t1"; Some "t2"]
  ∧ length (getEventsReplies (final r)) = 1%nat.
Proof.
  destruct (fetchEvents_pagination Sample.cfg 101 130 Scenario.threePages)
    as (_ & Hfinal & _ & Hout & _).
  split_and!.
  - destruct (outcome _) as [evs|err] eqn:Hr; [|by vm_compute in Hr].
    rewrite Hout. reflexivity.
  - reflexivity.
  - rewrite Hfinal. reflexivity.
Defined.

(** X14. Truncation.  [fetchEvents] asks for a further page only while
    the events gathered so far number fewer than five times the page size.
    When it returns, either the last reply carried no token or that cap was
    reached; and if no reply holds more events than the page size, it
    returns at most six times the page size. *)
Theorem fetchEvents_truncation (cfg : Config) (startLedger endLedger : Z) (w : World) :
  let r := IndexerService.fetchEvents cfg startLedger endLedger w in
  let n := length (requests (effects r)) in
  let replies := getEventsReplies w in
  (∀ k, (0 < k < n)%nat →
     Z.of_nat (length (flat_map pageEvents (take k replies))) < maxEventsPerFetch cfg * 5)
  ∧ ∀ events, outcome r = Returned events →
      (∃ last, replies !! (n - 1)%nat = Some (inr last)
         ∧ (Js.truthy_str (resp_cursor last) = false
            ∨ maxEventsPerFetch cfg * 5 ≤ Z.of_nat (length events)))
      ∧ ((∀ reply, reply ∈ replies →
            Z.of_nat (length (pageEvents reply)) ≤ maxEventsPerFetch cfg) →
         Z.of_nat (length events) ≤ maxEventsPerFetch cfg * 6).
Proof.
  intros r n replies. subst r n replies. unfold IndexerService.fetchEvents.
  pose proof (fetchPages_spec cfg startLedger (getEventsReplies w) [] None) as Hspec.
  destruct (IndexerService.fetchPages cfg startLedger (getEventsReplies w) [] None)
    as [[o rest] fx].
  cbn [fst snd outcome final effects] in *.
  change (requests (FetchEvents startLedger endLedger :: fx)) with (requests fx).
  destruct Hspec as (Hn & _ & _ & Hbelow & Hout).
  split; [exact Hbelow|].
  intros events ->. destruct Hout as (-> & last & Hlast & Hwhy).
  split; [by exists last|].
  intros Hpages. cbn [app] in *.
  set (n := length (requests fx)) in *.
  assert (Hlastpage : Z.of_nat (length (pageEvents (inr last))) ≤ maxEventsPerFetch cfg).
  { apply Hpages. by eapply list_elem_of_lookup_2. }
  assert (Hsplit : take n (getEventsReplies w)
                   = take (n - 1) (getEventsReplies w) ++ [inr last]).
  { replace n with (S (n - 1)) at 1 by lia. by apply take_S_r. }
  rewrite Hsplit, flat_map_app, length_app. cbn [flat_map]. rewrite app_nil_r.
  destruct (decide (n = 1%nat)) as [Hone|Hmore].
  - replace (n - 1)%nat with 0%nat by lia. rewrite take_0. cbn [flat_map length]. lia.
  - specialize (Hbelow (n - 1)%nat). lia.
Qed.

(** With a page size of 1 and a node that always offers a further page,
    the fetch stops after five pages. *)
Lemma fetchEvents_truncation_witness :
  let r := IndexerService.fetchEvents Scenario.cfgSmallPages 101 130 Scenario.endlessPages in
  ∃ events, outcome r = Returned events ∧ Z.of_nat (length events) ≤ 6
            ∧ length (requests (effects r)) = 5%nat.
Proof.
  destruct (fetchEvents_truncation Scenario.cfgSmallPages 101 130 Scenario.endlessPages)
    as [_ Hret].
  eexists. split; [reflexivity|]. split; [|reflexivity].
  eapply Hret; [reflexivity|].
  intros reply Hin. vm_compute in Hin.
  repeat (apply elem_of_cons in Hin as [->|Hin]; [vm_compute; discriminate|]).
  by apply elem_of_nil in Hin.
Defined.

(** X15. Filters.  [getContractIds] keeps the configured contract ids
    that are non-empty, in the order of its six keys.  [fetchEvents] then
    filters with one filter per such id, naming exactly that id, and with
    the single unrestricted contract filter when there is none; the list of
    filters is never empty and every filter is a contract filter. *)
Theorem filters_of_contracts (cfg : Config) (env : ContractEnv) :
  contractIds cfg = getContractIds env →
  contractIds cfg
    = omap (λ v, if Js.truthy_str v then v else None) (contractKeys env)
  ∧ (∀ c, c ∈ contractIds cfg → c ≠ "" ∧ Some c ∈ contractKeys env)
  ∧ (length (contractIds cfg) ≤ 6)%nat
  ∧ IndexerService.filters cfg
    = match contractIds cfg with
      | [] => [ mkEventFilter "contract" None ]
      | _ => (λ c, mkEventFilter "contract" (Some [c])) <$> contractIds cfg
      end
  ∧ length (IndexerService.filters cfg) = (1 `max` length (contractIds cfg))%nat
  ∧ ∀ f, f ∈ IndexerService.filters cfg → f_type f = "contract".
Proof.
  intros Hids.
  assert (Hpush : ∀ v l, pushIfSet v l
                         = l ++ omap (λ v, if Js.truthy_str v then v else None) [v]).
  { intros [[|a s]|] l; cbn; by rewrite ?app_nil_r. }
  assert (Hmap : contractIds cfg
                 = omap (λ v, if Js.truthy_str v then v else None) (contractKeys env)).
  { rewrite Hids. unfold getContractIds, contractKeys.
    rewrite !Hpush. cbn [app].
    change [PROJECT_LAUNCH_CONTRACT_ID env; ESCROW_CONTRACT_ID env;
            PROFIT_DISTRIBUTION_CONTRACT_ID env; SUBSCRIPTION_POOL_CONTRACT_ID env;
            GOVERNANCE_CONTRACT_ID env; REPUTATION_CONTRACT_ID env]
      with ([PROJECT_LAUNCH_CONTRACT_ID env] ++ [ESCROW_CONTRACT_ID env]
            ++ [PROFIT_DISTRIBUTION_CONTRACT_ID env] ++ [SUBSCRIPTION_POOL_CONTRACT_ID env]
            ++ [GOVERNANCE_CONTRACT_ID env] ++ [REPUTATION_CONTRACT_ID env]).
    rewrite !omap_app, !app_assoc. done. }
  split_and!.
  - done.
  - intros c Hc. rewrite Hmap in Hc. apply list_elem_of_omap in Hc as (v & Hv & Hsome).
    destruct v as [[|a s]|]; cbn in Hsome; try done. injection Hsome as <-. done.
  - rewrite Hmap.
    assert (Hlen : ∀ l : list (option string),
              (length (omap (λ v, if Js.truthy_str v then v else None) l) ≤ length l)%nat).
    { induction l as [|v l IH]; [done|]. cbn.
      destruct (if Js.truthy_str v then v else None); cbn; lia. }
    etransitivity; [apply Hlen|]. done.
  - unfold IndexerService.filters. by destruct (contractIds cfg).
  - unfold IndexerService.filters. destruct (contractIds cfg); [done|].
    rewrite length_map. cbn [length]. lia.
  - intros f. unfold IndexerService.filters. destruct (contractIds cfg) as [|c l].
    + intros ->%list_elem_of_singleton. done.
    + intros (c' & -> & _)%list_elem_of_fmap. done.
Qed.

Lemma filters_of_contracts_witness :
  let cfg := mkConfig "testnet" 5 None 100 3 1000 (getContractIds Scenario.twoContracts) in
  contractIds cfg = ["CLAUNCH"; "CGOV"]
  ∧ IndexerService.filters cfg
    = [ mkEventFilter "contract" (Some ["CLAUNCH"]);
        mkEventFilter "contract" (Some ["CGOV"]) ].
Proof.
  destruct (filters_of_contracts
              (mkConfig "testnet" 5 None 100 3 1000 (getContractIds Scenario.twoContracts))
              Scenario.twoContracts eq_refl) as (Hids & _ & _ & Hf & _).
  split.
  - rewrite Hids. reflexivity.
  - rewrite Hf. reflexivity.
Defined.

(** ** Decoder and registry *)

(** X16. Event tags and [parseEventType] are inverse to each other:
    every declared event type is recognised from its tag, a recognised
    symbol is the tag of the type returned, and no two event types share a
    tag. *)
Theorem parseEventType_round_trip :
  (∀ t, IndexerService.parseEventType (tag t) = Some t)
  ∧ (∀ s t, IndexerService.parseEventType s = Some t → tag t = s)
  ∧ (∀ t1 t2, tag t1 = tag t2 → t1 = t2)
  ∧ (∀ t, t ∈ ContractEventType_values)
  ∧ IndexerService.parseEventType "" = None.
Proof.
  split_and!.
  - apply parseEventType_tag.
  - intros s t. apply parseEventType_Some.
  - intros t1 t2 Heq.
    pose proof (parseEventType_tag t1) as H1. rewrite Heq, parseEventType_tag in H1.
    by injection H1.
  - intros t. pose proof (parseEventType_tag t) as Ht.
    unfold IndexerService.parseEventType in Ht.
    destruct (find _ _) as [t'|] eqn:Hfind; [|done].
    apply find_some in Hfind as [Hin Htag]. apply bool_decide_eq_true in Htag.
    apply list_elem_of_In.
    destruct (Js.truthy_string (tag t')); [|done]. by injection Ht as <-.
  - reflexivity.
Qed.

Section registry.
Import EventHandlerService.

(** Which handler each tag finds. *)
Lemma getHandler_cases (s : string) (handler : IEventHandler) :
  getHandler s = Some handler →
  tag (h_eventType handler) = s
  ∧ h_eventType handler ∈ handledTypes
  ∧ handler ∈ [ ProjectCreatedHandler.handler; ContributionMadeHandler.handler;
                MilestoneApprovedHandler.handler; FundsReleasedHandler.handler;
                ProjectCompletedHandler.handler; ProjectFailedHandler.handler ].
Proof.
  unfold getHandler, handlers, register.
  repeat (rewrite lookup_insert; case_decide; [intros [= <-]|]);
    [..|by rewrite lookup_empty];
    (split; [done|]); split; unfold handledTypes; cbn; set_solver.
Qed.

(** The four ways a dispatch can end. *)
Lemma processEvent_cases (event : ParsedContractEvent) (w : World) :
  processEvent event w
  = match getHandler (tag (eventType event)) with
    | None =>
        mkRes (Returned false) w
          [Logged DEBUG ("No handler registered for event type: " +:+ tag (eventType event))]
    | Some handler =>
        if validate handler event then
          match outcome (handle handler event w) with
          | Returned _ =>
              mkRes (Returned true) (final (handle handler event w))
                    (effects (handle handler event w))
          | Raised e =>
              mkRes (Raised e) (final (handle handler event w))
                    (effects (handle handler event w)
                     ++ [Logged ERROR ("Error processing event " +:+ tag (eventType event)
                                       +:+ ": " +:+ Js.message e)])
          end
        else
          mkRes (Returned false) w
            [Logged WARN ("Event validation failed for " +:+ tag (eventType event))]
    end.
Proof.
  unfold processEvent.
  destruct (getHandler _) as [handler|]; [|done]. mrun.
  destruct (validate handler event); [|done]. mrun.
  destruct (handle handler event w) as [[[]|e] w' fx]; mrun; by rewrite ?app_nil_r.
Qed.

End registry.

(** X17. Dispatch.  The registry holds a handler for exactly six event
    types, each found under the tag of its own type.
    [EventHandlerService.processEvent] returns [true] exactly when the
    handler of the event's type accepted the event and handled it without
    raising; it raises exactly when that handler raised, with the same
    error and with whatever the handler had written still in place; and
    when it returns [false] the world is unchanged. *)
Theorem processEvent_dispatch (event : ParsedContractEvent) (w : World) :
  let r := EventHandlerService.processEvent event w in
  (∀ s, EventHandlerService.isSupported s = true ↔ s ∈ tag <$> handledTypes)
  ∧ (∀ s handler, EventHandlerService.getHandler s = Some handler →
       tag (h_eventType handler) = s)
  ∧ (outcome r = Returned true
     ↔ ∃ handler,
         EventHandlerService.getHandler (tag (eventType event)) = Some handler
         ∧ validate handler event = true
         ∧ outcome (handle handler event w) = Returned tt)
  ∧ (∀ e, outcome r = Raised e
          ↔ ∃ handler,
              EventHandlerService.getHandler (tag (eventType event)) = Some handler
              ∧ validate handler event = true
              ∧ outcome (handle handler event w) = Raised e)
  ∧ (outcome r = Returned false → final r = w)
  ∧ (∀ handler,
       EventHandlerService.getHandler (tag (eventType event)) = Some handler →
       validate handler event = true →
       final r = final (handle handler event w)).
Proof.
  intros r. subst r. split_and!.
  - intros s. unfold EventHandlerService.isSupported.
    rewrite bool_decide_eq_true. split.
    + intros [handler Hh]. destruct (getHandler_cases s handler Hh) as (<- & Hin & _).
      by apply list_elem_of_fmap_2.
    + intros (t & -> & Hin)%list_elem_of_fmap. unfold handledTypes in Hin.
      rewrite !elem_of_cons, elem_of_nil in Hin.
      destruct Hin as [->|[->|[->|[->|[->|[->|[]]]]]]]; by eexists.
  - intros s handler Hh. by destruct (getHandler_cases s handler Hh).
  - rewrite processEvent_cases.
    destruct (EventHandlerService.getHandler _) as [handler|]; [|split; [done|]].
    + destruct (validate handler event) eqn:Hv.
      * destruct (outcome (handle handler event w)) as [[]|e] eqn:Hh; cbn.
        -- split; [eauto|done].
        -- split; [done|]. intros (h & [= <-] & _ & ?). congruence.
      * split; [done|]. intros (h & [= <-] & ? & _). congruence.
    + by intros (h & ? & _).
  - intros e. rewrite processEvent_cases.
    destruct (EventHandlerService.getHandler _) as [handler|]; [|split; [done|]].
    + destruct (validate handler event) eqn:Hv.
      * destruct (outcome (handle handler event w)) as [[]|e'] eqn:Hh; cbn.
        -- split; [done|]. intros (h & [= <-] & _ & ?). congruence.
        -- split; [intros [= ->]; eauto|].
           intros (h & [= <-] & _ & ?). congruence.
      * split; [done|]. intros (h & [= <-] & ? & _). congruence.
    + by intros (h & ? & _).
  - rewrite processEvent_cases.
    destruct (EventHandlerService.getHandler _) as [handler|]; [|done].
    destruct (validate handler event); [|done].
    by destruct (outcome (handle handler event w)) as [[]|e'].
  - intros handler Hh Hv. rewrite processEvent_cases, Hh, Hv.
    by destruct (outcome (handle handler event w)) as [[]|e'].
Qed.

(** The contribution without a running total: the handler raises and
    the error and its writes reach the caller. *)
Lemma processEvent_dispatch_witness :
  let r := EventHandlerService.processEvent Sample.contributionNoTotal Sample.withProject in
  outcome r = Raised (Js.TypeError "Cannot convert undefined to a BigInt")
  ∧ final r = final (ContributionMadeHandler.handle Sample.contributionNoTotal
                       Sample.withProject).
Proof.
  destruct (processEvent_dispatch Sample.contributionNoTotal Sample.withProject)
    as (_ & _ & _ & Hraise & _ & Hfinal).
  split.
  - apply Hraise. exists ContributionMadeHandler.handler.
    split_and!; reflexivity.
  - apply (Hfinal ContributionMadeHandler.handler); reflexivity.
Defined.

(** ** Handlers: what re-applying an event does *)

(** X18. Creating a project is idempotent.  If [ProjectCreatedHandler]
    handles an event, handling the same event again returns and leaves the
    world exactly as the first time left it.  The project is then stored
    under its id as active, with the goal and title of the event; a project
    that already existed keeps its primary key, creator, category and
    funds, and a new one belongs to the event's creator, who is created
    with reputation 0 if unknown. *)
Theorem ProjectCreated_idempotent (event : ParsedContractEvent) (w : World) :
  let once := ProjectCreatedHandler.handle event w in
  outcome once = Returned tt →
  outcome (ProjectCreatedHandler.handle event (final once)) = Returned tt
  ∧ final (ProjectCreatedHandler.handle event (final once)) = final once
  ∧ ∃ n c u p,
      projectId (data event) = Some n ∧ creator (data event) = Some c
      ∧ user (db (final once)) !! c = Some u
      ∧ project (db (final once)) !! Js.toString n = Some p
      ∧ p_status p = "ACTIVE"
      ∧ p_title p = "Project " +:+ Js.toString n
      ∧ Js.BigInt (fundingGoal (data event)) = inr (p_goal p)
      ∧ match user (db w) !! c with
        | Some known => u = known
        | None => u = mkUserRow (nextId (db w)) 0
        end
      ∧ match project (db w) !! Js.toString n with
        | Some old =>
            p_id p = p_id old ∧ p_creatorId p = p_creatorId old
            ∧ p_category p = p_category old ∧ p_currentFunds p = p_currentFunds old
        | None => p_creatorId p = u_id u ∧ p_category p = "uncategorized"
        end.
Proof.
  intros once. subst once.
  unfold ProjectCreatedHandler.handle, Prisma.upsertUser, projectId_toString, lift,
    show_num, Prisma.dateArgument.
  destruct (creator (data event)) as [c|]; [|by mrun].
  destruct (projectId (data event)) as [n|];
    [|by mrun; destruct (user (db w) !! c); mrun].
  destruct (Js.BigInt (fundingGoal (data event))) as [e|goal];
    [by mrun; destruct (user (db w) !! c); mrun|].
  destruct (deadline (data event)) as [d|];
    [|by mrun; destruct (user (db w) !! c); mrun].
  destruct (Js.isValidDate (Js.DateOfMillis (d * 1000)));
    [|by mrun; destruct (user (db w) !! c); mrun].
  intros _. mrun.
  destruct (user (db w) !! c) as [known|] eqn:Hu; mrun; tables;
    destruct (project (db w) !! Js.toString n) as [old|] eqn:Hp; mrun; tables;
    rewrite ?lookup_insert_eq, ?Hu, ?Hp; mrun; tables;
    rewrite ?lookup_insert_eq; mrun; tables; rows;
    (split; [done|]);
    (split; [by rewrite ?insert_insert_eq|]);
    eexists n, c, _, _;
    (split_and!; [done|done|
                  first [apply lookup_insert_eq|exact Hu]|
                  apply lookup_insert_eq|
                  try (rewrite ?Hu, ?Hp; rows; done)..]).
Qed.

Lemma ProjectCreated_idempotent_witness :
  let once := final (ProjectCreatedHandler.handle Scenario.projectCreatedNew
                       Sample.withProject) in
  final (ProjectCreatedHandler.handle Scenario.projectCreatedNew once) = once
  ∧ p_title <$> project (db once) !! "77" = Some "Project 77".
Proof.
  destruct (ProjectCreated_idempotent Scenario.projectCreatedNew Sample.withProject
              eq_refl) as (_ & Hsame & _).
  split; [exact Hsame|reflexivity].
Defined.

(** [project.update] by primary key succeeds for the key of a stored
    row. *)
Lemma updateProjectById_found (k : string) (p : ProjectRow) (pid : nat)
    (f : ProjectRow → ProjectRow) (w : World) :
  project (db w) !! k = Some p →
  p_id p = pid →
  Prisma.updateProjectById pid f w
  = mkRes (Returned tt)
      (set_db (set_project
         (fmap (λ row, if bool_decide (p_id row = pid) then f row else row))) w) [].
Proof.
  intros Hp Hid. unfold Prisma.updateProjectById. mrun.
  rewrite bool_decide_eq_true_2; [done|].
  apply Exists_exists. exists (k, p). split; [|done].
  by apply elem_of_map_to_list.
Qed.

Lemma fundsOf_twice (pid : nat) (total : Z) (m : gmap string ProjectRow) :
  fundsOf pid total <$> (fundsOf pid total <$> m) = fundsOf pid total <$> m.
Proof.
  rewrite <- map_fmap_compose. apply map_fmap_ext.
  intros k row _. unfold compose, fundsOf.
  destruct (bool_decide (p_id row = pid)) eqn:Hid; rows; rewrite ?Hid; done.
Qed.

Lemma fundsOf_id (pid : nat) (total : Z) (row : ProjectRow) :
  p_id (fundsOf pid total row) = p_id row.
Proof. unfold fundsOf. by destruct (bool_decide _). Qed.

(** What [ContributionMadeHandler.handle] does for a stored project and
    an event with a valid close time: the contributor is created if
    unknown, the contribution row is created unless the transaction hash
    has one, and the rows with the project's primary key get the reported
    total. *)
Lemma ContributionMade_known (event : ParsedContractEvent) (w : World) (c : string)
    (n amt total : Z) (p : ProjectRow) :
  contributor (data event) = Some c →
  projectId (data event) = Some n →
  project (db w) !! Js.toString n = Some p →
  Js.BigInt (amount (data event)) = inr amt →
  Js.isValidDate (ledgerClosedAt event) = true →
  Js.BigInt (totalRaised (data event)) = inr total →
  let u := default (mkUserRow (nextId (db w)) 0) (user (db w) !! c) in
  let w1 := match user (db w) !! c with
            | Some _ => w
            | None => set_db (set_user <[c := u]>) (set_db (set_nextId S) w)
            end in
  let w2 := match contribution (db w) !! transactionHash event with
            | Some _ => w1
            | None =>
                set_db (set_contribution <[transactionHash event :=
                  mkContributionRow (u_id u) (p_id p) amt (ledgerClosedAt event)]>) w1
            end in
  outcome (ContributionMadeHandler.handle event w) = Returned tt
  ∧ final (ContributionMadeHandler.handle event w)
    = set_db (set_project (fmap (fundsOf (p_id p) total))) w2.
Proof.
  intros Hc Hn Hp Hamt Hdate Htotal u w1 w2. subst u w1 w2.
  unfold ContributionMadeHandler.handle, Prisma.upsertUser, projectId_toString,
    Prisma.findProject, lift, show_num, Prisma.dateArgument.
  rewrite Hc, Hn, Hamt, Hdate, Htotal. mrun.
  destruct (user (db w) !! c) as [known|] eqn:Hu; mrun; tables; rewrite Hp; mrun;
    (destruct (contribution (db w) !! transactionHash event) as [row|] eqn:Hrow;
     mrun; tables);
    (erewrite (updateProjectById_found (Js.toString n) p); [|tables; exact Hp|done]);
    mrun; tables; done.
Qed.

(** For a project that is not stored the handler only makes sure the
    contributor exists, and warns. *)
Lemma ContributionMade_unknown (event : ParsedContractEvent) (w : World) (c : string)
    (n : Z) :
  contributor (data event) = Some c →
  projectId (data event) = Some n →
  project (db w) !! Js.toString n = None →
  outcome (ContributionMadeHandler.handle event w) = Returned tt
  ∧ final (ContributionMadeHandler.handle event w)
    = match user (db w) !! c with
      | Some _ => w
      | None => set_db (set_user <[c := mkUserRow (nextId (db w)) 0]>)
                  (set_db (set_nextId S) w)
      end
  ∧ Logged WARN ("Project " +:+ Js.toString n +:+ " not found for contribution")
    ∈ effects (ContributionMadeHandler.handle event w).
Proof.
  intros Hc Hn Hp.
  unfold ContributionMadeHandler.handle, Prisma.upsertUser, projectId_toString,
    Prisma.findProject, lift, show_num.
  rewrite Hc, Hn. mrun.
  destruct (user (db w) !! c) as [known|] eqn:Hu; mrun; tables; rewrite Hp;
    (split_and!; [done|done|set_solver]).
Qed.

(** The handler returns only for an event with a contributor and a project
    id whose amounts parse and whose close time is a date when the project
    is stored. *)
Lemma ContributionMade_returns (event : ParsedContractEvent) (w : World) :
  outcome (ContributionMadeHandler.handle event w) = Returned tt →
  ∃ c n, contributor (data event) = Some c ∧ projectId (data event) = Some n
    ∧ (project (db w) !! Js.toString n = None
       ∨ ∃ p amt total, project (db w) !! Js.toString n = Some p
           ∧ Js.BigInt (amount (data event)) = inr amt
           ∧ Js.isValidDate (ledgerClosedAt event) = true
           ∧ Js.BigInt (totalRaised (data event)) = inr total).
Proof.
  unfold ContributionMadeHandler.handle, Prisma.upsertUser, projectId_toString,
    Prisma.findProject, lift, show_num, Prisma.dateArgument.
  destruct (contributor (data event)) as [c|]; [|by mrun].
  destruct (projectId (data event)) as [n|];
    [|by mrun; destruct (user (db w) !! c); mrun].
  intros Hret. exists c, n. split; [done|]. split; [done|].
  destruct (project (db w) !! Js.toString n) as [p|] eqn:Hp; [right|by left].
  exists p.
  destruct (Js.BigInt (amount (data event))) as [e|amt];
    [exfalso; revert Hret; mrun; destruct (user (db w) !! c); mrun; tables;
     rewrite Hp; by mrun|].
  destruct (Js.isValidDate (ledgerClosedAt event));
    [|exfalso; revert Hret; mrun; destruct (user (db w) !! c); mrun; tables;
      rewrite Hp; by mrun].
  destruct (Js.BigInt (totalRaised (data event))) as [e|total]; [exfalso|by eauto 10].
  revert Hret. mrun.
  destruct (user (db w) !! c); mrun; tables; rewrite Hp; mrun;
    by destruct (contribution (db w) !! transactionHash event); mrun.
Qed.

(** X19. Recording a contribution is idempotent.  If
    [ContributionMadeHandler] handles an event, handling the same event
    again returns and leaves the world exactly as the first time left
    it. *)
Theorem ContributionMade_idempotent (event : ParsedContractEvent) (w : World) :
  let once := ContributionMadeHandler.handle event w in
  outcome once = Returned tt →
  outcome (ContributionMadeHandler.handle event (final once)) = Returned tt
  ∧ final (ContributionMadeHandler.handle event (final once)) = final once.
Proof.
  intros once Hret. subst once.
  destruct (ContributionMade_returns _ _ Hret)
    as (c & n & Hc & Hn & [Hp|(p & amt & total & Hp & Hamt & Hdate & Htotal)]).
  - destruct (ContributionMade_unknown event w c n Hc Hn Hp) as (_ & -> & _).
    assert (∃ u, user (db (match user (db w) !! c with
                           | Some _ => w
                           | None => set_db (set_user <[c := mkUserRow (nextId (db w)) 0]>)
                                       (set_db (set_nextId S) w)
                           end)) !! c = Some u) as [u Hu].
    { destruct (user (db w) !! c) eqn:Hu; [by eauto|].
      tables. eexists. apply lookup_insert_eq. }
    edestruct (ContributionMade_unknown event) as (-> & -> & _); [exact Hc|exact Hn| |].
    + by destruct (user (db w) !! c); tables.
    + by rewrite Hu.
  - destruct (ContributionMade_known event w c n amt total p Hc Hn Hp Hamt Hdate Htotal)
      as [_ ->].
    set (w2 := match contribution (db w) !! transactionHash event with
               | Some _ => _ | None => _ end).
    assert (project (db w2) = project (db w)) as Hproj.
    { subst w2. by destruct (contribution (db w) !! _), (user (db w) !! c); tables. }
    assert (is_Some (user (db w2) !! c)) as [u Hu].
    { subst w2. destruct (contribution (db w) !! _), (user (db w) !! c) eqn:Hu;
        tables; rewrite ?lookup_insert_eq, ?Hu; by eauto. }
    assert (is_Some (contribution (db w2) !! transactionHash event)) as [row Hrow].
    { subst w2. destruct (contribution (db w) !! _) eqn:Hrow, (user (db w) !! c);
        tables; rewrite ?lookup_insert_eq, ?Hrow; by eauto. }
    clearbody w2.
    edestruct (ContributionMade_known event
                 (set_db (set_project (fmap (fundsOf (p_id p) total))) w2))
      as [-> ->]; [exact Hc|exact Hn| |exact Hamt|exact Hdate|exact Htotal|].
    { tables. rewrite lookup_fmap, Hproj, Hp. reflexivity. }
    split; [done|]. tables. rewrite Hu, Hrow, fundsOf_id. tables.
    by rewrite fundsOf_twice.
Qed.

Lemma ContributionMade_idempotent_witness :
  let once := final (ContributionMadeHandler.handle Scenario.contribution
                       Sample.withProject) in
  final (ContributionMadeHandler.handle Scenario.contribution once) = once
  ∧ p_currentFunds <$> project (db once) !! "42" = Some 350.
Proof.
  destruct (ContributionMade_idempotent Scenario.contribution Sample.withProject
              eq_refl) as [_ Hsame].
  split; [exact Hsame|reflexivity].
Defined.



(** X21. A contribution to a project that is not stored is not an error,
    whatever its amounts: the handler warns and returns, records no
    contribution and changes no project or milestone, but the contributor
    has become a user all the same, and no other user has changed. *)
Theorem ContributionMade_unknown_project (event : ParsedContractEvent) (w : World)
    (c : string) (n : Z) :
  contributor (data event) = Some c →
  projectId (data event) = Some n →
  project (db w) !! Js.toString n = None →
  let r := ContributionMadeHandler.handle event w in
  outcome r = Returned tt
  ∧ Logged WARN ("Project " +:+ Js.toString n +:+ " not found for contribution")
    ∈ effects r
  ∧ is_Some (user (db (final r)) !! c)
  ∧ (∀ c', c' ≠ c → user (db (final r)) !! c' = user (db w) !! c')
  ∧ project (db (final r)) = project (db w)
  ∧ contribution (db (final r)) = contribution (db w)
  ∧ milestone (db (final r)) = milestone (db w).
Proof.
  intros Hc Hn Hp r. subst r.
  destruct (ContributionMade_unknown event w c n Hc Hn Hp) as (-> & -> & Hwarn).
  split; [done|]. split; [exact Hwarn|].
  destruct (user (db w) !! c) as [known|] eqn:Hu; tables.
  - by rewrite Hu.
  - rewrite lookup_insert_eq. split_and!; [by eauto| |done..].
    intros c' Hne. by rewrite lookup_insert_ne.
Qed.

Lemma ContributionMade_unknown_project_witness :
  let r := ContributionMadeHandler.handle Sample.contributionNoTotalUnknown
             Sample.withProject in
  outcome r = Returned tt
  ∧ contribution (db (final r)) = contribution (db Sample.withProject).
Proof.
  destruct (ContributionMade_unknown_project Sample.contributionNoTotalUnknown
              Sample.withProject "GINVESTOR" 99 eq_refl eq_refl eq_refl)
    as (Hret & _ & _ & _ & _ & Hcontribution & _).
  split; [exact Hret|exact Hcontribution].
Defined.

(** ** Status and milestone handlers *)

Section status.
Import ProjectCompletedHandler ProjectFailedHandler.

(** What the two status handlers do to the world. *)
Lemma status_handlers_run (event : ParsedContractEvent) (w : World) (n : Z) :
  projectId (data event) = Some n →
  outcome (ProjectCompletedHandler.handle event w) = Returned tt
  ∧ final (ProjectCompletedHandler.handle event w)
    = set_db (set_project (alter (setStatus "COMPLETED") (Js.toString n))) w
  ∧ outcome (ProjectFailedHandler.handle event w) = Returned tt
  ∧ final (ProjectFailedHandler.handle event w)
    = set_db (set_project (alter (setStatus "CANCELLED") (Js.toString n))) w.
Proof.
  intros Hn.
  unfold ProjectCompletedHandler.handle, ProjectFailedHandler.handle,
    projectId_toString, Prisma.updateProjectsByContractId.
  rewrite Hn. by mrun.
Qed.

End status.

(** X22. The status handlers know no order of states: the last event
    wins.  For a stored project, completion stores status COMPLETED, a
    later failure of the same project overwrites it with CANCELLED, and
    completion after that brings back exactly the world after the first
    completion.  Only the status of the project with that contract id ever
    changes. *)
Theorem status_handlers_last_wins (completed failed : ParsedContractEvent)
    (w : World) (n : Z) (p : ProjectRow) :
  projectId (data completed) = Some n →
  projectId (data failed) = Some n →
  project (db w) !! Js.toString n = Some p →
  let w1 := final (ProjectCompletedHandler.handle completed w) in
  let w2 := final (ProjectFailedHandler.handle failed w1) in
  let w3 := final (ProjectCompletedHandler.handle completed w2) in
  project (db w1) !! Js.toString n = Some (setStatus "COMPLETED" p)
  ∧ project (db w2) !! Js.toString n = Some (setStatus "CANCELLED" p)
  ∧ w3 = w1
  ∧ (∀ k, k ≠ Js.toString n → project (db w2) !! k = project (db w) !! k)
  ∧ user (db w2) = user (db w)
  ∧ contribution (db w2) = contribution (db w)
  ∧ milestone (db w2) = milestone (db w).
Proof.
  intros Hc Hf Hp w1 w2 w3. subst w1 w2 w3.
  destruct (status_handlers_run completed w n Hc) as (_ & -> & _).
  destruct (status_handlers_run failed
              (set_db (set_project (alter (setStatus "COMPLETED") (Js.toString n))) w)
              n Hf) as (_ & _ & _ & ->).
  destruct (status_handlers_run completed
              (set_db (set_project (alter (setStatus "CANCELLED") (Js.toString n)))
                 (set_db (set_project (alter (setStatus "COMPLETED") (Js.toString n))) w))
              n Hc) as (_ & -> & _).
  tables. split_and!; [| | |intros k Hne|done..].
  - by rewrite lookup_alter_eq, Hp.
  - by rewrite !lookup_alter_eq, Hp.
  - do 2 f_equal. apply map_eq. intros k.
    destruct (decide (k = Js.toString n)) as [->|Hne].
    + rewrite !lookup_alter_eq. by destruct (project (db w) !! Js.toString n).
    + by rewrite !lookup_alter_ne.
  - by rewrite !lookup_alter_ne.
Qed.

Lemma status_handlers_last_wins_witness :
  let w1 := final (ProjectCompletedHandler.handle Scenario.projectCompleted
                     Sample.withProject) in
  let w2 := final (ProjectFailedHandler.handle Scenario.projectCompleted w1) in
  project (db w1) !! "42"
  = Some (mkProjectRow 7 3 "Project 42" "uncategorized" 1000
            (Js.DateOfMillis 1700000000000) "COMPLETED" 0)
  ∧ project (db w2) !! "42"
    = Some (mkProjectRow 7 3 "Project 42" "uncategorized" 1000
              (Js.DateOfMillis 1700000000000) "CANCELLED" 0).
Proof.
  destruct (status_handlers_last_wins Scenario.projectCompleted Scenario.projectCompleted
              Sample.withProject 42
              (mkProjectRow 7 3 "Project 42" "uncategorized" 1000
                 (Js.DateOfMillis 1700000000000) "ACTIVE" 0)
              eq_refl eq_refl eq_refl) as (H1 & H2 & _).
  split; [exact H1|exact H2].
Defined.

(** X23. A status event for a project that is not stored changes nothing
    and is not noticed: unlike the other handlers, the two status handlers
    log no warning but the same two lines as for a stored project, the
    second saying that the project was marked. *)
Theorem status_handlers_unknown_project (event : ParsedContractEvent) (w : World)
    (n : Z) :
  projectId (data event) = Some n →
  project (db w) !! Js.toString n = None →
  ProjectCompletedHandler.handle event w
  = mkRes (Returned tt) w
      [ Logged LOG ("Processing PROJECT_COMPLETED: Project " +:+ Js.toString n);
        Logged LOG ("Marked project " +:+ Js.toString n +:+ " as completed") ]
  ∧ ProjectFailedHandler.handle event w
    = mkRes (Returned tt) w
        [ Logged LOG ("Processing PROJECT_FAILED: Project " +:+ Js.toString n);
          Logged LOG ("Marked project " +:+ Js.toString n +:+ " as failed/cancelled") ].
Proof.
  intros Hn Hp.
  unfold ProjectCompletedHandler.handle, ProjectFailedHandler.handle,
    projectId_toString, Prisma.updateProjectsByContractId, show_num.
  rewrite Hn. mrun. tables.
  destruct w as [[cursors seen users projects contributions milestones logs next]
                 ledgers pages running stopping].
  cbn in *. by rewrite !alter_id by (intros ? Hx; by rewrite Hp in Hx).
Qed.

Lemma status_handlers_unknown_project_witness :
  final (ProjectCompletedHandler.handle Scenario.projectCompleted Sample.at100)
  = Sample.at100.
Proof.
  destruct (status_handlers_unknown_project Scenario.projectCompleted Sample.at100 42
              eq_refl eq_refl) as [-> _].
  reflexivity.
Defined.

(** X24. A milestone approval followed by a release of funds, with a
    valid close time, for the same stored project: both are handled, the
    number of milestone rows is unchanged, every milestone of the project ends funded and stamped with
    the close time of the release, whatever its state was and whichever
    milestone the events name, every other milestone is as it was, and no
    project row changes. *)
Theorem milestone_approval_then_release (approved released : ParsedContractEvent)
    (w : World) (n : Z) (p : ProjectRow) :
  projectId (data approved) = Some n →
  projectId (data released) = Some n →
  project (db w) !! Js.toString n = Some p →
  Js.isValidDate (ledgerClosedAt released) = true →
  let r1 := MilestoneApprovedHandler.handle approved w in
  let r2 := FundsReleasedHandler.handle released (final r1) in
  outcome r1 = Returned tt ∧ outcome r2 = Returned tt
  ∧ length (milestone (db (final r2))) = length (milestone (db w))
  ∧ (∀ i row, milestone (db w) !! i = Some row →
       milestone (db (final r2)) !! i
       = Some (if bool_decide (m_projectId row = p_id p)
               then mkMilestoneRow (m_id row) (m_projectId row) "FUNDED"
                                   (Some (ledgerClosedAt released))
               else row))
  ∧ project (db (final r2)) = project (db w).
Proof.
  intros Ha Hr Hp Hdate r1 r2. subst r1 r2.
  unfold MilestoneApprovedHandler.handle, FundsReleasedHandler.handle,
    projectId_toString, Prisma.findProject, Prisma.updateMilestonesOfProject,
    Prisma.dateArgument.
  rewrite Ha, Hr, Hdate. mrun. rewrite Hp. mrun. tables. rewrite Hp. mrun. tables.
  split_and!; [done|done|by rewrite !length_map| |done].
  intros i row Hrow. rewrite !list_lookup_fmap, Hrow. cbn.
  destruct (bool_decide (m_projectId row = p_id p)) eqn:Hid; cbn; by rewrite Hid.
Qed.

Lemma milestone_approval_then_release_witness :
  milestone (db (final (FundsReleasedHandler.handle Sample.fundsReleased
              (final (MilestoneApprovedHandler.handle Sample.milestoneApproved
                        Sample.withProject))))) !! 1%nat
  = Some (mkMilestoneRow 12 7 "FUNDED" (Some (Js.DateOfString "2024-01-01T00:00:00Z"))).
Proof.
  destruct (milestone_approval_then_release Sample.milestoneApproved Sample.fundsReleased
              Sample.withProject 42
              (mkProjectRow 7 3 "Project 42" "uncategorized" 1000
                 (Js.DateOfMillis 1700000000000) "ACTIVE" 0)
              eq_refl eq_refl eq_refl eq_refl) as (_ & _ & _ & Hrows & _).
  apply (Hrows 1%nat (mkMilestoneRow 12 7 "SUBMITTED" None)). reflexivity.
Defined.

(** ** What validation guarantees *)



(** ** Shutdown *)

(** The waiting loop of [onModuleDestroy] in a world where nothing else
    runs. *)
Lemma awaitIdle_run (fuel : nat) (w : World) :
  IndexerStartup.awaitIdle fuel w
  = if isRunning w
    then mkRes (Returned false) w (replicate fuel (Slept 100))
    else mkRes (Returned true) w [].
Proof.
  induction fuel as [|fuel IH]; cbn [IndexerStartup.awaitIdle]; mrun.
  - by destruct (isRunning w).
  - destruct (isRunning w) eqn:Hrun; [|done]. mrun. by rewrite IH.
Qed.

(** X26. Shutdown.  [onModuleDestroy] raises the shutdown flag and touches
    nothing else.  With no cycle running it returns at once, without
    sleeping, and from then on [scheduledPoll] does nothing.  While the
    running flag stays set it does not return: it sleeps 100 ms per round,
    for as many rounds as it is given. *)
Theorem onModuleDestroy_stops_polling (cfg : Config) (fuel : nat) (w : World) :
  let r := IndexerStartup.onModuleDestroy fuel w in
  final r = set_isShuttingDown true w
  ∧ (isRunning w = false →
       outcome r = Returned true ∧ sleeps (effects r) = []
       ∧ IndexerService.scheduledPoll cfg (final r) = mkRes (Returned tt) (final r) [])
  ∧ (isRunning w = true →
       outcome r = Returned false ∧ sleeps (effects r) = replicate fuel 100).
Proof.
  intros r. subst r. unfold IndexerStartup.onModuleDestroy. mrun.
  rewrite awaitIdle_run. cbn [isRunning set_isShuttingDown].
  destruct (isRunning w) eqn:Hrun; mrun.
  - split_and!; [done|done|]. intros _. split; [done|].
    clear. induction fuel as [|fuel IH]; [done|].
    cbn [replicate app]. cbn in *. by rewrite IH.
  - split_and!; [done| |done]. intros _. split_and!; [done|done|].
    unfold IndexerService.scheduledPoll. by mrun.
Qed.

Lemma onModuleDestroy_stops_polling_witness :
  let stopped := final (IndexerStartup.onModuleDestroy 3 Sample.threeEvents) in
  outcome (IndexerStartup.onModuleDestroy 3 Sample.threeEvents) = Returned true
  ∧ IndexerService.scheduledPoll Sample.cfg stopped = mkRes (Returned tt) stopped [].
Proof.
  destruct (onModuleDestroy_stops_polling Sample.cfg 3 Sample.threeEvents)
    as (_ & Hidle & _).
  destruct (Hidle eq_refl) as (Hret & _ & Hpoll).
  split; [exact Hret|exact Hpoll].
Defined.

(** ** Instances *)

(** Re-initialising the cursor of one network at ledger 50 leaves the row
    of another network alone. *)
Lemma initializeCursor_read_back_witness :
  ledgerCursor (db (final (LedgerTrackerService.initializeCursor Sample.cfg 50
                             Sample.at100))) !! "mainnet"
  = ledgerCursor (db Sample.at100) !! "mainnet".
Proof.
  destruct (initializeCursor_read_back Sample.cfg 50 Sample.at100)
    as (c & _ & _ & _ & _ & _ & Hother & _).
  apply Hother. discriminate.
Defined.

(** A cycle over three events leaves the row of another network alone. *)
Lemma pollEvents_cursor_monotone_witness :
  ledgerCursor (db (final (IndexerService.pollEvents Sample.cfg Sample.threeEvents)))
    !! "mainnet"
  = ledgerCursor (db Sample.threeEvents) !! "mainnet".
Proof.
  destruct (pollEvents_cursor_monotone Sample.cfg Sample.threeEvents) as [Hother _].
  apply Hother. discriminate.
Defined.

(** The symbol of a contribution is the tag of its type. *)
Lemma parseEventType_round_trip_witness : tag CONTRIBUTION_MADE = "contrib".
Proof.
  destruct parseEventType_round_trip as (_ & Hsome & _).
  apply Hsome. reflexivity.
Defined.
